(** * practice: the status poller and the chat form

    A shallow embedding of [StatusPanel.js] and [ChatPanel.js], two React
    function components, and the properties their specification states.

    How the JavaScript is read:

    - A function component runs once per render.  The values [useState]
      returns are [const]s of that run, and every function the run defines
      ([pollLambda], [startPolling], [handleSubmit], ...) closes over them.
      A closure never sees a later value of a state variable: it reads the
      [State] of the render that created it.  Below, a closure is a function
      of that [State], its first argument [r].
    - A setter ([setStatusMessage], ...) and a write to a [useRef] cell act
      on the component instance, the [World]; a ref is read live.
    - [await fetch(...)] splits an async function in two: the part that runs
      at the call, which issues the request, and the continuation, which runs
      when the host answers.  A request in flight is a [Request] of the world,
      holding the closure that resumes.
    - [setInterval] stores the function object it is given: every tick of one
      interval calls the same closure. *)

From Stdlib Require Import String Ascii List Bool Arith PArith Lia Floats.
From Stdlib Require Import DecimalString Sorted Permutation.
Import ListNotations.
Local Open Scope string_scope.
#[local] Set Warnings "-register-all".

(** ** JavaScript values, completions and the host *)

Module JS.

(** What [JSON.parse] can return, and [undefined] (the value of a property
    that is absent).  Numbers are IEEE doubles, as in the language. *)
Inductive value : Type :=
| VUndefined
| VNull
| VBool (b : bool)
| VNum (n : float)
| VStr (s : string)
| VArr (items : list value)
| VObj (fields : list (string * value)).

(** An exception object: the two fields the code reads or prints. *)
Record Exn : Type := mkExn { name : string; message : string }.

(** The outcome of evaluating an expression or awaiting a promise. *)
Inductive Completion (A : Type) : Type :=
| Ok (a : A)
| Thrown (e : Exn).
Arguments Ok {A} a.
Arguments Thrown {A} e.

(** [ToBoolean]: [undefined], [null], [false], [0], [-0], [NaN] and the
    empty string are falsy; every object, and so every array, is truthy. *)
Definition truthy (v : value) : bool :=
  match v with
  | VUndefined | VNull => false
  | VBool b => b
  | VNum n => negb (PrimFloat.is_zero n) && negb (PrimFloat.is_nan n)
  | VStr s => negb (s =? EmptyString)
  | VArr _ | VObj _ => true
  end.

(** [a === b] for two values that do not share an object: primitives compare
    by type and value, an object is equal to itself only.  Every comparison
    of the components has a fresh result of [JSON.parse] on one side and a
    literal or the result of an earlier parse on the other. *)
Definition strict_eq (a b : value) : bool :=
  match a, b with
  | VUndefined, VUndefined => true
  | VNull, VNull => true
  | VBool x, VBool y => Bool.eqb x y
  | VNum x, VNum y => PrimFloat.eqb x y
  | VStr x, VStr y => (x =? y)
  | _, _ => false
  end.

Fixpoint lookup (k : string) (fields : list (string * value)) : value :=
  match fields with
  | [] => VUndefined
  | (k', v) :: rest => if k =? k' then v else lookup k rest
  end.

(** V8's wording of the TypeError for a property read on [null] or
    [undefined]; the wording is the engine's and nothing below depends on it. *)
Definition TypeError_read (base k : string) : Exn :=
  mkExn "TypeError"
        ("Cannot read properties of " ++ base ++ " (reading '" ++ k ++ "')").

(** V8's wording of the TypeError for an object that has no primitive
    value. *)
Definition TypeError_convert : Exn :=
  mkExn "TypeError" "Cannot convert object to primitive value".

(** An own property [k] among the fields of an object. *)
Definition has_own (k : string) (fields : list (string * value)) : bool :=
  existsb (fun kv => k =? fst kv) fields.

(** [v.k] for the property names the components read ([statusCode], [body],
    [status], [response], [message], [processing_time]): an own property of
    an object, [undefined] on any other value that has properties (no
    prototype defines one of these names), a TypeError on [null] and
    [undefined]. *)
Definition get (v : value) (k : string) : Completion value :=
  match v with
  | VUndefined => Thrown (TypeError_read "undefined" k)
  | VNull => Thrown (TypeError_read "null" k)
  | VObj fields => Ok (lookup k fields)
  | _ => Ok VUndefined
  end.

Definition and_then {A B} (c : Completion A) (k : A -> Completion B) : Completion B :=
  match c with
  | Ok a => k a
  | Thrown e => Thrown e
  end.

(** [a || b], with [b] evaluated only when [a] is falsy. *)
Definition or_else (a : value) (b : Completion value) : Completion value :=
  if truthy a then Ok a else b.

(** The built-ins the components call and this development does not
    re-implement. *)
Record Host : Type := mkHost {
  (** [JSON.parse] on a string: the value, or the SyntaxError. *)
  JSON_parse : string -> Completion value;
  (** [JSON.stringify] on a value [JSON.parse] can return. *)
  JSON_stringify : value -> string;
  (** [Number.prototype.toString]. *)
  Number_toString : float -> string
}.

Section Coercions.
Variable host : Host.

(** [ToString], the coercion of a template literal and of [JSON.parse] on
    an argument that is not a string.  An array prints its elements
    separated by commas, with nothing for [null] and [undefined].  An
    object prints through the [toString] it inherits; one with a property
    [toString] of its own, which no value of [JSON.parse] can call (and
    the [valueOf] it inherits returns the object), cannot be converted: a
    TypeError, also when it is an element of an array. *)
Fixpoint ToString (v : value) : Completion string :=
  match v with
  | VUndefined => Ok "undefined"
  | VNull => Ok "null"
  | VBool true => Ok "true"
  | VBool false => Ok "false"
  | VNum n => Ok (Number_toString host n)
  | VStr s => Ok s
  | VArr items =>
      and_then
        ((fix each (l : list value) : Completion (list string) :=
            match l with
            | [] => Ok []
            | x :: rest =>
                and_then match x with
                         | VUndefined | VNull => Ok EmptyString
                         | _ => ToString x
                         end (fun printed =>
                and_then (each rest) (fun others => Ok (printed :: others)))
            end) items)
        (fun printed => Ok (String.concat "," printed))
  | VObj fields =>
      if has_own "toString" fields then Thrown TypeError_convert
      else Ok "[object Object]"
  end.

(** [JSON.parse(v)] for an arbitrary value [v]. *)
Definition JSON_parse_value (v : value) : Completion value :=
  and_then (ToString v) (JSON_parse host).
End Coercions.

(** Strings are sequences of UTF-16 code units; the model takes the code
    units below 256, one [ascii] each.  Among these the white space and
    line terminators that [String.prototype.trim] strips are TAB, LF, VT, FF,
    CR, SPACE and NBSP. *)
Definition is_whitespace (c : ascii) : bool :=
  let n := nat_of_ascii c in
  (((9 <=? n) && (n <=? 13)) || (n =? 32) || (n =? 160))%nat.

Fixpoint trimStart (s : string) : string :=
  match s with
  | EmptyString => EmptyString
  | String c rest => if is_whitespace c then trimStart rest else s
  end.

Fixpoint trimEnd (s : string) : string :=
  match s with
  | EmptyString => EmptyString
  | String c rest =>
      match trimEnd rest with
      | EmptyString => if is_whitespace c then EmptyString else String c EmptyString
      | t => String c t
      end
  end.

Definition trim (s : string) : string := trimEnd (trimStart s).

(** A string made of white space only; the empty string is one. *)
Fixpoint whitespace_only (s : string) : bool :=
  match s with
  | EmptyString => true
  | String c rest => is_whitespace c && whitespace_only rest
  end.

(** The decimal digits of a natural number, as a template literal prints
    it. *)
Definition string_of_nat (n : nat) : string :=
  NilZero.string_of_uint (Nat.to_uint n).

(** The two readings of the clock the components take: [Date.now()] and
    [new Date().toLocaleTimeString([], ...)]. *)
Record Clock : Type := mkClock { now : float; localeTime : string }.

(** A [Response] of [fetch]: [ok] is true for a 2xx status; [text] is what
    [await response.text()] gives, which throws when the body cannot be
    read. *)
Record Response : Type := mkResponse {
  ok : bool;
  http_status : nat;
  statusText : string;
  text : Completion string
}.

(** What [await fetch(...)] gives: a response, or the rejection. *)
Definition FetchResult : Type := Completion Response.

(** ** Code with effects

    A computation over a store [S] returns a completion and the store it
    leaves; what was written before a [throw] stays written. *)
Definition Eff (S A : Type) : Type := S -> Completion A * S.

Definition ret {S A} (a : A) : Eff S A := fun s => (Ok a, s).

Definition throw {S A} (e : Exn) : Eff S A := fun s => (Thrown e, s).

Definition bind {S A B} (c : Eff S A) (k : A -> Eff S B) : Eff S B :=
  fun s => match c s with
           | (Ok a, s') => k a s'
           | (Thrown e, s') => (Thrown e, s')
           end.

(** An expression that only computes a completion. *)
Definition eval {S A} (c : Completion A) : Eff S A := fun s => (c, s).

(** A statement that only writes the store. *)
Definition exec {S} (f : S -> S) : Eff S unit := fun s => (Ok tt, f s).

Definition read {S A} (f : S -> A) : Eff S A := fun s => (Ok (f s), s).

(** [try { body } catch (e) { handler e }]. *)
Definition try_catch {S A} (body : Eff S A) (handler : Exn -> Eff S A) : Eff S A :=
  fun s => match body s with
           | (Ok a, s') => (Ok a, s')
           | (Thrown e, s') => handler e s'
           end.

(** [try { body } finally { final }], for a [final] that does not throw. *)
Definition try_finally {S A} (body : Eff S A) (final : S -> S) : Eff S A :=
  fun s => let (c, s') := body s in (c, final s').

End JS.

Import JS.

Declare Scope eff_scope.
Delimit Scope eff_scope with eff.
Notation "x <- c ;; k" := (bind c (fun x => k))
  (at level 61, c at next level, right associativity) : eff_scope.
Notation "c ;; k" := (bind c (fun _ => k))
  (at level 61, right associativity) : eff_scope.

(** ** StatusPanel.js *)

Module StatusPanel.

Definition BASE_URL : string :=
  "https://xba04ftzkk.execute-api.us-east-1.amazonaws.com/dev".
Definition STATUS : string := "/status".

(** An element of [statusHistory].  [id] is a JavaScript number that only
    ever holds a count of insertions, which a double holds exactly far
    beyond the longest array; it is a natural number here. *)
Record StatusEntry : Type := mkEntry {
  id : nat;
  status : value;
  timestamp : float
}.

(** The five [useState] variables: what one render sees. *)
Record State : Type := mkState {
  statusMessage : value;
  statusHistory : list StatusEntry;
  isPolling : bool;
  apiEndpoint : string;
  connectionStatus : string
}.

(** An entry of the host's timer table: [setInterval(callback, delay)].
    The callback is [pollLambda] of the render [callback]. *)
Record Interval : Type := mkInterval {
  handle : positive;
  callback : State;
  delay : nat
}.

(** A [fetch] in flight; [resume] is the render whose [pollLambda] awaits
    the answer. *)
Record Request : Type := mkRequest {
  url : string;
  method : string;
  resume : State
}.

(** A mounted component and the host state it touches: the state variables,
    the three refs, the timer table with the next handle [setInterval] will
    return (an integer greater than zero), and the requests in flight. *)
Record World : Type := mkWorld {
  state : State;
  pollIntervalRef : option positive;
  historyIdCounter : nat;
  previousStatusRef : value;
  intervals : list Interval;
  nextHandle : positive;
  requests : list Request
}.

(** The component as [useState] and [useRef] initialise it. *)
Definition mount : World :=
  mkWorld (mkState (VStr EmptyString) [] false BASE_URL "Ready")
          None 0 (VStr EmptyString) [] 1%positive [].

(** *** Writes *)

Definition with_state (f : State -> State) (w : World) : World :=
  mkWorld (f (state w)) (pollIntervalRef w) (historyIdCounter w)
          (previousStatusRef w) (intervals w) (nextHandle w) (requests w).

Definition setStatusMessage (v : value) : World -> World :=
  with_state (fun s => mkState v (statusHistory s) (isPolling s)
                               (apiEndpoint s) (connectionStatus s)).

(** [setStatusHistory(update)], with a function of the previous value. *)
Definition setStatusHistory (update : list StatusEntry -> list StatusEntry)
  : World -> World :=
  with_state (fun s => mkState (statusMessage s) (update (statusHistory s))
                               (isPolling s) (apiEndpoint s) (connectionStatus s)).

Definition setIsPolling (b : bool) : World -> World :=
  with_state (fun s => mkState (statusMessage s) (statusHistory s) b
                               (apiEndpoint s) (connectionStatus s)).

Definition setApiEndpoint (e : string) : World -> World :=
  with_state (fun s => mkState (statusMessage s) (statusHistory s) (isPolling s)
                               e (connectionStatus s)).

Definition setConnectionStatus (c : string) : World -> World :=
  with_state (fun s => mkState (statusMessage s) (statusHistory s) (isPolling s)
                               (apiEndpoint s) c).

Definition set_pollIntervalRef (h : option positive) (w : World) : World :=
  mkWorld (state w) h (historyIdCounter w) (previousStatusRef w)
          (intervals w) (nextHandle w) (requests w).

Definition set_historyIdCounter (n : nat) (w : World) : World :=
  mkWorld (state w) (pollIntervalRef w) n (previousStatusRef w)
          (intervals w) (nextHandle w) (requests w).

Definition set_previousStatusRef (v : value) (w : World) : World :=
  mkWorld (state w) (pollIntervalRef w) (historyIdCounter w) v
          (intervals w) (nextHandle w) (requests w).

Definition set_requests (q : list Request) (w : World) : World :=
  mkWorld (state w) (pollIntervalRef w) (historyIdCounter w)
          (previousStatusRef w) (intervals w) (nextHandle w) q.

(** *** The host's timers and network *)

(** [setInterval(pollLambda, delay)] called in render [r]: a new entry of
    the timer table, and its handle. *)
Definition setInterval (r : State) (ms : nat) (w : World) : positive * World :=
  (nextHandle w,
   mkWorld (state w) (pollIntervalRef w) (historyIdCounter w)
           (previousStatusRef w)
           (intervals w ++ [mkInterval (nextHandle w) r ms])%list
           (Pos.succ (nextHandle w)) (requests w)).

Definition clearInterval (h : positive) (w : World) : World :=
  mkWorld (state w) (pollIntervalRef w) (historyIdCounter w)
          (previousStatusRef w)
          (filter (fun i => negb (Pos.eqb (handle i) h)) (intervals w))
          (nextHandle w) (requests w).

(** [fetch(u, { method: m, ... })] called in render [r]. *)
Definition fetch (u m : string) (r : State) (w : World) : World :=
  set_requests (requests w ++ [mkRequest u m r])%list w.

(** *** The component's functions *)

(** [addToHistory(status)], with [now] the value of [Date.now()]. *)
Definition addToHistory (st : value) (now : float) (w : World) : World :=
  let newEntry := mkEntry (historyIdCounter w) st now in
  let w := set_historyIdCounter (S (historyIdCounter w)) w in
  setStatusHistory (fun prev => (prev ++ [newEntry])%list) w.

Definition processingStatus : value := VStr "processing...".

Section WithHost.
Variable host : Host.

(** Line 64: the payload of a parsed response,
    [(parsed.statusCode && parsed.body) ? JSON.parse(parsed.body) : parsed]. *)
Definition payload (parsed : value) : Completion value :=
  and_then (get parsed "statusCode") (fun statusCode =>
  and_then (if truthy statusCode then get parsed "body" else Ok statusCode)
           (fun both =>
  if truthy both then
    and_then (get parsed "body") (JSON_parse_value host)
  else Ok parsed)).

(** [pollLambda()] of render [r], up to its [await]: the GET is issued. *)
Definition pollLambda (r : State) (w : World) : World :=
  fetch (apiEndpoint r ++ STATUS) "GET" r w.

(** [pollLambda] of render [r] from the answer [ans] of its fetch to its
    end.  [statusMessage] and [apiEndpoint] are those of [r];
    [previousStatusRef] and [historyIdCounter] are read from the world.
    What [console.error] prints is no part of the world. *)
Definition pollLambda_resume (r : State) (ans : FetchResult) (now : float)
  : Eff World unit :=
  try_catch
    (response <- eval ans ;;
     if negb (ok response) then
       exec (setConnectionStatus "Error")
     else
       text <- eval (text response) ;;
       parsed <- eval (JSON_parse host text) ;;
       data <- eval (payload parsed) ;;
       data_status <- eval (get data "status") ;;
       if truthy data_status then
         let currentStatus := data_status in
         previousStatus <- read previousStatusRef ;;
         if strict_eq currentStatus previousStatus
            && negb (strict_eq currentStatus (VStr "initial status")) then
           if negb (strict_eq (statusMessage r) processingStatus) then
             exec (setStatusMessage processingStatus) ;;
             exec (addToHistory processingStatus now) ;;
             exec (setConnectionStatus "Polling - Processing")
           else ret tt
         else if negb (strict_eq currentStatus (statusMessage r)) then
           exec (setStatusMessage currentStatus) ;;
           exec (addToHistory currentStatus now) ;;
           exec (set_previousStatusRef currentStatus) ;;
           exec (setConnectionStatus "Polling - Status updated")
         else
           exec (setConnectionStatus "Polling - No change")
       else ret tt)%eff
    (fun e => exec (setConnectionStatus "Error")).

(** [startPolling] of render [r]. *)
Definition startPolling (r : State) (w : World) : World :=
  match pollIntervalRef w with
  | Some _ => w
  | None =>
      let w := setIsPolling true w in
      let w := setConnectionStatus "Polling started" w in
      let w := set_previousStatusRef (VStr EmptyString) w in
      let w := pollLambda r w in
      let (h, w) := setInterval r 2000 w in
      set_pollIntervalRef (Some h) w
  end.

Definition stopPolling (w : World) : World :=
  let w := match pollIntervalRef w with
           | Some h => set_pollIntervalRef None (clearInterval h w)
           | None => w
           end in
  let w := setIsPolling false w in
  setConnectionStatus "Stopped" w.

Definition clearHistory (w : World) : World :=
  let w := setStatusHistory (fun _ => []) w in
  let w := setStatusMessage (VStr EmptyString) w in
  let w := set_historyIdCounter 0 w in
  set_previousStatusRef (VStr EmptyString) w.

(** The listener of the window event [chatMessageSent], registered by the
    effect of render [r]. *)
Definition handleChatMessage (r : State) (w : World) : World :=
  if negb (isPolling r) then startPolling r w else w.

(** Line 149, the polling button of the latest render:
    [onClick={isPolling ? stopPolling : startPolling}]. *)
Definition click_toggle (w : World) : World :=
  if isPolling (state w) then stopPolling w else startPolling (state w) w.

(** Line 152, the Clear button, [disabled={isPolling}]. *)
Definition click_clear (w : World) : World :=
  if isPolling (state w) then w else clearHistory w.

(** *** Runs

    What can happen to a mounted component, one event at a time.  A call
    names the render whose closure is called: the buttons call those of the
    latest render, the window listener and the timer table those of the
    render that registered them; the runs below allow any. *)
Inductive Event : Type :=
| StartPolling (r : State)
| StopPolling
| ClearHistory
| ChatMessageSent (r : State)
| ClickToggle
| ClickClear
| EditEndpoint (e : string)
(** the interval [h] fires *)
| Tick (h : positive)
(** the host answers the request at position [k] of those in flight *)
| Settle (k : nat) (ans : FetchResult) (now : float).

Fixpoint remove_nth {A} (k : nat) (l : list A) : list A :=
  match k, l with
  | _, [] => []
  | O, _ :: rest => rest
  | S k', x :: rest => x :: remove_nth k' rest
  end.

Definition tick (h : positive) (w : World) : World :=
  match find (fun i => Pos.eqb (handle i) h) (intervals w) with
  | Some i => pollLambda (callback i) w
  | None => w
  end.

(** The completion is that of the promise [pollLambda()] returned. *)
Definition settle (k : nat) (ans : FetchResult) (now : float) (w : World)
  : Completion unit * World :=
  match nth_error (requests w) k with
  | Some q =>
      pollLambda_resume (resume q) ans now
                        (set_requests (remove_nth k (requests w)) w)
  | None => (Ok tt, w)
  end.

Definition step (ev : Event) (w : World) : World :=
  match ev with
  | StartPolling r => startPolling r w
  | StopPolling => stopPolling w
  | ClearHistory => clearHistory w
  | ChatMessageSent r => handleChatMessage r w
  | ClickToggle => click_toggle w
  | ClickClear => click_clear w
  | EditEndpoint e => setApiEndpoint e w
  | Tick h => tick h w
  | Settle k ans now => snd (settle k ans now w)
  end.

Definition run (evs : list Event) (w : World) : World :=
  fold_left (fun w ev => step ev w) evs w.

(** One fetch cycle that nothing interrupts: the interval [h] fires and
    the request it issues is answered. *)
Definition fetchCycle (h : positive) (ans : FetchResult) (now : float)
                      (w : World) : World :=
  run [Tick h; Settle (length (requests w)) ans now] w.

End WithHost.

End StatusPanel.

(** ** ChatPanel.js *)

Module ChatPanel.

Definition BASE_URL : string :=
  "https://svv182tlpk.execute-api.us-east-1.amazonaws.com/dev".
Definition CHAT : string := "/chat".

(** An element of [messages]; [metadata] holds the properties the spread
    [...metadata] adds. *)
Record Message : Type := mkMessage {
  id : nat;
  text : value;
  sender : string;
  time : string;
  timestamp : float;
  metadata : list (string * value)
}.

Record State : Type := mkState {
  messages : list Message;
  inputValue : string;
  isProcessing : bool;
  connectionStatus : string
}.

(** A POST in flight. *)
Record Request : Type := mkRequest {
  url : string;
  method : string;
  body : string
}.

(** The component and the host state it touches: the state variables, the
    ref [messageIdCounter], the events dispatched on [window] and the
    requests in flight. *)
Record World : Type := mkWorld {
  state : State;
  messageIdCounter : nat;
  dispatched : list string;
  requests : list Request
}.

Definition mount : World :=
  mkWorld (mkState [] EmptyString false "Connected") 0 [] [].

(** The DOM event a handler receives. *)
Record DomEvent : Type := mkDomEvent {
  key : string;
  shiftKey : bool;
  defaultPrevented : bool
}.

Definition preventDefault (e : DomEvent) : DomEvent :=
  mkDomEvent (key e) (shiftKey e) true.

Definition with_state (f : State -> State) (w : World) : World :=
  mkWorld (f (state w)) (messageIdCounter w) (dispatched w) (requests w).

Definition setMessages (update : list Message -> list Message) : World -> World :=
  with_state (fun s => mkState (update (messages s)) (inputValue s)
                               (isProcessing s) (connectionStatus s)).

Definition setInputValue (v : string) : World -> World :=
  with_state (fun s => mkState (messages s) v (isProcessing s) (connectionStatus s)).

Definition setIsProcessing (b : bool) : World -> World :=
  with_state (fun s => mkState (messages s) (inputValue s) b (connectionStatus s)).

Definition setConnectionStatus (c : string) : World -> World :=
  with_state (fun s => mkState (messages s) (inputValue s) (isProcessing s) c).

(** [addMessage(text, sender, metadata)]; the message it returns is used by
    no caller. *)
Definition addMessage (t : value) (from : string) (meta : list (string * value))
                      (c : Clock) (w : World) : World :=
  let newMessage :=
    mkMessage (messageIdCounter w) t from (localeTime c) (now c) meta in
  let w := mkWorld (state w) (S (messageIdCounter w)) (dispatched w) (requests w) in
  setMessages (fun prev => (prev ++ [newMessage])%list) w.

Definition notifyStatusPanel (w : World) : World :=
  mkWorld (state w) (messageIdCounter w)
          (dispatched w ++ ["chatMessageSent"])%list (requests w).

Definition fetch (u m b : string) (w : World) : World :=
  mkWorld (state w) (messageIdCounter w) (dispatched w)
          (requests w ++ [mkRequest u m b])%list.

Section WithHost.
Variable host : Host.

(** [o.response || o.message || o.body || fallback]. *)
Definition response_message_body (o fallback : value) : Completion value :=
  and_then (get o "response") (fun a => or_else a (
  and_then (get o "message") (fun b => or_else b (
  and_then (get o "body") (fun c => or_else c (Ok fallback)))))).

(** Lines 370 to 389 of [sendToLambda]: the values of [botMessage] and
    [processingTime] for the parsed response [data]. *)
Definition extract (data : value) : Completion (value * value) :=
  and_then (get data "statusCode") (fun statusCode =>
  and_then (if truthy statusCode then get data "body" else Ok statusCode)
           (fun both =>
  if truthy both then
    and_then (get data "body") (fun data_body =>
    match data_body with
    | VStr s =>
        match
          and_then (JSON_parse host s) (fun parsedBody =>
          and_then (response_message_body parsedBody data_body) (fun botMessage =>
          and_then (get parsedBody "processing_time") (fun processingTime =>
          Ok (botMessage, processingTime))))
        with
        | Ok found => Ok found
        | Thrown _ => Ok (data_body, VNull)
        end
    | _ =>
        and_then (response_message_body data_body
                    (VStr (JSON_stringify host data_body))) (fun botMessage =>
        and_then (get data_body "processing_time") (fun processingTime =>
        Ok (botMessage, processingTime)))
    end)
  else
    and_then (response_message_body data (VStr (JSON_stringify host data)))
             (fun botMessage =>
    and_then (get data "processing_time") (fun processingTime =>
    Ok (botMessage, processingTime))))).

(** [sendToLambda(userMessage)] up to its [await]; [sent] is the value of
    [Date.now()] in the request body. *)
Definition sendToLambda (userMessage : string) (sent : float) (w : World) : World :=
  let w := setIsProcessing true w in
  let w := setConnectionStatus "Processing..." w in
  fetch (BASE_URL ++ CHAT) "POST"
        (JSON_stringify host (VObj [("message", VStr userMessage);
                                    ("timestamp", VNum sent)])) w.

(** [sendToLambda] from the answer of its fetch to its end;
    [response.json()] reads the body and parses it.  What [console.log] and
    [console.error] print is no part of the world. *)
Definition sendToLambda_resume (ans : FetchResult) (c : Clock) : Eff World unit :=
  try_finally
    (try_catch
       (response <- eval ans ;;
        if negb (ok response) then
          throw (mkExn "Error" ("HTTP " ++ string_of_nat (http_status response)
                                 ++ ": " ++ statusText response))
        else
          data <- eval (and_then (JS.text response) (JSON_parse host)) ;;
          found <- eval (extract data) ;;
          let (botMessage, processingTime) := found in
          (if truthy botMessage then
             data_status <- eval (get data "status") ;;
             success <- eval (or_else data_status (Ok (VStr "success"))) ;;
             exec (addMessage botMessage "bot"
                             [("processingTime", processingTime);
                              ("status", success)] c)
           else
             throw (mkExn "Error" "No message in Lambda response")) ;;
          exec (setConnectionStatus "Connected"))%eff
       (fun error =>
          exec (addMessage (VStr ("Error: " ++ message error)) "bot"
                           [("error", VBool true)] c) ;;
          exec (setConnectionStatus "Error"))%eff)
    (setIsProcessing false).

(** [handleSubmit(e)] of render [r], up to the [await] inside
    [sendToLambda]. *)
Definition handleSubmit (r : State) (e : DomEvent) (c : Clock) (sent : float)
                        (w : World) : DomEvent * World :=
  let e := preventDefault e in
  if (trim (inputValue r) =? EmptyString) || isProcessing r then (e, w)
  else
    let userMessage := trim (inputValue r) in
    let w := setInputValue EmptyString w in
    let w := addMessage (VStr userMessage) "user" [] c w in
    let w := notifyStatusPanel w in
    (e, sendToLambda userMessage sent w).

Definition handleKeyPress (r : State) (e : DomEvent) (c : Clock) (sent : float)
                          (w : World) : DomEvent * World :=
  if (key e =? "Enter") && negb (shiftKey e) then
    handleSubmit r (preventDefault e) c sent w
  else (e, w).

End WithHost.

End ChatPanel.

(** ** The specification's vocabulary

    Definitions that follow the words of the specification, to be compared
    with the code above. *)

Module Poller.
Import StatusPanel.

(** What one fetch delivered to the poller. *)
Inductive Delivery : Type :=
| Failed
| NoStatus
| Raw (currentRaw : value).

(** The decision policy of the specification, rules 1 to 3, for the
    displayed text [displayed], the tracker [previousStatusRef] of the world
    and the freshly fetched [currentRaw]. *)
Definition decision_policy (displayed currentRaw : value) (now : float)
                           (w : World) : World :=
  if strict_eq currentRaw (previousStatusRef w)
     && negb (strict_eq currentRaw (VStr "initial status")) then
    (* rule 1: still processing *)
    if strict_eq displayed processingStatus then w
    else setConnectionStatus "Polling - Processing"
           (addToHistory processingStatus now
              (setStatusMessage processingStatus w))
  else if negb (strict_eq currentRaw displayed) then
    (* rule 2: changed *)
    setConnectionStatus "Polling - Status updated"
      (set_previousStatusRef currentRaw
         (addToHistory currentRaw now (setStatusMessage currentRaw w)))
  else
    (* rule 3 *)
    setConnectionStatus "Polling - No change" w.

(** The value of the field [k] of [v], [undefined] when there is none. *)
Definition field (k : string) (v : value) : value :=
  match v with
  | VObj fields => lookup k fields
  | _ => VUndefined
  end.

Definition has_field (k : string) (v : value) : bool :=
  match v with
  | VObj fields => existsb (fun kv => k =? fst kv) fields
  | _ => false
  end.

(** The history and the id counter agree: the k-th entry has id k and the
    counter is the length of the history. *)
Definition ids_in_order (w : World) : Prop :=
  map id (statusHistory (state w)) = seq 0 (length (statusHistory (state w)))
  /\ historyIdCounter w = length (statusHistory (state w)).

(** The timer table holds the interval [pollIntervalRef] names, and no
    other. *)
Definition one_schedule (w : World) : Prop :=
  match pollIntervalRef w with
  | None => intervals w = []
  | Some h => exists r, intervals w = [mkInterval h r 2000]
  end.

(** An event that may call [stopPolling]. *)
Definition may_stop (ev : Event) : bool :=
  match ev with
  | StopPolling | ClickToggle => true
  | _ => false
  end.

(** What the display and the history show of a world: the state variables
    but the endpoint, the id counter and the tracker. *)
Definition view (w : World)
  : value * list StatusEntry * bool * string * nat * value :=
  (statusMessage (state w), statusHistory (state w), isPolling (state w),
   connectionStatus (state w), historyIdCounter w, previousStatusRef w).

Section WithHost.
Variable host : Host.

Definition delivered (ans : FetchResult) : Delivery :=
  match ans with
  | Thrown _ => Failed
  | Ok response =>
      if negb (ok response) then Failed
      else match text response with
           | Thrown _ => Failed
           | Ok body =>
               match and_then (JSON_parse host body) (payload host) with
               | Thrown _ => Failed
               | Ok data =>
                   match get data "status" with
                   | Thrown _ => Failed
                   | Ok st => if truthy st then Raw st else NoStatus
                   end
               end
           end
  end.

(** A cycle that ends in a transport failure or a parse failure. *)
Inductive Failure : FetchResult -> Prop :=
| network_error e : Failure (Thrown e)
| not_2xx response : ok response = false -> Failure (Ok response)
| unreadable response e :
    ok response = true -> text response = Thrown e -> Failure (Ok response)
| malformed response body e :
    ok response = true -> text response = Ok body ->
    JSON_parse host body = Thrown e -> Failure (Ok response)
| malformed_envelope response body parsed e :
    ok response = true -> text response = Ok body ->
    JSON_parse host body = Ok parsed -> payload host parsed = Thrown e ->
    Failure (Ok response).

(** A successful fetch whose body parses to [parsed]. *)
Definition parses_to (ans : FetchResult) (parsed : value) : Prop :=
  exists response body,
    ans = Ok response /\ ok response = true /\ text response = Ok body
    /\ JSON_parse host body = Ok parsed.

(** The envelope rule as the specification words it: unwrap when the
    parsed value has both fields. *)
Definition payload_as_stated (parsed : value) : Completion value :=
  if has_field "statusCode" parsed && has_field "body" parsed
  then JSON_parse_value host (field "body" parsed)
  else Ok parsed.

(** The envelope rule amended: unwrap when both fields are truthy. *)
Definition payload_amended (parsed : value) : Completion value :=
  if truthy (field "statusCode" parsed) && truthy (field "body" parsed)
  then JSON_parse_value host (field "body" parsed)
  else Ok parsed.

(** What the cycle does with a payload: a payload that cannot be had, or
    that is [null], ends the cycle as an error; one with no status, or a
    falsy one, changes nothing; any other goes through the decision
    policy. *)
Definition on_payload (r : State) (now : float) (w : World)
                      (p : Completion value) : World :=
  match p with
  | Thrown _ => setConnectionStatus "Error" w
  | Ok VNull | Ok VUndefined => setConnectionStatus "Error" w
  | Ok data =>
      if truthy (field "status" data)
      then decision_policy (statusMessage r) (field "status" data) now w
      else w
  end.

(** The second sentence of the specification's envelope rule, as stated. *)
Definition envelope_rule_as_stated : Prop :=
  forall r ans parsed now w,
    parses_to ans parsed ->
    pollLambda_resume host r ans now w
    = (Ok tt, on_payload r now w (payload_as_stated parsed)).

(** [n] uninterrupted cycles of the interval [h], one per answer. *)
Definition cycles (h : positive) (answers : list (FetchResult * float))
                  (w : World) : World :=
  fold_left (fun w a => fetchCycle host h (fst a) (snd a) w) answers w.

(** A session from its start by the closure of render [r] to the answer of
    the fetch [startPolling] issues. *)
Definition first_fetch (r : State) (ans : FetchResult) (now : float)
                       (w : World) : World :=
  let w := startPolling r w in
  run host [Settle (pred (length (requests w))) ans now] w.

End WithHost.

(** Two payloads the cycle cannot tell apart: the same value, or each an
    exception or [null] or [undefined]. *)
Definition on_payload_agree (p q : Completion value) : Prop :=
  match p, q with
  | Ok a, Ok b => a = b
  | Ok a, Thrown _ => a = VNull \/ a = VUndefined
  | Thrown _, Ok b => b = VNull \/ b = VUndefined
  | Thrown _, Thrown _ => True
  end.

(** The decision policy with the displayed text of the world itself: the
    policy as the specification words it, where the displayed text is the
    current one at every fetch. *)
Definition live_policy (w : World) (a : value * float) : World :=
  decision_policy (statusMessage (state w)) (fst a) (snd a) w.

(** An insertion into the history or a clear of it. *)
Inductive HistoryOp : Type :=
| Insert (st : value) (now : float)
| Clear.

Definition apply_op (w : World) (op : HistoryOp) : World :=
  match op with
  | Insert st now => addToHistory st now w
  | Clear => clearHistory w
  end.

(** The number of history entries with the status [st]. *)
Definition count_status (st : string) (l : list StatusEntry) : nat :=
  length (filter (fun e => strict_eq (status e) (VStr st)) l).

End Poller.

Module Chat.
Import ChatPanel.

Definition field := Poller.field.
Definition has_field := Poller.has_field.

(** The fields a bot message is looked for in, by priority. *)
Definition priority : list string := ["response"; "message"; "body"].

(** The first of [keys] that is a field of [o], as the specification words
    the extraction. *)
Fixpoint first_present (keys : list string) (o : value) : option value :=
  match keys with
  | [] => None
  | k :: rest => if has_field k o then Some (field k o) else first_present rest o
  end.

(** The first of [keys] whose field of [o] is truthy. *)
Fixpoint first_truthy (keys : list string) (o : value) : option value :=
  match keys with
  | [] => None
  | k :: rest =>
      if truthy (field k o) then Some (field k o) else first_truthy rest o
  end.

Section WithHost.
Variable host : Host.

(** The payload of a parsed chat response: the parsed [body] of an
    envelope whose body is a string, the [body] itself when it is not a
    string, the response itself when it is no envelope. *)
Definition chat_payload (data : value) : option value :=
  if truthy (field "statusCode" data) && truthy (field "body" data) then
    match field "body" data with
    | VStr s => match JSON_parse host s with
                | Ok p => Some p
                | Thrown _ => None
                end
    | b => Some b
    end
  else Some data.

(** The extraction as stated: the first present field wins. *)
Definition extraction_as_stated : Prop :=
  forall data p m,
    chat_payload data = Some p -> first_present priority p = Some m ->
    exists processingTime, extract host data = Ok (m, processingTime).

End WithHost.

End Chat.

(** ** Documents and a host for the examples *)

Module Examples.

Definition dq : string := String "034"%char EmptyString.

Definition quoted (s : string) : string := dq ++ s ++ dq.

(** The JSON text of an object with the one field [status], a string with
    no character to escape. *)
Definition status_doc (s : string) : string :=
  "{" ++ quoted "status" ++ ":" ++ quoted s ++ "}".

(** The JSON text of an envelope with status code 200 and an empty body. *)
Definition empty_envelope_doc : string :=
  "{" ++ quoted "statusCode" ++ ":200," ++ quoted "body" ++ ":" ++ quoted EmptyString ++ "}".

Definition empty_envelope : value :=
  VObj [("statusCode", VNum 200%float); ("body", VStr EmptyString)].

(** A chat response with both a [message] and a [response], and its JSON
    text. *)
Definition both_fields : value :=
  VObj [("message", VStr "hi"); ("response", VStr "hello")].

Definition both_fields_doc : string :=
  "{" ++ quoted "message" ++ ":" ++ quoted "hi" ++ ","
      ++ quoted "response" ++ ":" ++ quoted "hello" ++ "}".

(** The JSON texts the examples use, each with the value [JSON.parse]
    returns for it. *)
Definition documents : list (string * value) :=
  [ (status_doc "A", VObj [("status", VStr "A")]);
    (status_doc "initial status", VObj [("status", VStr "initial status")]);
    (status_doc "done", VObj [("status", VStr "done")]);
    (empty_envelope_doc, empty_envelope);
    (both_fields_doc, both_fields);
    ("null", VNull) ].

Definition SyntaxError : Exn :=
  mkExn "SyntaxError" "Unexpected token in JSON".

(** [JSON.parse] on the documents above; no other text is parsed in an
    example but the empty string, which is no JSON text. *)
Fixpoint parse_in (docs : list (string * value)) (t : string) : Completion value :=
  match docs with
  | [] => Thrown SyntaxError
  | (d, v) :: rest => if t =? d then Ok v else parse_in rest t
  end.

(** [Number.prototype.toString] on the one number of the examples. *)
Definition number_toString (n : float) : string :=
  if PrimFloat.eqb n 200%float then "200" else "NaN".

(** [JSON.stringify] on values whose strings hold no character to escape;
    no example reads its result. *)
Fixpoint stringify (v : value) : string :=
  match v with
  | VUndefined | VNull => "null"
  | VBool true => "true"
  | VBool false => "false"
  | VNum n => number_toString n
  | VStr s => quoted s
  | VArr items => "[" ++ String.concat "," (map stringify items) ++ "]"
  | VObj fields =>
      "{" ++ String.concat ","
               (map (fun kv => match kv with
                               | (k, x) => quoted k ++ ":" ++ stringify x
                               end) fields) ++ "}"
  end.

Definition host : Host := mkHost (parse_in documents) stringify number_toString.

(** A 200 response with the body [body]. *)
Definition ok_response (body : string) : FetchResult :=
  Ok (mkResponse true 200 "OK" (Ok body)).

Definition noon : float := 1762171200000%float.

(** The answer that reports the status [s], at noon. *)
Definition says (s : string) : FetchResult * float := (ok_response (status_doc s), noon).

(** A render of the status panel that shows nothing yet. *)
Definition first_render : StatusPanel.State := StatusPanel.state StatusPanel.mount.

(** A fresh component after a click on the polling button. *)
Definition started : StatusPanel.World := StatusPanel.click_toggle StatusPanel.mount.

(** A fresh component, the polling button clicked, and the fetches of the
    session answered in turn: the immediate one by [first], each later tick
    by the next of [rest]. *)
Definition session (first : string) (rest : list string) : StatusPanel.World :=
  Poller.cycles host 1 (map says rest)
    (StatusPanel.run host [StatusPanel.Settle 0 (fst (says first)) noon] started).

Definition shown (w : StatusPanel.World) : value :=
  StatusPanel.statusMessage (StatusPanel.state w).

Definition recorded (w : StatusPanel.World) : list value :=
  map StatusPanel.status (StatusPanel.statusHistory (StatusPanel.state w)).

(** A chat form showing [input]. *)
Definition chat_render (input : string) (busy : bool) : ChatPanel.State :=
  ChatPanel.mkState [] input busy "Connected".

Definition lunch : Clock := mkClock noon "12:00 PM".

(** A chat response whose [response] field is empty. *)
Definition empty_response : value :=
  VObj [("response", VStr EmptyString); ("message", VStr "hi")].

Definition submit : ChatPanel.DomEvent := ChatPanel.mkDomEvent "Enter" false false.

End Examples.

(** ** The rest of StatusPanel.js: what a render computes, and the page *)

Module Panel.
Import StatusPanel.

(** [s.includes(sub)] for two strings: [sub] occurs in [s]. *)
Fixpoint includes (s sub : string) : bool :=
  String.prefix sub s
  || match s with
     | EmptyString => false
     | String _ rest => includes rest sub
     end.

(** [status.includes(search)] for a value and a string literal: the search
    of a substring in a string, the membership test of an array (which
    compares by [SameValueZero], for a string the strict equality), and a
    TypeError on every other value, none of which has a function under that
    name ([JSON.parse] builds no function). *)
Definition status_includes (st : value) (search : string) : Completion bool :=
  match st with
  | VStr s => Ok (includes s search)
  | VArr items => Ok (existsb (fun x => strict_eq x (VStr search)) items)
  | VUndefined => Thrown (TypeError_read "undefined" "includes")
  | VNull => Thrown (TypeError_read "null" "includes")
  | VBool _ | VNum _ | VObj _ =>
      Thrown (mkExn "TypeError" "status.includes is not a function")
  end.

(** The four emoji [getStatusIcon] returns: U+23F3, U+2705, U+2139 U+FE0F
    and U+1F4CC. *)
Inductive Icon : Type :=
| Hourglass
| CheckMark
| Information
| Pushpin.

Definition getStatusIcon (st : value) : Completion Icon :=
  and_then (status_includes st "processing") (fun processing =>
  if processing then Ok Hourglass else
  and_then (status_includes st "done") (fun done =>
  if done then Ok CheckMark else
  and_then (status_includes st "initial") (fun initial =>
  if initial then Ok Information else Ok Pushpin))).

Definition getStatusColor (st : value) : Completion string :=
  and_then (status_includes st "processing") (fun processing =>
  if processing then Ok "#3b82f6" else
  and_then (status_includes st "done") (fun done =>
  if done then Ok "#10b981" else
  and_then (status_includes st "initial") (fun initial =>
  if initial then Ok "#6366f1" else Ok "#6b7280"))).

(** The colour that goes with an icon. *)
Definition color_of (i : Icon) : string :=
  match i with
  | Hourglass => "#3b82f6"
  | CheckMark => "#10b981"
  | Information => "#6366f1"
  | Pushpin => "#6b7280"
  end.

(** One item of the timeline: the border colour (line 194), the icon (line
    196) and the status shown (line 197). *)
Record Row : Type := mkRow {
  borderLeftColor : string;
  icon : Icon;
  shown : value
}.

(** Lines 193 to 201: [statusHistory.map(entry => ...)]; the first entry
    whose colour or icon throws ends the render. *)
Fixpoint timeline (entries : list StatusEntry) : Completion (list Row) :=
  match entries with
  | [] => Ok []
  | entry :: rest =>
      and_then (getStatusColor (status entry)) (fun color =>
      and_then (getStatusIcon (status entry)) (fun pic =>
      and_then (timeline rest) (fun rows =>
      Ok (mkRow color pic (status entry) :: rows))))
  end.

(** What a render computes through [getStatusColor] and [getStatusIcon], in
    the order of the JSX: the colour of the current status (line 161), then
    the timeline.  The render throws when this does. *)
Definition paint (r : State) : Completion (string * list Row) :=
  and_then (getStatusColor (statusMessage r)) (fun color =>
  and_then (timeline (statusHistory r)) (fun rows =>
  Ok (color, rows))).

(** Line 167, the count under Total Updates. *)
Definition totalUpdates (r : State) : nat := length (statusHistory r).

(** *** Invariants of the component *)

(** The polling flag is set exactly while an interval is held. *)
Definition flag_agrees (w : World) : Prop :=
  isPolling (state w)
  = match pollIntervalRef w with Some _ => true | None => false end.

(** A request of the poller: a GET of the status path under the endpoint
    of the render whose closure issued it. *)
Definition polls_status (q : Request) : Prop :=
  method q = "GET" /\ url q = apiEndpoint (resume q) ++ STATUS.

Definition is_text (v : value) : bool :=
  match v with VStr _ => true | _ => false end.

(** What a cycle reads and writes besides the labels: the displayed text,
    the history, the id counter and the tracker. *)
Definition core (w : World) : value * list StatusEntry * nat * value :=
  (statusMessage (state w), statusHistory (state w), historyIdCounter w,
   previousStatusRef w).

(** Every status on display is a string. *)
Definition all_text (w : World) : Prop :=
  is_text (statusMessage (state w)) = true
  /\ Forall (fun entry => is_text (status entry) = true) (statusHistory (state w)).

(** *** The page: the component with its window listener

    The effect of lines 119 to 126 registers [handleChatMessage] of the
    render it runs in, and runs again only after a render in which
    [isPolling] differs from that of the render before. *)
Record Page : Type := mkPage {
  world : World;
  listener : State
}.

Definition loaded : Page := mkPage mount (state mount).

(** What the user, the timers and the network can do to the page. *)
Inductive UiEvent : Type :=
| PressToggle
| PressClear
| TypeEndpoint (e : string)
| DispatchChatMessageSent
| TimerFires (h : positive)
| Answer (k : nat) (ans : FetchResult) (now : float).

Section WithHost.
Variable host : Host.

(** The event of [Event] a user event comes to on the page [p]. *)
Definition as_event (p : Page) (ev : UiEvent) : Event :=
  match ev with
  | PressToggle => ClickToggle
  | PressClear => ClickClear
  | TypeEndpoint e => EditEndpoint e
  | DispatchChatMessageSent => ChatMessageSent (listener p)
  | TimerFires h => Tick h
  | Answer k ans now => Settle k ans now
  end.

(** One event, the render that follows it, and the effect. *)
Definition ui_step (p : Page) (ev : UiEvent) : Page :=
  let w' := step host (as_event p ev) (world p) in
  mkPage w'
         (if Bool.eqb (isPolling (state w')) (isPolling (state (world p)))
          then listener p else state w').

Definition ui_run (evs : list UiEvent) (p : Page) : Page :=
  fold_left ui_step evs p.

(** An event that brings no status but a string. *)
Definition text_only (ev : Event) : Prop :=
  match ev with
  | Settle _ ans _ =>
      match Poller.delivered host ans with
      | Poller.Raw st => is_text st = true
      | _ => True
      end
  | _ => True
  end.

End WithHost.

End Panel.

(** ** The chat form in use *)

Module ChatRun.
Import ChatPanel.

(** What the user and the network can do to the chat form.  The form and
    the input call the handlers of the latest render, whose input value and
    processing flag are those of the world. *)
Inductive ChatEvent : Type :=
(** [onChange]: [setInputValue(e.target.value)] *)
| TypeText (v : string)
(** [onSubmit] *)
| SubmitForm (e : DomEvent) (c : Clock) (sent : float)
(** [onKeyPress] *)
| PressKey (e : DomEvent) (c : Clock) (sent : float)
(** the host answers the request at position [k] of those in flight *)
| Reply (k : nat) (ans : FetchResult) (c : Clock).

Definition set_requests (q : list Request) (w : World) : World :=
  mkWorld (state w) (messageIdCounter w) (dispatched w) q.

(** The number of messages sent by [who]. *)
Definition sent_by (who : string) (l : list Message) : nat :=
  length (filter (fun m => sender m =? who) l).

(** The ids of the messages are their positions, and the counter is their
    number. *)
Definition ids_in_order (w : World) : Prop :=
  map id (messages (state w)) = seq 0 (length (messages (state w)))
  /\ messageIdCounter w = length (messages (state w)).

(** The processing flag is set exactly while a request is in flight, and
    no two are. *)
Definition one_in_flight (w : World) : Prop :=
  (requests w = [] /\ isProcessing (state w) = false)
  \/ (exists q, requests w = [q] /\ isProcessing (state w) = true).

(** Every user message raised the notifier once, and has its bot message
    or its request in flight. *)
Definition accounted (w : World) : Prop :=
  length (dispatched w) = sent_by "user" (messages (state w))
  /\ sent_by "user" (messages (state w))
     = sent_by "bot" (messages (state w)) + length (requests w)
  /\ length (messages (state w))
     = sent_by "user" (messages (state w)) + sent_by "bot" (messages (state w)).

Section WithHost.
Variable host : Host.

(** The completion is that of the promise [sendToLambda] returned. *)
Definition reply (k : nat) (ans : FetchResult) (c : Clock) (w : World)
  : Completion unit * World :=
  match nth_error (requests w) k with
  | Some _ =>
      sendToLambda_resume host ans c
        (set_requests (StatusPanel.remove_nth k (requests w)) w)
  | None => (Ok tt, w)
  end.

Definition chat_step (w : World) (ev : ChatEvent) : World :=
  match ev with
  | TypeText v => setInputValue v w
  | SubmitForm e c sent => snd (handleSubmit host (state w) e c sent w)
  | PressKey e c sent => snd (handleKeyPress host (state w) e c sent w)
  | Reply k ans c => snd (reply k ans c w)
  end.

Definition chat_run (evs : list ChatEvent) (w : World) : World :=
  fold_left chat_step evs w.

End WithHost.

End ChatRun.

(** ** awsLambda.js: the orchestrator workflow and the health check

    The functions take a callback [addStatusUpdate(type, message, details)];
    the model records the calls they make to it, in order, and the Lambda
    invocations they issue.  An async function is again split at its
    [await]s: what runs at the call, and what runs on each answer. *)

Module AwsLambda.

Definition default_endpoint : string := "https://your-api-gateway-url.amazonaws.com".

(** [process.env.REACT_APP_AWS_API_ENDPOINT || default], for a variable
    that is a string or is not set. *)
Definition AWS_API_ENDPOINT (env : option string) : string :=
  match env with
  | Some e => if e =? EmptyString then default_endpoint else e
  | None => default_endpoint
  end.

(** The worker agents, 1 to 4: the four functions [invokeWorkerAgent1] to
    [invokeWorkerAgent4] are one text but for the number. *)
Inductive Agent : Type :=
| Worker1
| Worker2
| Worker3
| Worker4.

Definition number (a : Agent) : string :=
  match a with
  | Worker1 => "1"
  | Worker2 => "2"
  | Worker3 => "3"
  | Worker4 => "4"
  end.

Definition ORCHESTRATOR : string := "orchestrator-lambda".

(** [LAMBDA_FUNCTIONS.WORKER_AGENT_n]. *)
Definition WORKER_AGENT (a : Agent) : string :=
  "worker-agent-" ++ number a ++ "-lambda".

(** A call of the callback [addStatusUpdate]. *)
Record Update : Type := mkUpdate {
  type : string;
  message : string;
  details : string
}.

(** A Lambda invocation: [invokeLambda(functionName, payload)]. *)
Record Call : Type := mkCall {
  functionName : string;
  payload : value
}.

(** What the functions leave behind: the calls of the callback and the
    invocations issued, each in order. *)
Record Flow : Type := mkFlow {
  log : list Update;
  calls : list Call
}.

Definition nothing : Flow := mkFlow [] [].

Definition addStatusUpdate (t m d : string) (f : Flow) : Flow :=
  mkFlow (log f ++ [mkUpdate t m d])%list (calls f).

(** [invokeLambda(functionName, payload)] up to its [await]: the POST is
    issued. *)
Definition invokeLambda (name : string) (p : value) (f : Flow) : Flow :=
  mkFlow (log f) (calls f ++ [mkCall name p])%list.

(** The URL and the body of the POST of a call. *)
Definition request_of (host : Host) (env : option string) (c : Call) : string * string :=
  (AWS_API_ENDPOINT env ++ "/" ++ functionName c, JSON_stringify host (payload c)).

(** A promise. *)
Inductive Promise : Type :=
| Pending
| Fulfilled (v : value)
| Rejected (e : Exn).

(** An element of [workerPromises]: the promise of a worker agent. *)
Record Worker : Type := mkWorker {
  agent : Agent;
  promise : Promise
}.

(** [processChatMessage] at work: what it left behind so far, the promises
    of the workers it invoked, and its own promise, which [settled] holds
    once it is fulfilled or rejected. *)
Record Run : Type := mkRun {
  flow : Flow;
  sent : string;
  orchestratorResponse : value;
  workerPromises : list Worker;
  settled : option (Completion value)
}.

Definition in_flow (f : Flow -> Flow) (r : Run) : Run :=
  mkRun (f (flow r)) (sent r) (orchestratorResponse r) (workerPromises r) (settled r).

Definition push (w : Worker) (r : Run) : Run :=
  mkRun (flow r) (sent r) (orchestratorResponse r) (workerPromises r ++ [w])%list
        (settled r).

Definition settle (c : Completion value) (r : Run) : Run :=
  mkRun (flow r) (sent r) (orchestratorResponse r) (workerPromises r) (Some c).

Fixpoint set_promise (k : nat) (p : Promise) (l : list Worker) : list Worker :=
  match k, l with
  | _, [] => []
  | O, w :: rest => mkWorker (agent w) p :: rest
  | S k', w :: rest => w :: set_promise k' p rest
  end.

Definition resolve (k : nat) (p : Promise) (r : Run) : Run :=
  mkRun (flow r) (sent r) (orchestratorResponse r)
        (set_promise k p (workerPromises r)) (settled r).

(** The first rejection among promises, in their order. *)
Fixpoint first_rejected (l : list Worker) : option Exn :=
  match l with
  | [] => None
  | w :: rest =>
      match promise w with
      | Rejected e => Some e
      | _ => first_rejected rest
      end
  end.

(** The values of promises that are all fulfilled. *)
Fixpoint all_fulfilled (l : list Worker) : option (list value) :=
  match l with
  | [] => Some []
  | w :: rest =>
      match promise w, all_fulfilled rest with
      | Fulfilled v, Some vs => Some (v :: vs)
      | _, _ => None
      end
  end.

Definition TypeError_call (what : string) : Exn :=
  mkExn "TypeError" (what ++ " is not a function").

Section WithHost.
Variable host : Host.

(** What [await invokeLambda(...)] gives for the answer of its fetch: the
    parsed body of a 2xx response, and the error thrown again otherwise. *)
Definition invoked (ans : FetchResult) : Completion value :=
  match ans with
  | Thrown e => Thrown e
  | Ok response =>
      if ok response then and_then (text response) (JSON_parse host)
      else Thrown (mkExn "Error" ("Lambda invocation failed: " ++ statusText response))
  end.

(** [`${response.assignedAgents?.length || 0}`]: it throws when
    [response] is [null] and when the length, the property of an object,
    cannot be converted to a string. *)
Definition delegated (response : value) : Completion string :=
  and_then (get response "assignedAgents") (fun assignedAgents =>
  match assignedAgents with
  | VArr items => Ok (string_of_nat (length items))
  | VStr s => Ok (string_of_nat (String.length s))
  | VObj fields =>
      if truthy (lookup "length" fields)
      then ToString host (lookup "length" fields) else Ok "0"
  | _ => Ok "0"
  end).

(** [invokeOrchestrator(message, context, addStatusUpdate)] up to its
    [await]; [iso] is [new Date().toISOString()] and [requestId] what
    [generateRequestId()] returns. *)
Definition invokeOrchestrator (msg : string) (context : value)
                              (iso requestId : string) (f : Flow) : Flow :=
  let f := addStatusUpdate "processing" "Orchestrator invoked"
                           ("Function: " ++ ORCHESTRATOR) f in
  invokeLambda ORCHESTRATOR
    (VObj [("message", VStr msg); ("context", context);
           ("timestamp", VStr iso); ("requestId", VStr requestId)]) f.

(** [invokeOrchestrator] from the answer of its invocation to its end. *)
Definition invokeOrchestrator_resume (ans : FetchResult) : Eff Flow value :=
  try_catch
    (response <- eval (invoked ans) ;;
     n <- eval (delegated response) ;;
     exec (addStatusUpdate "success" "Orchestrator processing"
                           ("Task delegated to " ++ n ++ " worker(s)")) ;;
     ret response)%eff
    (fun error =>
       exec (addStatusUpdate "error" "Orchestrator error" (JS.message error)) ;;
       throw error)%eff.

(** [a || b] for a value and a string literal. *)
Definition or_text (a : value) (b : string) : value :=
  if truthy a then a else VStr b.

(** [invokeWorkerAgentN(task, addStatusUpdate)] up to its [await]: it
    throws, its promise rejected from the start, when [task.type] cannot be
    read or cannot be converted to a string.  [iso] is the clock the worker
    reads for its payload. *)
Definition invokeWorkerAgent (a : Agent) (task : value) (iso : string)
  : Eff Flow unit :=
  try_catch
    (task_type <- eval (get task "type") ;;
     printed <- eval (ToString host (or_text task_type "Unknown")) ;;
     exec (addStatusUpdate "processing" ("Worker Agent " ++ number a ++ " started")
             ("Processing task: " ++ printed)) ;;
     exec (invokeLambda (WORKER_AGENT a)
             (VObj [("task", task); ("agentId", VStr ("worker-" ++ number a));
                    ("timestamp", VStr iso)])))%eff
    (fun error =>
       exec (addStatusUpdate "error" ("Worker Agent " ++ number a ++ " failed")
                             (JS.message error)) ;;
       throw error)%eff.

(** [invokeWorkerAgentN] from the answer of its invocation to its end. *)
Definition invokeWorkerAgent_resume (a : Agent) (ans : FetchResult)
  : Eff Flow value :=
  try_catch
    (response <- eval (invoked ans) ;;
     response_status <- eval (get response "status") ;;
     printed <- eval (ToString host (or_text response_status "Success")) ;;
     exec (addStatusUpdate "success" ("Worker Agent " ++ number a ++ " completed")
             ("Result: " ++ printed)) ;;
     ret response)%eff
    (fun error =>
       exec (addStatusUpdate "error" ("Worker Agent " ++ number a ++ " failed")
                             (JS.message error)) ;;
       throw error)%eff.

(** [assignedAgents[index]]. *)
Definition at_index (assignedAgents : value) (index : nat) : Completion value :=
  match assignedAgents with
  | VUndefined => Thrown (TypeError_read "undefined" (string_of_nat index))
  | VNull => Thrown (TypeError_read "null" (string_of_nat index))
  | VArr items => Ok (nth index items VUndefined)
  | VStr s => Ok match String.get index s with
                 | Some c => VStr (String c EmptyString)
                 | None => VUndefined
                 end
  | VObj fields => Ok (lookup (string_of_nat index) fields)
  | VBool _ | VNum _ => Ok VUndefined
  end.

(** The agent a [case] of the [switch] names. *)
Definition agent_of (agentId : value) : option Agent :=
  match agentId with
  | VStr s =>
      if s =? "worker-1" then Some Worker1
      else if s =? "worker-2" then Some Worker2
      else if s =? "worker-3" then Some Worker3
      else if s =? "worker-4" then Some Worker4
      else None
  | _ => None
  end.

(** The callback of [tasks.forEach]: one task and its index.  The worker
    invoked for the task at [index] reads the clock [clock index]. *)
Definition each_task (assignedAgents : value) (clock : nat -> string)
                     (task : value) (index : nat) : Eff Run unit :=
  (agentId <- eval (at_index assignedAgents index) ;;
   match agent_of agentId with
   | Some a =>
       fun r =>
         let (c, f) := invokeWorkerAgent a task (clock index) (flow r) in
         (Ok tt,
          push (mkWorker a match c with Ok _ => Pending | Thrown e => Rejected e end)
               (in_flow (fun _ => f) r))
   | None =>
       printed <- eval (ToString host agentId) ;;
       exec (in_flow (addStatusUpdate "warning" "Unknown agent"
                        ("Agent ID: " ++ printed)))
   end)%eff.

Fixpoint forEach (callback : value -> nat -> Eff Run unit)
                 (items : list value) (index : nat) : Eff Run unit :=
  match items with
  | [] => ret tt
  | item :: rest => (callback item index ;; forEach callback rest (S index))%eff
  end.

(** [!tasks || tasks.length === 0]. *)
Definition no_tasks (tasks : value) : bool :=
  negb (truthy tasks)
  || match tasks with
     | VArr [] => true
     | VObj fields => strict_eq (lookup "length" fields) (VNum 0%float)
     | _ => false
     end.

(** What [processChatMessage] returns when all workers are done. *)
Definition completed (msg : string) (response : value) (workerResults : list value)
                     (iso : string) : value :=
  VObj [("success", VBool true); ("message", VStr msg);
        ("orchestratorResponse", response);
        ("workerResults", VArr workerResults); ("timestamp", VStr iso)].

(** [await Promise.all(workerPromises)] and what follows it, when the
    promises change: a rejection rejects the workflow, through its [catch];
    the last fulfilment completes it.  A workflow that is settled stays as
    it is. *)
Definition react (iso : string) (r : Run) : Run :=
  match settled r with
  | Some _ => r
  | None =>
      match first_rejected (workerPromises r) with
      | Some error =>
          settle (Thrown error)
                 (in_flow (addStatusUpdate "error" "Workflow failed" (JS.message error)) r)
      | None =>
          match all_fulfilled (workerPromises r) with
          | Some workerResults =>
              settle (Ok (completed (sent r) (orchestratorResponse r) workerResults iso))
                     (in_flow (addStatusUpdate "success" "Workflow completed"
                                 "All agents finished successfully") r)
          | None => r
          end
      end
  end.

(** [processChatMessage(message, addStatusUpdate)] up to its first
    [await]. *)
Definition processChatMessage (msg iso requestId : string) (f : Flow) : Flow :=
  let f := addStatusUpdate "info" "Starting workflow"
                           "Sending message to orchestrator" f in
  invokeOrchestrator msg (VObj []) iso requestId f.

(** The [try] block of [processChatMessage] from the answer of the
    orchestrator to [await Promise.all]: [true] when it returned at the
    check of the tasks. *)
Definition delegate (ans : FetchResult) (clock : nat -> string) : Eff Run bool :=
  (response <- (fun r => let (c, f) := invokeOrchestrator_resume ans (flow r) in
                         (c, in_flow (fun _ => f) r)) ;;
   exec (fun r => mkRun (flow r) (sent r) response (workerPromises r) (settled r)) ;;
   tasks <- eval (get response "tasks") ;;
   assignedAgents <- eval (get response "assignedAgents") ;;
   if no_tasks tasks then
     exec (in_flow (addStatusUpdate "warning" "No tasks assigned"
                                    "Orchestrator returned no work items")) ;;
     ret true
   else
     match tasks with
     | VArr items => forEach (each_task assignedAgents clock) items 0
     | _ => throw (TypeError_call "tasks.forEach")
     end ;;
     n <- read (fun r => length (workerPromises r)) ;;
     exec (in_flow (addStatusUpdate "processing" "Workers executing"
                      ("Running " ++ string_of_nat n ++ " worker agent(s)"))) ;;
     ret false)%eff.

(** [processChatMessage] from the answer of the orchestrator on;
    [clock index] is the clock the worker of the task at [index] reads, and
    [iso] the clock at the result when there is no worker to wait for. *)
Definition processChatMessage_resume (msg : string) (ans : FetchResult)
                                     (clock : nat -> string) (iso : string)
                                     (f : Flow) : Run :=
  match delegate ans clock (mkRun f msg VUndefined [] None) with
  | (Ok true, r) => settle (Ok (orchestratorResponse r)) r
  | (Ok false, r) => react iso r
  | (Thrown error, r) =>
      settle (Thrown error)
             (in_flow (addStatusUpdate "error" "Workflow failed" (JS.message error)) r)
  end.

(** The answer to the invocation of the worker at position [k] of
    [workerPromises]. *)
Definition worker_answers (k : nat) (ans : FetchResult) (iso : string) (r : Run) : Run :=
  match nth_error (workerPromises r) k with
  | Some (mkWorker a Pending) =>
      let (c, f) := invokeWorkerAgent_resume a ans (flow r) in
      react iso
        (resolve k match c with Ok v => Fulfilled v | Thrown e => Rejected e end
                 (in_flow (fun _ => f) r))
  | _ => r
  end.

(** *** The health check *)

Definition health : value := VObj [("action", VStr "health")].

(** [checkLambdaHealth(addStatusUpdate)] up to its [await]. *)
Definition checkLambdaHealth (f : Flow) : Flow :=
  let f := addStatusUpdate "info" "Health check started"
                           "Checking all Lambda functions" f in
  let f := invokeLambda ORCHESTRATOR health f in
  let f := invokeLambda (WORKER_AGENT Worker1) health f in
  let f := invokeLambda (WORKER_AGENT Worker2) health f in
  let f := invokeLambda (WORKER_AGENT Worker3) health f in
  invokeLambda (WORKER_AGENT Worker4) health f.

(** [check.status === 'fulfilled'] for the settled promise of an
    invocation. *)
Definition fulfilled (ans : FetchResult) : bool :=
  match invoked ans with Ok _ => true | Thrown _ => false end.

(** The answers to the five invocations of a health check, in the order
    of the array. *)
Record Answers : Type := mkAnswers {
  of_orchestrator : FetchResult;
  of_worker1 : FetchResult;
  of_worker2 : FetchResult;
  of_worker3 : FetchResult;
  of_worker4 : FetchResult
}.

Definition settled_checks (answers : Answers) : list bool :=
  map fulfilled [of_orchestrator answers; of_worker1 answers; of_worker2 answers;
                 of_worker3 answers; of_worker4 answers].

(** [checkLambdaHealth] once the five invocations are settled. *)
Definition checkLambdaHealth_resume (answers : Answers) (iso : string)
  : Eff Flow value :=
  try_catch
    (let healthChecks := settled_checks answers in
     let healthy := length (filter (fun b => b) healthChecks) in
     let unhealthy := length healthChecks - healthy in
     (if (0 <? unhealthy)%nat then
        exec (addStatusUpdate "warning" "Health check completed"
                (string_of_nat healthy ++ "/" ++ string_of_nat (length healthChecks)
                 ++ " Lambdas healthy"))
      else
        exec (addStatusUpdate "success" "Health check completed"
                              "All Lambdas healthy")) ;;
     ret (VObj [("orchestrator", VBool (nth 0 healthChecks false));
                ("worker1", VBool (nth 1 healthChecks false));
                ("worker2", VBool (nth 2 healthChecks false));
                ("worker3", VBool (nth 3 healthChecks false));
                ("worker4", VBool (nth 4 healthChecks false));
                ("timestamp", VStr iso)]))%eff
    (fun error =>
       exec (addStatusUpdate "error" "Health check failed" (JS.message error)) ;;
       throw error)%eff.

(** [Object.values(v)] of an object. *)
Definition values (v : value) : list value :=
  match v with
  | VObj fields => map snd fields
  | _ => []
  end.

(** [initializeAgentSystem(addStatusUpdate)] up to its [await]. *)
Definition initializeAgentSystem (f : Flow) : Flow :=
  checkLambdaHealth
    (addStatusUpdate "info" "Initializing system"
                     "Connecting to AWS Lambda backend" f).

Definition initializeAgentSystem_resume (answers : Answers) (iso : string)
  : Eff Flow value :=
  try_catch
    (healthStatus <- checkLambdaHealth_resume answers iso ;;
     (if (length (filter (fun v => strict_eq v (VBool true)) (values healthStatus)) =? 5)%nat
      then exec (addStatusUpdate "success" "System initialized"
                                 "All 5 Lambda functions ready")
      else exec (addStatusUpdate "warning" "Partial initialization"
                                 "Some Lambda functions unavailable")) ;;
     ret healthStatus)%eff
    (fun error =>
       exec (addStatusUpdate "error" "Initialization failed" (JS.message error)) ;;
       throw error)%eff.

End WithHost.

(** *** Vocabulary of the statements *)

(** The id the [switch] of [processChatMessage] knows an agent by, which is
    also the [agentId] of the payload of its invocation. *)
Definition agentId (a : Agent) : string := "worker-" ++ number a.

(** A value whose properties can be read: any but [null] and
    [undefined]. *)
Definition readable (v : value) : bool :=
  match v with
  | VUndefined | VNull => false
  | _ => true
  end.

(** A value [v] of which the property [k], or the text [otherwise] in its
    place when it is falsy, can be read and converted to a string. *)
Definition prints (host : Host) (k otherwise : string) (v : value) : bool :=
  match and_then (get v k) (fun x => ToString host (or_text x otherwise)) with
  | Ok _ => true
  | Thrown _ => false
  end.

(** A task a worker can start on: [task.type || 'Unknown'] can be
    printed. *)
Definition starts (host : Host) (task : value) : bool :=
  prints host "type" "Unknown" task.

(** An answer a worker can report: [response.status || 'Success'] can be
    printed. *)
Definition reports (host : Host) (response : value) : bool :=
  prints host "status" "Success" response.

(** The answer to the invocation of a worker as it arrives: the position of
    the worker in [workerPromises], the answer, and the clock then. *)
Record Arrival : Type := mkArrival {
  position : nat;
  answer : FetchResult;
  clock : string
}.

Definition arrive (host : Host) (r : Run) (x : Arrival) : Run :=
  worker_answers host (position x) (answer x) (clock x) r.

(** The answers of the workers, one after the other as they arrive. *)
Definition arrivals (host : Host) (l : list Arrival) (r : Run) : Run :=
  fold_left (arrive host) l r.

(** Promises of the workers [agents] of which those at the positions [done]
    are fulfilled, with the value of [results] at their position, and the
    others pending. *)
Definition tallied (agents : list Agent) (results : list value) (done : list nat)
                   (l : list Worker) : Prop :=
  length l = length agents
  /\ forall k w, nth_error l k = Some w ->
       agent w = nth k agents Worker1
       /\ (In k done -> promise w = Fulfilled (nth k results VUndefined))
       /\ (~ In k done -> promise w = Pending).

(** The message of the status update a worker ends with. *)
Definition worker_line (u : Update) : Prop :=
  exists a, message u = "Worker Agent " ++ number a ++ " completed"
            \/ message u = "Worker Agent " ++ number a ++ " failed".

End AwsLambda.

(** ** App.js *)

Module App.

Module Message.
(** An element of [messages]; [text] is a string for what the user sent
    and whatever the workflow returned as [response] for the bot. *)
Record t : Type := mk {
  id : nat;
  text : value;
  sender : string;
  time : string
}.
End Message.

Module StatusUpdate.
(** An element of [statusUpdates]; [type], [message] and [details] are
    strings when [processChatMessage] says them and whatever the
    orchestrator sent when they come from [result.updates]. *)
Record t : Type := mk {
  id : nat;
  type : value;
  message : value;
  timestamp : string;
  details : value
}.
End StatusUpdate.

(** The two [useState] variables: what one render sees. *)
Record State : Type := mkState {
  messages : list Message.t;
  statusUpdates : list StatusUpdate.t
}.

(** The component as [useState] initialises it; [iso1] and [iso2] are the
    two readings of the clock. *)
Definition mount (iso1 iso2 : string) : State :=
  mkState
    [Message.mk 1 (VStr "Hello! Welcome to the chat.") "bot" "10:00 AM";
     Message.mk 2 (VStr "Hi there!") "user" "10:01 AM";
     Message.mk 3 (VStr "How can I help you today?") "bot" "10:01 AM"]
    [StatusUpdate.mk 1 (VStr "info") (VStr "System initialized") iso1
                     (VStr "Application started successfully");
     StatusUpdate.mk 2 (VStr "success") (VStr "Connected to AWS") iso2
                     (VStr "Backend ready to process requests")].

(** [setMessages(update)] and [setStatusUpdates(update)], with a function
    of the previous value. *)
Definition setMessages (update : list Message.t -> list Message.t) (s : State) : State :=
  mkState (update (messages s)) (statusUpdates s).

Definition setStatusUpdates (update : list StatusUpdate.t -> list StatusUpdate.t)
                            (s : State) : State :=
  mkState (messages s) (update (statusUpdates s)).

(** [addStatusUpdate(type, message, details)] of the render [r], at the
    clock [iso]. *)
Definition addStatusUpdate (r : State) (iso : string) (type message details : value)
  : State -> State :=
  let newStatus :=
    StatusUpdate.mk (length (statusUpdates r) + 1) type message iso details in
  setStatusUpdates (fun prev => prev ++ [newStatus])%list.

(** [handleSendMessage(newMessage)] of the render [r] up to its [await];
    [time] is the reading of the clock. *)
Definition handleSendMessage (r : State) (newMessage : string) (time : string)
  : State -> State :=
  let message := Message.mk (length (messages r) + 1) (VStr newMessage) "user" time in
  setMessages (fun _ => messages r ++ [message])%list.

(** What [processChatMessage] tells the [addStatusUpdate] of the render
    [r]: the calls [said], the first at the clock [clock n], the next at
    [clock (S n)], and so on. *)
Fixpoint told (r : State) (clock : nat -> string) (n : nat)
              (said : list AwsLambda.Update) (s : State) : State :=
  match said with
  | [] => s
  | u :: rest =>
      told r clock (S n) rest
           (addStatusUpdate r (clock n) (VStr (AwsLambda.type u))
                            (VStr (AwsLambda.message u))
                            (VStr (AwsLambda.details u)) s)
  end.

Fixpoint forEach (callback : value -> nat -> Eff State unit)
                 (items : list value) (index : nat) : Eff State unit :=
  match items with
  | [] => ret tt
  | item :: rest => (callback item index ;; forEach callback rest (S index))%eff
  end.

(** The callback of [result.updates.forEach], of the render [r]: one
    update and its index. *)
Definition each_update (r : State) (clock : nat -> string)
                       (update : value) (n : nat) : Eff State unit :=
  (type <- eval (get update "type") ;;
   message <- eval (get update "message") ;;
   details <- eval (get update "details") ;;
   exec (addStatusUpdate r (clock n) type message details))%eff.

(** [handleSendMessage] of the render [r] from the outcome of
    [processChatMessage] to its end.  [clock n] is the clock at the update
    of [result.updates] at index [n], [iso] the clock in the [catch] and
    [time] the one at the bot message. *)
Definition handleSendMessage_resume (r : State) (outcome : Completion value)
                                    (clock : nat -> string) (iso time : string)
  : Eff State unit :=
  try_catch
    (result <- eval outcome ;;
     updates <- eval (get result "updates") ;;
     (if truthy updates then
        match updates with
        | VArr items =>
            forEach (each_update r clock) items 0
        | _ => throw (AwsLambda.TypeError_call "result.updates.forEach")
        end
      else ret tt) ;;
     response <- eval (get result "response") ;;
     let botMessage :=
       Message.mk (length (messages r) + 2) (AwsLambda.or_text response "Done")
                  "bot" time in
     exec (setMessages (fun prev => prev ++ [botMessage])%list))%eff
    (fun error =>
       exec (addStatusUpdate r iso (VStr "error") (VStr "Error")
                             (VStr (JS.message error))))%eff.

(** The elements of [result.updates] when it is an array. *)
Definition updates_of (result : value) : list value :=
  match Poller.field "updates" result with
  | VArr items => items
  | _ => []
  end.

(** A result that can be shown: its properties can be read, and
    [result.updates] is falsy or an array of values whose properties can
    be read. *)
Definition shows (result : value) : bool :=
  AwsLambda.readable result
  && (if truthy (Poller.field "updates" result)
      then match Poller.field "updates" result with
           | VArr items => forallb AwsLambda.readable items
           | _ => false
           end
      else true).

(** The status updates the render [r] makes of the updates [items] of a
    result, the first at the clock [clock n]. *)
Fixpoint copied (r : State) (clock : nat -> string) (n : nat) (items : list value)
  : list StatusUpdate.t :=
  match items with
  | [] => []
  | item :: rest =>
      StatusUpdate.mk (length (statusUpdates r) + 1) (Poller.field "type" item)
                      (Poller.field "message" item) (clock n)
                      (Poller.field "details" item)
      :: copied r clock (S n) rest
  end.

(** A send of the render [r] from the call of [handleSendMessage] to its
    end: [said] is what [processChatMessage] told its callback and
    [outcome] how it settled. *)
Definition send (r : State) (newMessage time : string)
                (said : list AwsLambda.Update) (told_at : nat -> string)
                (outcome : Completion value)
                (clock : nat -> string) (iso time' : string) (s : State) : State :=
  snd (handleSendMessage_resume r outcome clock iso time'
         (told r told_at 0 said (handleSendMessage r newMessage time s))).

End App.

(** ** More documents for the examples *)

Module Samples.

(** The JSON text of an object whose [status] is the number 5. *)
Definition five_doc : string := "{" ++ Examples.quoted "status" ++ ":5}".

Definition five : value := VObj [("status", VNum 5%float)].

Definition documents : list (string * value) :=
  ((five_doc, five) :: Examples.documents)%list.

Definition host : Host :=
  mkHost (Examples.parse_in documents) Examples.stringify Examples.number_toString.

End Samples.

(** ** Answers of the orchestrator for the examples *)

Module Workflows.
Import Examples.

Definition sum_task : value := VObj [("type", VStr "sum")].

Definition sort_task : value := VObj [("type", VStr "sort")].

Definition task_doc (t : string) : string :=
  "{" ++ quoted "type" ++ ":" ++ quoted t ++ "}".

Definition tasks_doc : string :=
  quoted "tasks" ++ ":[" ++ task_doc "sum" ++ "," ++ task_doc "sort" ++ "]".

(** Two tasks, the first for worker 2 and the second for worker 1. *)
Definition two_tasks : value :=
  VObj [("tasks", VArr [sum_task; sort_task]);
        ("assignedAgents", VArr [VStr "worker-2"; VStr "worker-1"])].

Definition two_tasks_doc : string :=
  "{" ++ tasks_doc ++ "," ++ quoted "assignedAgents" ++ ":["
      ++ quoted "worker-2" ++ "," ++ quoted "worker-1" ++ "]}".

(** Two tasks and no agents. *)
Definition unassigned : value := VObj [("tasks", VArr [sum_task; sort_task])].

Definition unassigned_doc : string := "{" ++ tasks_doc ++ "}".

(** Two tasks for agents the workflow does not know. *)
Definition strangers : value :=
  VObj [("tasks", VArr [sum_task; sort_task]);
        ("assignedAgents", VArr [VStr "worker-5"])].

Definition strangers_doc : string :=
  "{" ++ tasks_doc ++ "," ++ quoted "assignedAgents" ++ ":["
      ++ quoted "worker-5" ++ "]}".

Definition documents : list (string * value) :=
  ((two_tasks_doc, two_tasks) :: (unassigned_doc, unassigned)
   :: (strangers_doc, strangers) :: Examples.documents)%list.

Definition host : Host := mkHost (parse_in documents) stringify number_toString.

(** The two tasks with their workers. *)
Definition plan : list (value * AwsLambda.Agent) :=
  [(sum_task, AwsLambda.Worker2); (sort_task, AwsLambda.Worker1)].

(** The clock a worker reads: a second after noon for each task before
    its own. *)
Definition seconds (index : nat) : string := "12:00:0" ++ string_of_nat index.

(** The workflow of the message [hi] when the orchestrator has answered
    with the two tasks. *)
Definition delegated_run : AwsLambda.Run :=
  AwsLambda.processChatMessage_resume host "hi" (ok_response two_tasks_doc)
                                      seconds "12:00" AwsLambda.nothing.

(** The worker at position 1 answers first, then the one at position 0. *)
Definition second_first : list AwsLambda.Arrival :=
  [AwsLambda.mkArrival 1 (ok_response (status_doc "done")) "12:01"].

Definition then_first : AwsLambda.Arrival :=
  AwsLambda.mkArrival 0 (ok_response (status_doc "A")) "12:02".

Definition gateway_timeout : FetchResult :=
  Ok (mkResponse false 504 "Gateway Timeout" (Ok EmptyString)).

End Workflows.

(** * Properties of the status poller *)

Module PollerFacts.
Import StatusPanel Poller.

Section WithHost.
Variable host : Host.

(** The continuation of [pollLambda] is the decision policy applied to
    what the fetch delivered, with the displayed text read from the
    closure. *)
Lemma resume_delivered (r : State) (ans : FetchResult) (now : float) (w : World) :
  pollLambda_resume host r ans now w
  = (Ok tt,
     match delivered host ans with
     | Failed => setConnectionStatus "Error" w
     | NoStatus => w
     | Raw currentRaw => decision_policy (statusMessage r) currentRaw now w
     end).
Proof.
  unfold pollLambda_resume, delivered, try_catch, bind, eval, exec, read, ret.
  destruct ans as [response | e]; simpl; [ | reflexivity ].
  destruct (ok response); simpl; [ | reflexivity ].
  destruct (text response) as [body | e]; simpl; [ | reflexivity ].
  destruct (JSON_parse host body) as [parsed | e]; simpl; [ | reflexivity ].
  destruct (payload host parsed) as [data | e]; simpl; [ | reflexivity ].
  destruct (get data "status") as [st | e]; simpl; [ | reflexivity ].
  destruct (truthy st); [ | reflexivity ].
  unfold decision_policy.
  destruct (strict_eq st (previousStatusRef w)
            && negb (strict_eq st (VStr "initial status"))).
  - destruct (strict_eq (statusMessage r) processingStatus); reflexivity.
  - destruct (strict_eq st (statusMessage r)); reflexivity.
Qed.

(** No exception leaves [pollLambda]: the promise it returns is always
    fulfilled. *)
Lemma resume_fulfilled (r : State) (ans : FetchResult) (now : float) (w : World) :
  fst (pollLambda_resume host r ans now w) = Ok tt.
Proof. rewrite resume_delivered. reflexivity. Qed.

Lemma settle_fulfilled (k : nat) (ans : FetchResult) (now : float) (w : World) :
  fst (settle host k ans now w) = Ok tt.
Proof.
  unfold settle. destruct (nth_error (requests w) k); [ | reflexivity ].
  apply resume_fulfilled.
Qed.

(** *** The history and the id counter *)

(** The policy leaves the history and the counter alone, or appends one
    entry that takes the counter as its id. *)
Lemma policy_appends (displayed currentRaw : value) (now : float) (w : World) :
  let w' := decision_policy displayed currentRaw now w in
  (statusHistory (state w') = statusHistory (state w)
   /\ historyIdCounter w' = historyIdCounter w)
  \/ (exists st,
        statusHistory (state w')
        = (statusHistory (state w) ++ [mkEntry (historyIdCounter w) st now])%list
        /\ historyIdCounter w' = S (historyIdCounter w)).
Proof.
  unfold decision_policy.
  destruct (strict_eq currentRaw (previousStatusRef w)
            && negb (strict_eq currentRaw (VStr "initial status"))).
  - destruct (strict_eq displayed processingStatus); simpl.
    + left. split; reflexivity.
    + right. exists processingStatus. split; reflexivity.
  - destruct (strict_eq currentRaw displayed); simpl.
    + left. split; reflexivity.
    + right. exists currentRaw. split; reflexivity.
Qed.

Lemma resume_appends (r : State) (ans : FetchResult) (now : float) (w : World) :
  let w' := snd (pollLambda_resume host r ans now w) in
  (statusHistory (state w') = statusHistory (state w)
   /\ historyIdCounter w' = historyIdCounter w)
  \/ (exists st,
        statusHistory (state w')
        = (statusHistory (state w) ++ [mkEntry (historyIdCounter w) st now])%list
        /\ historyIdCounter w' = S (historyIdCounter w)).
Proof.
  rewrite resume_delivered. simpl.
  destruct (delivered host ans) as [ | | currentRaw ].
  - left. split; reflexivity.
  - left. split; reflexivity.
  - apply policy_appends.
Qed.

Lemma settle_appends (k : nat) (ans : FetchResult) (now : float) (w : World) :
  let w' := snd (settle host k ans now w) in
  (statusHistory (state w') = statusHistory (state w)
   /\ historyIdCounter w' = historyIdCounter w)
  \/ (exists st,
        statusHistory (state w')
        = (statusHistory (state w) ++ [mkEntry (historyIdCounter w) st now])%list
        /\ historyIdCounter w' = S (historyIdCounter w)).
Proof.
  unfold settle. destruct (nth_error (requests w) k) as [q | ].
  - apply (resume_appends (resume q) ans now
                          (set_requests (remove_nth k (requests w)) w)).
  - left. split; reflexivity.
Qed.

Lemma startPolling_history (r : State) (w : World) :
  statusHistory (state (startPolling r w)) = statusHistory (state w)
  /\ historyIdCounter (startPolling r w) = historyIdCounter w.
Proof. unfold startPolling. destruct (pollIntervalRef w); split; reflexivity. Qed.

Lemma stopPolling_history (w : World) :
  statusHistory (state (stopPolling w)) = statusHistory (state w)
  /\ historyIdCounter (stopPolling w) = historyIdCounter w.
Proof. unfold stopPolling. destruct (pollIntervalRef w); split; reflexivity. Qed.

Lemma tick_history (h : positive) (w : World) :
  statusHistory (state (tick h w)) = statusHistory (state w)
  /\ historyIdCounter (tick h w) = historyIdCounter w.
Proof. unfold tick. destruct (find _ (intervals w)); split; reflexivity. Qed.

Lemma ids_in_order_same (w w' : World) :
  statusHistory (state w') = statusHistory (state w)
  /\ historyIdCounter w' = historyIdCounter w ->
  ids_in_order w -> ids_in_order w'.
Proof. unfold ids_in_order. intros [Hh Hc]. rewrite Hh, Hc. trivial. Qed.

Lemma ids_in_order_append (w w' : World) (st : value) (now : float) :
  statusHistory (state w')
  = (statusHistory (state w) ++ [mkEntry (historyIdCounter w) st now])%list ->
  historyIdCounter w' = S (historyIdCounter w) ->
  ids_in_order w -> ids_in_order w'.
Proof.
  unfold ids_in_order. intros Hh Hc [Hids Hn].
  rewrite Hh, Hc, map_app, length_app, Hids, Hn. simpl.
  rewrite Nat.add_1_r, seq_S. split; reflexivity.
Qed.

Lemma ids_in_order_clear (w : World) : ids_in_order (clearHistory w).
Proof. split; reflexivity. Qed.

Lemma step_ids_in_order (ev : Event) (w : World) :
  ids_in_order w -> ids_in_order (step host ev w).
Proof.
  intros Hw. destruct ev as [r | | | r | | | e | h | k ans now]; simpl.
  - apply (ids_in_order_same w); [ apply startPolling_history | exact Hw ].
  - apply (ids_in_order_same w); [ apply stopPolling_history | exact Hw ].
  - apply ids_in_order_clear.
  - unfold handleChatMessage. destruct (negb (isPolling r)); [ | exact Hw ].
    apply (ids_in_order_same w); [ apply startPolling_history | exact Hw ].
  - unfold click_toggle. destruct (isPolling (state w)).
    + apply (ids_in_order_same w); [ apply stopPolling_history | exact Hw ].
    + apply (ids_in_order_same w); [ apply startPolling_history | exact Hw ].
  - unfold click_clear. destruct (isPolling (state w));
      [ exact Hw | apply ids_in_order_clear ].
  - exact Hw.
  - apply (ids_in_order_same w); [ apply tick_history | exact Hw ].
  - destruct (settle_appends k ans now w) as [Hsame | [st [Hh Hc]]].
    + apply (ids_in_order_same w); assumption.
    + apply (ids_in_order_append w _ st now); assumption.
Qed.

Lemma run_ids_in_order (evs : list Event) (w : World) :
  ids_in_order w -> ids_in_order (run host evs w).
Proof.
  revert w. induction evs as [ | ev evs IH]; intros w Hw; simpl.
  - exact Hw.
  - apply IH, step_ids_in_order, Hw.
Qed.

Lemma mount_ids_in_order : ids_in_order mount.
Proof. split; reflexivity. Qed.

Lemma seq_increasing (a n : nat) : StronglySorted lt (seq a n).
Proof.
  revert a. induction n as [ | n IH]; intros a; simpl; constructor.
  - apply IH.
  - apply Forall_forall. intros x Hx. apply in_seq in Hx. lia.
Qed.

Lemma fetchCycle_settles (h : positive) (ans : FetchResult) (now : float) (w : World) :
  fetchCycle host h ans now w
  = snd (settle host (length (requests w)) ans now (tick h w)).
Proof. reflexivity. Qed.

(** C4: the history is append-only under every fetch cycle.  In every
    world [w] a run of events leads to from the mounted component, a tick
    leaves the history as it is, the answer to a fetch (whichever request
    it answers), and so a whole cycle, leaves it as it is or appends
    one entry at its end, and the ids of the entries are strictly
    increasing, so without repeats, before and after. *)
Theorem C4_history_append_only
    (evs : list Event) (h : positive) (k : nat) (ans : FetchResult) (now : float) :
  let w := run host evs mount in
  let appended (w' : World) :=
    statusHistory (state w') = statusHistory (state w)
    \/ exists e, statusHistory (state w')
                 = (statusHistory (state w) ++ [e])%list in
  let increasing (w' : World) :=
    StronglySorted lt (map id (statusHistory (state w')))
    /\ NoDup (map id (statusHistory (state w'))) in
  statusHistory (state (tick h w)) = statusHistory (state w)
  /\ appended (snd (settle host k ans now w))
  /\ appended (fetchCycle host h ans now w)
  /\ increasing w
  /\ increasing (snd (settle host k ans now w))
  /\ increasing (fetchCycle host h ans now w).
Proof.
  intros w appended increasing.
  assert (Hw : ids_in_order w) by apply run_ids_in_order, mount_ids_in_order.
  assert (Hinc : forall w', ids_in_order w' -> increasing w').
  { intros w' [Hids _]. unfold increasing. rewrite Hids.
    split; [ apply seq_increasing | apply seq_NoDup ]. }
  assert (Happ : forall w0 j w',
             statusHistory (state w0) = statusHistory (state w) ->
             w' = snd (settle host j ans now w0) -> appended w').
  { intros w0 j w' H0 ->. unfold appended. rewrite <- H0.
    destruct (settle_appends j ans now w0) as [[Hh _] | [st [Hh _]]].
    - left. exact Hh.
    - right. eexists. exact Hh. }
  repeat split.
  - apply tick_history.
  - apply (Happ w k); reflexivity.
  - apply (Happ (tick h w) (length (requests w))); [ apply tick_history | ].
    apply fetchCycle_settles.
  - apply Hinc, Hw.
  - apply Hinc, Hw.
  - apply Hinc. apply (step_ids_in_order (Settle k ans now)), Hw.
  - apply Hinc. apply (step_ids_in_order (Settle k ans now)), Hw.
  - apply Hinc. apply (run_ids_in_order [Tick h; Settle (length (requests w)) ans now]), Hw.
  - apply Hinc. apply (run_ids_in_order [Tick h; Settle (length (requests w)) ans now]), Hw.
Qed.

Lemma apply_op_ids_in_order (w : World) (op : HistoryOp) :
  ids_in_order w -> ids_in_order (apply_op w op).
Proof.
  intros Hw. destruct op as [st now | ]; simpl.
  - apply (ids_in_order_append w _ st now); [ reflexivity | reflexivity | exact Hw ].
  - apply ids_in_order_clear.
Qed.

Lemma ids_in_order_nth (w : World) (k : nat) :
  ids_in_order w ->
  option_map id (nth_error (statusHistory (state w)) k)
  = if (k <? length (statusHistory (state w)))%nat then Some k else None.
Proof.
  intros [Hids _]. rewrite <- nth_error_map, Hids.
  destruct (Nat.ltb_spec k (length (statusHistory (state w)))) as [Hlt | Hge].
  - rewrite nth_error_seq. apply Nat.ltb_lt in Hlt. rewrite Hlt. reflexivity.
  - apply nth_error_None. rewrite length_seq. exact Hge.
Qed.

(** C9: after any sequence of history insertions and clears, and after
    any run of events of the component, the k-th entry of the history,
    counting from 0, has id k, and the id counter is the length of the
    history. *)
Theorem C9_id_is_index (ops : list HistoryOp) (evs : list Event) (k : nat) :
  let indexed (w : World) :=
    map id (statusHistory (state w)) = seq 0 (length (statusHistory (state w)))
    /\ option_map id (nth_error (statusHistory (state w)) k)
       = (if (k <? length (statusHistory (state w)))%nat then Some k else None)
    /\ historyIdCounter w = length (statusHistory (state w)) in
  indexed (fold_left apply_op ops mount)
  /\ indexed (run host evs mount)
  /\ indexed (fold_left apply_op ops (run host evs mount)).
Proof.
  intros indexed.
  assert (Hops : forall w, ids_in_order w -> ids_in_order (fold_left apply_op ops w)).
  { induction ops as [ | op ops' IH]; intros w Hw; simpl.
    - exact Hw.
    - apply IH, apply_op_ids_in_order, Hw. }
  assert (Hidx : forall w, ids_in_order w -> indexed w).
  { intros w Hw. unfold indexed. split; [ apply Hw | split ].
    - apply ids_in_order_nth, Hw.
    - apply Hw. }
  split; [ | split ]; apply Hidx.
  - apply Hops, mount_ids_in_order.
  - apply run_ids_in_order, mount_ids_in_order.
  - apply Hops, run_ids_in_order, mount_ids_in_order.
Qed.

(** *** Failures *)

Lemma failure_delivered (ans : FetchResult) :
  Failure host ans -> delivered host ans = Failed.
Proof.
  intros [e | response Hok | response e Hok Ht | response body e Hok Ht Hp
          | response body parsed e Hok Ht Hp Hpay ];
    unfold delivered; try rewrite Hok; simpl; try rewrite Ht; try rewrite Hp;
    simpl; try rewrite Hpay; reflexivity.
Qed.

(** C3: a fetch cycle that ends in a transport failure (the fetch is
    rejected, or the response is not a 2xx one) or in a parse failure (the
    body cannot be read, is no JSON, or is an envelope whose payload cannot
    be had) appends no history entry, leaves the displayed text and the
    tracker as they are, sets the connection label to Error, and the promise
    of the cycle is fulfilled: no exception reaches the caller.  The same
    holds when the answer is that of the k-th request in flight. *)
Theorem C3_failure_is_absorbed
    (r : State) (ans : FetchResult) (now : float) (w : World) (k : nat) :
  Failure host ans ->
  let absorbed (w0 : World) (out : Completion unit * World) :=
    fst out = Ok tt
    /\ statusHistory (state (snd out)) = statusHistory (state w0)
    /\ statusMessage (state (snd out)) = statusMessage (state w0)
    /\ previousStatusRef (snd out) = previousStatusRef w0
    /\ historyIdCounter (snd out) = historyIdCounter w0 in
  pollLambda_resume host r ans now w = (Ok tt, setConnectionStatus "Error" w)
  /\ absorbed w (pollLambda_resume host r ans now w)
  /\ connectionStatus (state (snd (pollLambda_resume host r ans now w))) = "Error"
  /\ absorbed w (settle host k ans now w)
  /\ (k < length (requests w) ->
      connectionStatus (state (snd (settle host k ans now w))) = "Error").
Proof.
  intros Hfail absorbed.
  assert (Hres : forall r0 w0, pollLambda_resume host r0 ans now w0
                               = (Ok tt, setConnectionStatus "Error" w0)).
  { intros r0 w0. rewrite resume_delivered, (failure_delivered ans Hfail).
    reflexivity. }
  split; [ apply Hres | ].
  split; [ rewrite Hres; repeat split | ].
  split; [ rewrite Hres; reflexivity | ].
  unfold settle. destruct (nth_error (requests w) k) as [q | ] eqn:Hq.
  - rewrite Hres. split; [ repeat split | reflexivity ].
  - split; [ repeat split | ].
    intros Hk. apply nth_error_None in Hq. lia.
Qed.

(** *** The schedule *)

Lemma startPolling_again (r : State) (w : World) :
  pollIntervalRef w <> None -> startPolling r w = w.
Proof.
  unfold startPolling. destruct (pollIntervalRef w); [ reflexivity | congruence ].
Qed.

Lemma startPolling_first (r : State) (w : World) :
  pollIntervalRef w = None ->
  startPolling r w
  = mkWorld (mkState (statusMessage (state w)) (statusHistory (state w)) true
                     (apiEndpoint (state w)) "Polling started")
            (Some (nextHandle w)) (historyIdCounter w) (VStr EmptyString)
            (intervals w ++ [mkInterval (nextHandle w) r 2000])%list
            (Pos.succ (nextHandle w))
            (requests w ++ [mkRequest (apiEndpoint r ++ "/status") "GET" r])%list.
Proof. unfold startPolling. intros ->. reflexivity. Qed.

Lemma startPolling_scheduled (r : State) (w : World) :
  pollIntervalRef (startPolling r w) <> None.
Proof.
  destruct (pollIntervalRef w) as [h | ] eqn:Href.
  - rewrite startPolling_again; congruence.
  - rewrite (startPolling_first r w Href). discriminate.
Qed.

Lemma policy_schedule (displayed currentRaw : value) (now : float) (w : World) :
  pollIntervalRef (decision_policy displayed currentRaw now w) = pollIntervalRef w
  /\ intervals (decision_policy displayed currentRaw now w) = intervals w.
Proof.
  unfold decision_policy.
  destruct (strict_eq currentRaw (previousStatusRef w)
            && negb (strict_eq currentRaw (VStr "initial status")));
    [ destruct (strict_eq displayed processingStatus)
    | destruct (strict_eq currentRaw displayed) ]; split; reflexivity.
Qed.

Lemma settle_schedule (k : nat) (ans : FetchResult) (now : float) (w : World) :
  pollIntervalRef (snd (settle host k ans now w)) = pollIntervalRef w
  /\ intervals (snd (settle host k ans now w)) = intervals w.
Proof.
  unfold settle. destruct (nth_error (requests w) k) as [q | ];
    [ | split; reflexivity ].
  rewrite resume_delivered. simpl.
  destruct (delivered host ans) as [ | | currentRaw ]; try (split; reflexivity).
  apply (policy_schedule (statusMessage (resume q)) currentRaw now
                         (set_requests (remove_nth k (requests w)) w)).
Qed.

Lemma tick_schedule (h : positive) (w : World) :
  pollIntervalRef (tick h w) = pollIntervalRef w
  /\ intervals (tick h w) = intervals w.
Proof. unfold tick. destruct (find _ (intervals w)); split; reflexivity. Qed.

(** An event that cannot stop the poller leaves a running schedule
    running. *)
Lemma step_keeps_schedule (ev : Event) (w : World) :
  may_stop ev = false ->
  pollIntervalRef w <> None -> pollIntervalRef (step host ev w) <> None.
Proof.
  intros Hev Hw. destruct ev as [r | | | r | | | e | h | k ans now];
    simpl in *; try discriminate; try exact Hw.
  - rewrite startPolling_again; assumption.
  - unfold handleChatMessage. destruct (negb (isPolling r)); [ | exact Hw ].
    rewrite startPolling_again; assumption.
  - unfold click_clear. destruct (isPolling (state w)); exact Hw.
  - destruct (tick_schedule h w) as [-> _]. exact Hw.
  - destruct (settle_schedule k ans now w) as [-> _]. exact Hw.
Qed.

Lemma run_keeps_schedule (evs : list Event) (w : World) :
  forallb (fun ev => negb (may_stop ev)) evs = true ->
  pollIntervalRef w <> None -> pollIntervalRef (run host evs w) <> None.
Proof.
  revert w. induction evs as [ | ev evs IH]; intros w Hevs Hw; simpl in *.
  - exact Hw.
  - apply andb_prop in Hevs. destruct Hevs as [Hev Hevs].
    apply IH; [ exact Hevs | ].
    apply step_keeps_schedule; [ | exact Hw ].
    destruct (may_stop ev); [ discriminate | reflexivity ].
Qed.

Lemma one_schedule_same (w w' : World) :
  pollIntervalRef w' = pollIntervalRef w /\ intervals w' = intervals w ->
  one_schedule w -> one_schedule w'.
Proof. unfold one_schedule. intros [-> ->]. trivial. Qed.

Lemma startPolling_one_schedule (r : State) (w : World) :
  one_schedule w -> one_schedule (startPolling r w).
Proof.
  intros Hw. destruct (pollIntervalRef w) as [h | ] eqn:Href.
  - rewrite startPolling_again; [ exact Hw | congruence ].
  - rewrite (startPolling_first r w Href). unfold one_schedule in *.
    rewrite Href in Hw. simpl. rewrite Hw. exists r. reflexivity.
Qed.

Lemma stopPolling_one_schedule (w : World) :
  one_schedule w -> one_schedule (stopPolling w).
Proof.
  unfold one_schedule, stopPolling.
  destruct (pollIntervalRef w) as [h | ] eqn:Href; simpl.
  - intros [r ->]. simpl. rewrite Pos.eqb_refl. reflexivity.
  - rewrite Href. trivial.
Qed.

Lemma step_one_schedule (ev : Event) (w : World) :
  one_schedule w -> one_schedule (step host ev w).
Proof.
  intros Hw. destruct ev as [r | | | r | | | e | h | k ans now]; simpl.
  - apply startPolling_one_schedule, Hw.
  - apply stopPolling_one_schedule, Hw.
  - exact Hw.
  - unfold handleChatMessage. destruct (negb (isPolling r)); [ | exact Hw ].
    apply startPolling_one_schedule, Hw.
  - unfold click_toggle. destruct (isPolling (state w)).
    + apply stopPolling_one_schedule, Hw.
    + apply startPolling_one_schedule, Hw.
  - unfold click_clear. destruct (isPolling (state w)); exact Hw.
  - exact Hw.
  - apply (one_schedule_same w); [ apply tick_schedule | exact Hw ].
  - apply (one_schedule_same w); [ apply settle_schedule | exact Hw ].
Qed.

Lemma run_one_schedule (evs : list Event) (w : World) :
  one_schedule w -> one_schedule (run host evs w).
Proof.
  revert w. induction evs as [ | ev evs IH]; intros w Hw; simpl.
  - exact Hw.
  - apply IH, step_one_schedule, Hw.
Qed.

(** C6: [startPolling] is idempotent with respect to scheduling.  Once it
    has run, a second call, from any closure and after any events that do
    not stop the poller, changes nothing at all; in every world a run of
    events leads to from the mounted component the timer table holds at most
    one interval; and a first call (no interval held) resets the tracker to
    the empty string, sets [isPolling], issues one GET of the status path and
    schedules the poll every 2000 ms. *)
Theorem C6_start_is_idempotent
    (r r' : State) (w : World) (evs : list Event) :
  (forallb (fun ev => negb (may_stop ev)) evs = true ->
   startPolling r' (run host evs (startPolling r w))
   = run host evs (startPolling r w))
  /\ (pollIntervalRef w <> None -> startPolling r w = w)
  /\ length (intervals (run host evs mount)) <= 1
  /\ (pollIntervalRef w = None ->
      startPolling r w
      = mkWorld (mkState (statusMessage (state w)) (statusHistory (state w)) true
                         (apiEndpoint (state w)) "Polling started")
                (Some (nextHandle w)) (historyIdCounter w) (VStr EmptyString)
                (intervals w ++ [mkInterval (nextHandle w) r 2000])%list
                (Pos.succ (nextHandle w))
                (requests w ++ [mkRequest (apiEndpoint r ++ "/status") "GET" r])%list).
Proof.
  split; [ | split; [ | split ] ].
  - intros Hevs. apply startPolling_again, run_keeps_schedule;
      [ exact Hevs | apply startPolling_scheduled ].
  - apply startPolling_again.
  - assert (H : one_schedule (run host evs mount))
      by (apply run_one_schedule; reflexivity).
    unfold one_schedule in H.
    destruct (pollIntervalRef (run host evs mount)).
    + destruct H as [r0 ->]. simpl. lia.
    + rewrite H. simpl. lia.
  - apply startPolling_first.
Qed.

(** *** Sessions *)

Lemma remove_nth_last {A : Type} (l : list A) (x : A) :
  remove_nth (length l) (l ++ [x])%list = l.
Proof. induction l as [ | y l IH]; simpl; [ | rewrite IH ]; reflexivity. Qed.

Lemma nth_error_last {A : Type} (l : list A) (x : A) :
  nth_error (l ++ [x])%list (length l) = Some x.
Proof. induction l as [ | y l IH]; simpl; [ reflexivity | exact IH ]. Qed.

Lemma set_requests_same (w : World) : set_requests (requests w) w = w.
Proof. destruct w; reflexivity. Qed.

(** A cycle of the interval [h] runs the continuation of the closure the
    interval holds: the closure of the render that started the session. *)
Lemma fetchCycle_runs
    (h : positive) (i : Interval) (ans : FetchResult) (now : float) (w : World) :
  find (fun i => Pos.eqb (handle i) h) (intervals w) = Some i ->
  fetchCycle host h ans now w
  = snd (pollLambda_resume host (callback i) ans now w).
Proof.
  intros Hi. rewrite fetchCycle_settles. unfold tick. rewrite Hi.
  unfold settle, pollLambda, fetch. simpl.
  rewrite nth_error_last, remove_nth_last. simpl.
  replace (set_requests (requests w)
             (set_requests (requests w ++ [mkRequest (apiEndpoint (callback i) ++ STATUS) "GET" (callback i)])%list w))
    with w by (destruct w; reflexivity).
  reflexivity.
Qed.

Lemma first_fetch_resume (r : State) (ans : FetchResult) (now : float) (w : World) :
  pollIntervalRef w = None ->
  first_fetch host r ans now w
  = snd (pollLambda_resume host r ans now
           (set_requests (requests w) (startPolling r w))).
Proof.
  intros Href. unfold first_fetch. rewrite (startPolling_first r w Href).
  simpl. rewrite length_app, Nat.add_1_r. simpl.
  unfold settle. simpl. rewrite nth_error_last, remove_nth_last. reflexivity.
Qed.

Lemma policy_view (displayed currentRaw : value) (now : float) (w1 w2 : World) :
  view w1 = view w2 ->
  view (decision_policy displayed currentRaw now w1)
  = view (decision_policy displayed currentRaw now w2).
Proof.
  unfold view. intros H. injection H as Hm Hh Hp Hc Hn Hprev.
  unfold decision_policy. rewrite Hprev.
  destruct (strict_eq currentRaw (previousStatusRef w2)
            && negb (strict_eq currentRaw (VStr "initial status")));
    [ destruct (strict_eq displayed processingStatus)
    | destruct (strict_eq currentRaw displayed) ];
    simpl; congruence.
Qed.

(** What a cycle leaves to be seen is decided by what was to be seen, the
    displayed text of the closure and the answer. *)
Lemma resume_view (r1 r2 : State) (ans : FetchResult) (now : float) (w1 w2 : World) :
  statusMessage r1 = statusMessage r2 ->
  view w1 = view w2 ->
  view (snd (pollLambda_resume host r1 ans now w1))
  = view (snd (pollLambda_resume host r2 ans now w2)).
Proof.
  intros Hr Hw. rewrite !resume_delivered. simpl. rewrite Hr.
  destruct (delivered host ans) as [ | | currentRaw ].
  - unfold view in *. simpl. congruence.
  - exact Hw.
  - apply policy_view, Hw.
Qed.

(** [stopPolling] and then [clearHistory] leave, from any world, an empty
    history, an empty displayed text, the id counter at 0 and the tracker
    empty, with no interval held; a start by any closure then has the empty
    tracker. *)
Lemma stop_then_clear_resets (w : World) (r : State) :
  let w1 := clearHistory (stopPolling w) in
  (statusHistory (state w1) = []
   /\ statusMessage (state w1) = VStr EmptyString
   /\ historyIdCounter w1 = 0
   /\ previousStatusRef w1 = VStr EmptyString
   /\ pollIntervalRef w1 = None
   /\ isPolling (state w1) = false)
  /\ previousStatusRef (startPolling r w1) = VStr EmptyString.
Proof.
  intros w1.
  assert (Href : pollIntervalRef w1 = None).
  { unfold w1, stopPolling. destruct (pollIntervalRef w) eqn:Hw; simpl;
      [ reflexivity | exact Hw ]. }
  split.
  - repeat split; exact Href.
  - rewrite (startPolling_first r w1 Href). reflexivity.
Qed.

(** *** Repeats of one status *)

Lemma rule1_appends (displayed : value) (A : string) (now : float) (w : World) :
  strict_eq displayed processingStatus = false ->
  previousStatusRef w = VStr A -> A <> "initial status" ->
  decision_policy displayed (VStr A) now w
  = setConnectionStatus "Polling - Processing"
      (addToHistory processingStatus now (setStatusMessage processingStatus w)).
Proof.
  intros Hd Hprev HA. unfold decision_policy. rewrite Hprev, Hd. simpl.
  rewrite String.eqb_refl. apply String.eqb_neq in HA. rewrite HA. reflexivity.
Qed.

Lemma rule1_skips (A : string) (now : float) (w : World) :
  previousStatusRef w = VStr A -> A <> "initial status" ->
  decision_policy processingStatus (VStr A) now w = w.
Proof.
  intros Hprev HA. unfold decision_policy. rewrite Hprev. simpl.
  rewrite String.eqb_refl. apply String.eqb_neq in HA. rewrite HA. reflexivity.
Qed.

(** In a session whose closure does not read the processing text as the
    displayed one, every repeat of a status other than the sentinel appends
    a processing entry: [n] repeats append [n] entries. *)
Lemma every_repeat_appends
    (h : positive) (i : Interval) (A : string)
    (answers : list (FetchResult * float)) (w : World) :
  find (fun i => Pos.eqb (handle i) h) (intervals w) = Some i ->
  strict_eq (statusMessage (callback i)) processingStatus = false ->
  previousStatusRef w = VStr A -> A <> "initial status" ->
  Forall (fun a => delivered host (fst a) = Raw (VStr A)) answers ->
  map status (statusHistory (state (cycles host h answers w)))
  = (map status (statusHistory (state w))
     ++ repeat processingStatus (length answers))%list.
Proof.
  intros Hi Hd Hprev HA Hall. revert w Hi Hprev.
  induction Hall as [ | a answers Ha _ IH]; intros w Hi Hprev.
  - simpl. rewrite app_nil_r. reflexivity.
  - change (cycles host h (a :: answers) w)
      with (cycles host h answers (fetchCycle host h (fst a) (snd a) w)).
    rewrite (fetchCycle_runs h i (fst a) (snd a) w Hi).
    rewrite resume_delivered, Ha. simpl snd.
    rewrite (rule1_appends _ A (snd a) w Hd Hprev HA).
    rewrite IH; [ | exact Hi | exact Hprev ].
    simpl. rewrite map_app, <- app_assoc. reflexivity.
Qed.

(** With the displayed text read from the world at every fetch, as the
    specification words rule 1, a run of repeats appends one processing
    entry, on the first repeat. *)
Lemma live_text_appends_once
    (A : string) (a : float) (times : list float) (w : World) :
  strict_eq (statusMessage (state w)) processingStatus = false ->
  previousStatusRef w = VStr A -> A <> "initial status" ->
  map status (statusHistory (state
        (fold_left live_policy (map (fun t => (VStr A, t)) (a :: times)) w)))
  = (map status (statusHistory (state w)) ++ [processingStatus])%list.
Proof.
  intros Hd Hprev HA. simpl. unfold live_policy at 2. simpl fst. simpl snd.
  rewrite (rule1_appends _ A a w Hd Hprev HA).
  set (w1 := setConnectionStatus _ _).
  assert (Hfix : forall l, fold_left live_policy (map (fun t => (VStr A, t)) l) w1 = w1).
  { induction l as [ | t l IH]; simpl; [ reflexivity | ].
    unfold live_policy at 2. simpl fst. simpl snd.
    replace (statusMessage (state w1)) with processingStatus by reflexivity.
    rewrite (rule1_skips A t w1); [ exact IH | exact Hprev | exact HA ]. }
  rewrite Hfix. unfold w1. simpl. rewrite map_app. reflexivity.
Qed.

(** *** The envelope *)

Lemma payload_is_amended (parsed : value) :
  on_payload_agree (payload host parsed) (payload_amended host parsed).
Proof.
  unfold on_payload_agree, payload, payload_amended.
  destruct parsed as [ | | b | n | t | items | fields ]; simpl;
    try reflexivity; try (right; reflexivity); try (left; reflexivity).
  destruct (truthy (lookup "statusCode" fields)) eqn:Hsc; simpl;
    rewrite ?Hsc; simpl; [ | reflexivity ].
  destruct (truthy (lookup "body" fields)) eqn:Hb; simpl;
    rewrite ?Hb; simpl; [ | reflexivity ].
  destruct (JSON_parse_value host (lookup "body" fields)); simpl; trivial.
Qed.

Lemma resume_on_payload
    (r : State) (ans : FetchResult) (parsed : value) (now : float) (w : World) :
  parses_to host ans parsed ->
  pollLambda_resume host r ans now w
  = (Ok tt, on_payload r now w (payload_amended host parsed)).
Proof.
  intros [response [body [-> [Hok [Ht Hp]]]]].
  rewrite resume_delivered. unfold delivered. rewrite Hok, Ht, Hp. simpl.
  pose proof (payload_is_amended parsed) as Hagree. unfold on_payload_agree in Hagree.
  destruct (payload host parsed) as [data | e];
    destruct (payload_amended host parsed) as [data' | e']; simpl.
  - subst data'. destruct data as [ | | b | n | t | items | fields ]; simpl;
      try reflexivity.
    destruct (truthy (lookup "status" fields)); reflexivity.
  - destruct Hagree as [-> | ->]; reflexivity.
  - destruct Hagree as [-> | ->]; reflexivity.
  - reflexivity.
Qed.

Lemma no_field_undefined (k : string) (v : value) :
  has_field k v = false -> field k v = VUndefined.
Proof.
  destruct v as [ | | b | n | t | items | fields ]; simpl; try reflexivity.
  induction fields as [ | [k' x] fields IH]; simpl; [ reflexivity | ].
  destruct (k =? k'); simpl; [ discriminate | exact IH ].
Qed.

(** C2, amended: on every successful fetch whose body parses, the payload
    is the parsed [body] field when the [statusCode] and [body] fields of the
    parsed value are both truthy, with one level unwrapped, and the parsed
    value itself otherwise; a payload that cannot be had or is [null] ends
    the cycle as an error, and when the payload is not [null] and has no
    status field, or a falsy one, the cycle changes nothing: no history
    entry, the displayed text, the tracker and the connection label as they
    were. *)
Theorem C2_envelope_unwrapped_when_truthy
    (r : State) (ans : FetchResult) (parsed : value) (now : float) (w : World) :
  parses_to host ans parsed ->
  pollLambda_resume host r ans now w
  = (Ok tt, on_payload r now w (payload_amended host parsed))
  /\ (forall data,
        payload_amended host parsed = Ok data ->
        data <> VNull -> data <> VUndefined ->
        has_field "status" data = false \/ truthy (field "status" data) = false ->
        pollLambda_resume host r ans now w = (Ok tt, w)).
Proof.
  intros Hparsed. split; [ apply resume_on_payload, Hparsed | ].
  intros data Hdata Hnull Hundef Hstatus.
  rewrite (resume_on_payload r ans parsed now w Hparsed), Hdata.
  assert (Hfalsy : truthy (field "status" data) = false).
  { destruct Hstatus as [Hno | Hf]; [ | exact Hf ].
    rewrite (no_field_undefined _ _ Hno). reflexivity. }
  unfold on_payload. rewrite Hfalsy.
  destruct data; try reflexivity; congruence.
Qed.

(** *** What the closure reads *)

Lemma delivered_truthy (ans : FetchResult) (st : value) :
  delivered host ans = Raw st -> truthy st = true.
Proof.
  unfold delivered. destruct ans as [response | e]; [ | discriminate ].
  destruct (negb (ok response)); [ discriminate | ].
  destruct (text response) as [body | e]; [ | discriminate ].
  destruct (and_then (JSON_parse host body) (payload host)) as [data | e];
    [ | discriminate ].
  destruct (get data "status") as [st' | e]; [ | discriminate ].
  destruct (truthy st') eqn:Hst; [ | discriminate ].
  intros [= <-]. exact Hst.
Qed.

(** X1: the continuation of [pollLambda] never throws, and what it does is
    the decision policy of the specification with, for the displayed text,
    the [statusMessage] of the render that created the closure. *)
Theorem X1_cycle_applies_policy_to_closure_text
    (r : State) (ans : FetchResult) (now : float) (w : World) :
  pollLambda_resume host r ans now w
  = (Ok tt,
     match delivered host ans with
     | Failed => setConnectionStatus "Error" w
     | NoStatus => w
     | Raw currentRaw => decision_policy (statusMessage r) currentRaw now w
     end).
Proof. apply resume_delivered. Qed.

(** X2: in a session started by a closure whose displayed text is not the
    processing text, [n] repeats in a row of a status other than the sentinel
    append [n] processing entries, one per tick. *)
Theorem X2_n_repeats_append_n_entries
    (h : positive) (i : Interval) (A : string)
    (answers : list (FetchResult * float)) (w : World) :
  find (fun i => Pos.eqb (handle i) h) (intervals w) = Some i ->
  strict_eq (statusMessage (callback i)) processingStatus = false ->
  previousStatusRef w = VStr A -> A <> "initial status" ->
  Forall (fun a => delivered host (fst a) = Raw (VStr A)) answers ->
  map status (statusHistory (state (cycles host h answers w)))
  = (map status (statusHistory (state w))
     ++ repeat processingStatus (length answers))%list.
Proof. apply every_repeat_appends. Qed.

(** X3: after a stop and a clear, a session started by a closure of an
    older render, one that showed the status [s], passes over a first fetch
    that reports [s]: no entry is appended, nothing is displayed, and the
    label says no change.  The listener of [chatMessageSent] is such a
    closure: its effect runs again only when [isPolling] changes, so after a
    clear it still is the one registered when the poller stopped. *)
Theorem X3_older_closure_passes_over_its_text
    (w : World) (r : State) (s : string) (ans : FetchResult) (now : float) :
  statusMessage r = VStr s -> delivered host ans = Raw (VStr s) ->
  let w' := first_fetch host r ans now (clearHistory (stopPolling w)) in
  statusHistory (state w') = []
  /\ statusMessage (state w') = VStr EmptyString
  /\ connectionStatus (state w') = "Polling - No change".
Proof.
  intros Hr Hans w'. unfold w'.
  assert (Href : pollIntervalRef (clearHistory (stopPolling w)) = None).
  { unfold stopPolling. destruct (pollIntervalRef w) eqn:Hw; simpl;
      [ reflexivity | exact Hw ]. }
  rewrite (first_fetch_resume r ans now _ Href), resume_delivered, Hans.
  rewrite (startPolling_first r _ Href). simpl snd.
  unfold decision_policy. rewrite Hr. simpl.
  apply delivered_truthy in Hans. simpl in Hans.
  destruct (s =? EmptyString); [ discriminate | ].
  rewrite String.eqb_refl. simpl. repeat split.
Qed.

End WithHost.

(** ** Examples, witnesses and counterexamples *)

(** C1, on the code: a fresh component, the polling button clicked, and
    the status A fetched three times in a row.  The two repeats append two
    processing entries, not one: the [pollLambda] that [setInterval] holds
    reads the displayed text of the render that started the session, which
    never is the processing text. *)
Theorem C1_two_repeats_two_entries :
  Examples.recorded (Examples.session "A" []) = [VStr "A"]
  /\ Examples.recorded (Examples.session "A" ["A"])
     = [VStr "A"; VStr "processing..."]
  /\ Examples.recorded (Examples.session "A" ["A"; "A"])
     = [VStr "A"; VStr "processing..."; VStr "processing..."]
  /\ count_status "processing..."
       (statusHistory (state (Examples.session "A" ["A"; "A"]))) = 2.
Proof. repeat split. Qed.

(** C7, on the code: a fresh component that displays done after the
    polling button and one fetch, then the polling button again (the stop)
    and the clear button.  History and displayed text are empty, the id
    counter is 0 and the tracker empty, as claimed, and a start finds them
    so.  Started again by the polling button, the first fetch of done is
    recorded as the first fetch of the fresh component was.  Started again
    by a chat message (the event [chatMessageSent]), the first fetch of
    done is passed over: no entry, nothing displayed, the label says no
    change.  The listener is the [handleChatMessage] of the render that
    followed the stop, the effect being registered again only when
    [isPolling] changes; the [pollLambda] it starts compares the status with
    the text that render displayed, done, not with the text the clear
    left. *)
Theorem C7_restart_by_chat_is_no_fresh_start :
  let done := Panel.Answer 0 (fst (Examples.says "done")) Examples.noon in
  let fresh := Panel.ui_run Examples.host [Panel.PressToggle; done] Panel.loaded in
  let cleared :=
    Panel.ui_run Examples.host [Panel.PressToggle; Panel.PressClear] fresh in
  let first_entry := [mkEntry 0 (VStr "done") Examples.noon] in
  view (Panel.world fresh)
  = (VStr "done", first_entry, true, "Polling - Status updated", 1, VStr "done")
  /\ view (Panel.world cleared)
     = (VStr EmptyString, [], false, "Stopped", 0, VStr EmptyString)
  /\ view (Panel.world (Panel.ui_run Examples.host [Panel.PressToggle] cleared))
     = (VStr EmptyString, [], true, "Polling started", 0, VStr EmptyString)
  /\ view (Panel.world
             (Panel.ui_run Examples.host [Panel.DispatchChatMessageSent] cleared))
     = (VStr EmptyString, [], true, "Polling started", 0, VStr EmptyString)
  /\ view (Panel.world (Panel.ui_run Examples.host [Panel.PressToggle; done] cleared))
     = (VStr "done", first_entry, true, "Polling - Status updated", 1, VStr "done")
  /\ view (Panel.world
             (Panel.ui_run Examples.host [Panel.DispatchChatMessageSent; done] cleared))
     = (VStr EmptyString, [], true, "Polling - No change", 0, VStr EmptyString).
Proof. repeat split. Qed.

(** C5, on the code: a fresh component, the polling button clicked, and
    the statuses initial status, initial status, done fetched in turn.  The
    displayed texts are those the specification expects, but the second
    fetch of the sentinel appends a second entry for it (rule 2, against the
    displayed text of the render that started the session, the empty
    string), so the history ends with three entries. *)
Theorem C5_sentinel_repeat_is_recorded_twice :
  map Examples.shown
      [Examples.session "initial status" [];
       Examples.session "initial status" ["initial status"];
       Examples.session "initial status" ["initial status"; "done"]]
  = [VStr "initial status"; VStr "initial status"; VStr "done"]
  /\ Examples.recorded (Examples.session "initial status" [])
     = [VStr "initial status"]
  /\ Examples.recorded (Examples.session "initial status" ["initial status"])
     = [VStr "initial status"; VStr "initial status"]
  /\ Examples.recorded (Examples.session "initial status" ["initial status"; "done"])
     = [VStr "initial status"; VStr "initial status"; VStr "done"]
  /\ connectionStatus (state (Examples.session "initial status" ["initial status"]))
     = "Polling - Status updated".
Proof. repeat split. Qed.


(** The host parses the text of the empty envelope to its value. *)
Lemma empty_envelope_parses :
  parses_to Examples.host (Examples.ok_response Examples.empty_envelope_doc)
            Examples.empty_envelope.
Proof.
  exists (mkResponse true 200 "OK" (Ok Examples.empty_envelope_doc)),
         Examples.empty_envelope_doc.
  repeat split.
Qed.

(** C2 as stated fails on an envelope with an empty body: the parsed value
    has both fields, so the rule as stated parses the empty string, which is
    no JSON, and the cycle would end as an error; the code takes the parsed
    value itself as the payload, finds no status, and changes nothing. *)
Lemma C2_empty_body_is_not_unwrapped :
  ~ envelope_rule_as_stated Examples.host.
Proof.
  intros H.
  specialize (H Examples.first_render
                (Examples.ok_response Examples.empty_envelope_doc)
                Examples.empty_envelope Examples.noon Examples.started
                empty_envelope_parses).
  vm_compute in H. discriminate H.
Qed.

(** The amended C2 at the envelope with an empty body: the payload is the
    parsed value, it has no status, and the cycle changes nothing. *)
Lemma C2_empty_envelope_changes_nothing :
  pollLambda_resume Examples.host Examples.first_render
                    (Examples.ok_response Examples.empty_envelope_doc)
                    Examples.noon Examples.started
  = (Ok tt, Examples.started).
Proof.
  refine (proj2 (C2_envelope_unwrapped_when_truthy Examples.host
                   Examples.first_render _ Examples.empty_envelope
                   Examples.noon Examples.started empty_envelope_parses)
                Examples.empty_envelope _ _ _ _).
  - reflexivity.
  - discriminate.
  - discriminate.
  - left. reflexivity.
Defined.

(** C3 at a fetch the network rejects. *)
Lemma C3_rejected_fetch_is_absorbed :
  pollLambda_resume Examples.host Examples.first_render
                    (Thrown (mkExn "TypeError" "Failed to fetch"))
                    Examples.noon Examples.started
  = (Ok tt, setConnectionStatus "Error" Examples.started).
Proof.
  refine (proj1 (C3_failure_is_absorbed Examples.host Examples.first_render
                   _ Examples.noon Examples.started 0 _)).
  constructor.
Defined.

(** C6 at a fresh component: a start, a tick, an answer, and a second
    start. *)
Lemma C6_second_start_changes_nothing :
  startPolling Examples.first_render
    (run Examples.host [Tick 1; Settle 0 (fst (Examples.says "A")) Examples.noon]
         (startPolling Examples.first_render mount))
  = run Examples.host [Tick 1; Settle 0 (fst (Examples.says "A")) Examples.noon]
        (startPolling Examples.first_render mount).
Proof.
  refine (proj1 (C6_start_is_idempotent Examples.host Examples.first_render
                   Examples.first_render mount _) _).
  reflexivity.
Defined.

(** X2 at the session of C1, after its first fetch: two repeats. *)
Lemma X2_two_repeats :
  map status (statusHistory (state (Examples.session "A" ["A"; "A"])))
  = [VStr "A"; processingStatus; processingStatus].
Proof.
  refine (X2_n_repeats_append_n_entries Examples.host 1
            (mkInterval 1 Examples.first_render 2000) "A"
            [Examples.says "A"; Examples.says "A"]
            (Examples.session "A" []) _ _ _ _ _).
  - reflexivity.
  - reflexivity.
  - reflexivity.
  - discriminate.
  - repeat constructor.
Defined.

(** X3 at a session that showed done, stopped, cleared, and started again
    by the closure of the render that followed the stop. *)
Lemma X3_done_is_passed_over :
  statusHistory (state
    (first_fetch Examples.host
                 (state (stopPolling (Examples.session "done" [])))
                 (fst (Examples.says "done")) Examples.noon
                 (clearHistory (stopPolling (Examples.session "done" [])))))
  = [].
Proof.
  refine (proj1 (X3_older_closure_passes_over_its_text Examples.host
                   (Examples.session "done" [])
                   (state (stopPolling (Examples.session "done" []))) "done"
                   (fst (Examples.says "done")) Examples.noon _ _)).
  - reflexivity.
  - reflexivity.
Defined.

End PollerFacts.

(** * Properties of the chat form *)

Module ChatFacts.
Import ChatPanel Chat.

Lemma trimStart_whitespace_only (s : string) :
  whitespace_only s = true -> trimStart s = EmptyString.
Proof.
  induction s as [ | c s IH]; simpl; [ reflexivity | ].
  destruct (is_whitespace c); simpl; [ exact IH | discriminate ].
Qed.

Lemma trimStart_head (s : string) :
  match trimStart s with
  | EmptyString => whitespace_only s = true
  | String c _ => is_whitespace c = false
  end.
Proof.
  induction s as [ | c s IH]; simpl; [ reflexivity | ].
  destruct (is_whitespace c) eqn:Hc; simpl; [ exact IH | exact Hc ].
Qed.

Lemma trimEnd_head (c : ascii) (s : string) :
  is_whitespace c = false -> trimEnd (String c s) <> EmptyString.
Proof.
  intros Hc. simpl. destruct (trimEnd s); [ rewrite Hc | ]; discriminate.
Qed.

(** [trim] leaves nothing exactly of the strings made of white space. *)
Lemma trim_empty (s : string) :
  trim s = EmptyString <-> whitespace_only s = true.
Proof.
  unfold trim. split.
  - intros Ht. pose proof (trimStart_head s) as Hs.
    destruct (trimStart s) as [ | c rest]; [ exact Hs | ].
    exfalso. exact (trimEnd_head c rest Hs Ht).
  - intros Hs. rewrite (trimStart_whitespace_only s Hs). reflexivity.
Qed.

Section WithHost.
Variable host : Host.

(** C10: submitting the form with an empty or whitespace-only input, or
    from a render in which a send is still processing, changes nothing of
    the component and the host: no message is appended, no event is
    dispatched on the window, no request is issued, and the input value, the
    processing flag, the connection label and the id counter stay as they
    are.  Only the default action of the DOM event is prevented.  The render
    [r] is any: the form calls the handler of the latest one, whose input
    value and processing flag are those of the world.  The Enter key, which
    calls the same handler, changes nothing either. *)
Theorem C10_blank_or_busy_submit_is_noop
    (r : State) (e : DomEvent) (c : Clock) (sent : float) (w : World) :
  whitespace_only (inputValue r) = true \/ isProcessing r = true ->
  handleSubmit host r e c sent w = (preventDefault e, w)
  /\ messages (state (snd (handleSubmit host r e c sent w))) = messages (state w)
  /\ dispatched (snd (handleSubmit host r e c sent w)) = dispatched w
  /\ requests (snd (handleSubmit host r e c sent w)) = requests w
  /\ inputValue (state (snd (handleSubmit host r e c sent w))) = inputValue (state w)
  /\ snd (handleKeyPress host r e c sent w) = w.
Proof.
  intros Hguard.
  assert (H : forall e0, handleSubmit host r e0 c sent w = (preventDefault e0, w)).
  { intros e0. unfold handleSubmit. destruct Hguard as [Hblank | Hbusy].
    - apply trim_empty in Hblank. rewrite Hblank. reflexivity.
    - rewrite Hbusy, orb_true_r. reflexivity. }
  split; [ apply H | ]. rewrite H. simpl.
  repeat split.
  unfold handleKeyPress. destruct ((key e =? "Enter") && negb (shiftKey e));
    [ rewrite H | ]; reflexivity.
Qed.

(** The guard is exact: any other submit empties the input, appends the
    trimmed text as a user message, dispatches the event and issues the
    POST. *)
Lemma submit_sends
    (r : State) (e : DomEvent) (c : Clock) (sent : float) (w : World) :
  whitespace_only (inputValue r) = false -> isProcessing r = false ->
  handleSubmit host r e c sent w
  = (preventDefault e,
     mkWorld
       (mkState (messages (state w)
                 ++ [mkMessage (messageIdCounter w) (VStr (trim (inputValue r)))
                               "user" (localeTime c) (now c) []])%list
                EmptyString true "Processing...")
       (S (messageIdCounter w))
       (dispatched w ++ ["chatMessageSent"])%list
       (requests w
        ++ [mkRequest (BASE_URL ++ CHAT) "POST"
              (JSON_stringify host
                 (VObj [("message", VStr (trim (inputValue r)));
                        ("timestamp", VNum sent)]))])%list).
Proof.
  intros Hblank Hbusy. unfold handleSubmit. rewrite Hbusy, orb_false_r.
  destruct (trim (inputValue r) =? EmptyString) eqn:Ht.
  - apply String.eqb_eq, trim_empty in Ht. congruence.
  - reflexivity.
Qed.

(** X4: a submit with text to send, from a render in which nothing is
    processing, empties the input, appends the trimmed text as a user
    message, dispatches [chatMessageSent] and issues one POST of the chat
    path. *)
Theorem X4_submit_appends_notifies_and_posts
    (r : State) (e : DomEvent) (c : Clock) (sent : float) (w : World) :
  whitespace_only (inputValue r) = false -> isProcessing r = false ->
  let w' := snd (handleSubmit host r e c sent w) in
  inputValue (state w') = EmptyString
  /\ messages (state w')
     = (messages (state w)
        ++ [mkMessage (messageIdCounter w) (VStr (trim (inputValue r)))
                      "user" (localeTime c) (now c) []])%list
  /\ dispatched w' = (dispatched w ++ ["chatMessageSent"])%list
  /\ map (fun q => (url q, method q)) (requests w')
     = (map (fun q => (url q, method q)) (requests w)
        ++ [((BASE_URL ++ CHAT)%string, "POST")])%list.
Proof.
  intros Hblank Hbusy w'. unfold w'.
  rewrite (submit_sends r e c sent w Hblank Hbusy). simpl.
  rewrite map_app. repeat split.
Qed.

(** *** The bot message *)

Lemma first_truthy_object (keys : list string) (p m : value) :
  first_truthy keys p = Some m ->
  truthy m = true /\ exists fields, p = VObj fields.
Proof.
  induction keys as [ | k keys IH]; simpl; [ discriminate | ].
  destruct (truthy (field k p)) eqn:Hk.
  - intros [= <-]. split; [ exact Hk | ].
    destruct p; simpl in Hk; try discriminate. eexists. reflexivity.
  - exact IH.
Qed.

Lemma chain_first_truthy (p fallback m : value) :
  first_truthy priority p = Some m ->
  response_message_body p fallback = Ok m.
Proof.
  intros Hm. destruct (first_truthy_object _ _ _ Hm) as [_ [fields ->]].
  unfold response_message_body, or_else. simpl in *.
  destruct (truthy (lookup "response" fields)); [ congruence | ].
  destruct (truthy (lookup "message" fields)); [ congruence | ].
  destruct (truthy (lookup "body" fields)); [ congruence | discriminate ].
Qed.

Lemma extract_first_truthy (data p m : value) :
  chat_payload host data = Some p -> first_truthy priority p = Some m ->
  extract host data = Ok (m, field "processing_time" p).
Proof.
  intros Hp Hm. destruct (first_truthy_object _ _ _ Hm) as [_ [pf Hpf]].
  unfold chat_payload in Hp. unfold extract.
  destruct data as [ | | b | n | t | items | fields ]; simpl in Hp;
    try (injection Hp as <-; discriminate Hpf).
  unfold field, Poller.field in Hp. simpl.
  destruct (truthy (lookup "statusCode" fields)) eqn:Hsc; simpl in *;
    rewrite ?Hsc; simpl.
  - destruct (truthy (lookup "body" fields)) eqn:Hb; simpl in *.
    + destruct (lookup "body" fields) as [ | | b | n | t | items | bf ] eqn:Hbody;
        simpl in Hb; try discriminate.
      * injection Hp as <-. discriminate Hpf.
      * injection Hp as <-. discriminate Hpf.
      * destruct (JSON_parse host t) as [q | e]; [ | discriminate ].
        injection Hp as ->. simpl.
        rewrite (chain_first_truthy p (VStr t) m Hm). simpl.
        subst p. reflexivity.
      * injection Hp as <-. discriminate Hpf.
      * injection Hp as <-.
        rewrite (chain_first_truthy (VObj bf) _ m Hm). reflexivity.
    + injection Hp as <-.
      rewrite (chain_first_truthy (VObj fields) _ m Hm). reflexivity.
  - injection Hp as <-.
    rewrite (chain_first_truthy (VObj fields) _ m Hm). reflexivity.
Qed.

Lemma payload_of_object (data p : value) :
  chat_payload host data = Some p -> (exists pf, p = VObj pf) ->
  exists fields, data = VObj fields.
Proof.
  intros Hp [pf Hpf].
  destruct data as [ | | b | n | t | items | fields ];
    try (injection Hp as <-; discriminate Hpf).
  eexists. reflexivity.
Qed.

(** C8, amended: for every parsed chat response, the bot message is the
    first truthy one of the fields response, message and body of the payload,
    in that order (a field that is present but empty, zero, false or null is
    passed over), be the payload the parsed body of an envelope, the body of
    an envelope that is not a string, or the response itself; and that value
    is the text of the bot message the answer appends. *)
Theorem C8_first_truthy_field_wins
    (data p m : value) (response : Response) (body : string) (c : Clock) (w : World) :
  chat_payload host data = Some p -> first_truthy priority p = Some m ->
  extract host data = Ok (m, field "processing_time" p)
  /\ (ok response = true -> JS.text response = Ok body ->
      JSON_parse host body = Ok data ->
      sendToLambda_resume host (Ok response) c w
      = (Ok tt,
         mkWorld
           (mkState
              (messages (state w)
               ++ [mkMessage (messageIdCounter w) m "bot" (localeTime c) (now c)
                     [("processingTime", field "processing_time" p);
                      ("status", if truthy (field "status" data)
                                 then field "status" data else VStr "success")]])%list
              (inputValue (state w)) false "Connected")
           (S (messageIdCounter w)) (dispatched w) (requests w))).
Proof.
  intros Hp Hm. split; [ apply extract_first_truthy; assumption | ].
  intros Hok Ht Hparse.
  destruct (first_truthy_object _ _ _ Hm) as [Htruthy Hobj].
  destruct (payload_of_object data p Hp Hobj) as [fields ->].
  unfold sendToLambda_resume, try_finally, try_catch, bind, eval, exec, throw.
  rewrite Hok, Ht. simpl. rewrite Hparse.
  rewrite (extract_first_truthy _ p m Hp Hm). rewrite Htruthy. simpl.
  unfold or_else. destruct (truthy (lookup "status" fields)); reflexivity.
Qed.

End WithHost.

(** ** Examples, witnesses and counterexamples *)

(** C8 as stated fails on a response whose [response] field is the empty
    string: the field is present, and the bot message is the [message]
    field. *)
Lemma C8_empty_response_is_passed_over :
  ~ extraction_as_stated Examples.host.
Proof.
  intros H.
  destruct (H Examples.empty_response Examples.empty_response (VStr EmptyString)
              eq_refl eq_refl) as [processingTime Hx].
  vm_compute in Hx. discriminate Hx.
Qed.

(** The amended C8 at a response that lists [message] before [response]:
    the priority decides, not the order of the fields, and the answer
    appends the bot message hello. *)
Lemma C8_response_before_message :
  extract Examples.host Examples.both_fields = Ok (VStr "hello", VUndefined)
  /\ map text (messages (state (snd
        (sendToLambda_resume Examples.host
           (Examples.ok_response Examples.both_fields_doc) Examples.lunch mount))))
     = [VStr "hello"].
Proof.
  pose proof (C8_first_truthy_field_wins Examples.host Examples.both_fields
                Examples.both_fields (VStr "hello")
                (mkResponse true 200 "OK" (Ok Examples.both_fields_doc))
                Examples.both_fields_doc Examples.lunch mount
                eq_refl eq_refl) as [Hextract Hresume].
  split; [ exact Hextract | ].
  unfold Examples.ok_response.
  rewrite (Hresume eq_refl eq_refl eq_refl). reflexivity.
Defined.

(** C10 at an input of three spaces. *)
Lemma C10_blank_submit_changes_nothing :
  handleSubmit Examples.host (Examples.chat_render "   " false) Examples.submit
               Examples.lunch Examples.noon mount
  = (preventDefault Examples.submit, mount).
Proof.
  refine (proj1 (C10_blank_or_busy_submit_is_noop Examples.host
                   (Examples.chat_render "   " false) Examples.submit
                   Examples.lunch Examples.noon mount _)).
  left. reflexivity.
Defined.

(** X4 at an input with spaces around one word. *)
Lemma X4_hello_is_sent :
  dispatched (snd (handleSubmit Examples.host (Examples.chat_render " hello " false)
                                Examples.submit Examples.lunch Examples.noon mount))
  = ["chatMessageSent"].
Proof.
  refine (proj1 (proj2 (proj2 (X4_submit_appends_notifies_and_posts Examples.host
                   (Examples.chat_render " hello " false) Examples.submit
                   Examples.lunch Examples.noon mount _ _)))).
  - reflexivity.
  - reflexivity.
Defined.

End ChatFacts.

(** * Properties of the panel and the page *)

Module PanelFacts.
Import StatusPanel Poller Panel.

(** [includes] finds exactly the substrings. *)
Lemma prefix_append (sub s : string) :
  String.prefix sub s = true <-> exists b, s = sub ++ b.
Proof.
  revert s. induction sub as [ | c sub IH]; intros s; simpl.
  - destruct s; split; intros _; try reflexivity; eexists; reflexivity.
  - destruct s as [ | c' s]; simpl.
    + split; [ discriminate | intros [b Hb]; discriminate Hb ].
    + destruct (Ascii.ascii_dec c c') as [-> | Hneq].
      * rewrite IH. split; intros [b Hb]; exists b; congruence.
      * split; [ discriminate | intros [b Hb]; congruence ].
Qed.

Lemma includes_substring (s sub : string) :
  includes s sub = true <-> exists a b, s = a ++ sub ++ b.
Proof.
  induction s as [ | c s IH]; cbn [includes].
  - rewrite orb_false_r, prefix_append. split.
    + intros [b Hb]. exists EmptyString, b. exact Hb.
    + intros [a [b Hab]]. destruct a; [ exists b; exact Hab | discriminate Hab ].
  - rewrite orb_true_iff, IH. split.
    + intros [Hp | [a [b Hab]]].
      * apply prefix_append in Hp. destruct Hp as [b Hb].
        exists EmptyString, b. exact Hb.
      * exists (String c a), b. simpl. rewrite Hab. reflexivity.
    + intros [a [b Hab]]. destruct a as [ | c' a]; simpl in Hab.
      * left. apply prefix_append. exists b. exact Hab.
      * right. injection Hab as _ Hs. exists a, b. exact Hs.
Qed.

Lemma color_follows_icon (st : value) :
  getStatusColor st = and_then (getStatusIcon st) (fun i => Ok (color_of i)).
Proof.
  unfold getStatusColor, getStatusIcon.
  destruct (status_includes st "processing") as [[ | ] | e]; simpl; try reflexivity.
  destruct (status_includes st "done") as [[ | ] | e]; simpl; try reflexivity.
  destruct (status_includes st "initial") as [[ | ] | e]; reflexivity.
Qed.

Lemma text_has_color (st : value) :
  is_text st = true ->
  exists i, getStatusIcon st = Ok i /\ getStatusColor st = Ok (color_of i).
Proof.
  destruct st as [ | | b | n | s | items | fields ]; try discriminate. intros _.
  assert (H : exists i, getStatusIcon (VStr s) = Ok i).
  { unfold getStatusIcon. simpl.
    destruct (includes s "processing"); [ eexists; reflexivity | ].
    destruct (includes s "done"); [ eexists; reflexivity | ].
    destruct (includes s "initial"); eexists; reflexivity. }
  destruct H as [i Hi]. exists i. split; [ exact Hi | ].
  rewrite color_follows_icon, Hi. reflexivity.
Qed.

(** X5: the icon and the colour of a status always agree: on every value
    the colour is the colour of the icon, and one throws when the other
    does, with the same exception. *)
Theorem X5_color_is_color_of_icon (st : value) :
  getStatusColor st = and_then (getStatusIcon st) (fun i => Ok (color_of i)).
Proof. apply color_follows_icon. Qed.

Lemma timeline_of_text (entries : list StatusEntry) :
  Forall (fun entry => is_text (status entry) = true) entries ->
  exists rows, timeline entries = Ok rows /\ length rows = length entries.
Proof.
  induction 1 as [ | entry entries Hentry _ [rows [Hrows Hlen]]]; simpl.
  - exists []. split; reflexivity.
  - destruct (text_has_color _ Hentry) as [i [Hi Hc]].
    rewrite Hc, Hi, Hrows. simpl. eexists. split; [ reflexivity | ].
    simpl. rewrite Hlen. reflexivity.
Qed.

Lemma paint_of_text (w : World) :
  all_text w ->
  exists color rows,
    paint (state w) = Ok (color, rows) /\ length rows = totalUpdates (state w).
Proof.
  intros [Hmsg Hhist]. unfold paint.
  destruct (text_has_color _ Hmsg) as [i [_ Hc]].
  destruct (timeline_of_text _ Hhist) as [rows [Hrows Hlen]].
  rewrite Hc, Hrows. simpl. eexists. eexists. split; [ reflexivity | exact Hlen ].
Qed.

Section WithHost.
Variable host : Host.

(** *** The cycle and the labels *)

Lemma policy_core (displayed currentRaw : value) (now : float) (w1 w2 : World) :
  core w1 = core w2 ->
  core (decision_policy displayed currentRaw now w1)
  = core (decision_policy displayed currentRaw now w2).
Proof.
  unfold core. intros H. injection H as Hm Hh Hn Hprev.
  unfold decision_policy. rewrite Hprev.
  destruct (strict_eq currentRaw (previousStatusRef w2)
            && negb (strict_eq currentRaw (VStr "initial status")));
    [ destruct (strict_eq displayed processingStatus)
    | destruct (strict_eq currentRaw displayed) ];
    simpl; congruence.
Qed.

Lemma resume_core (r : State) (ans : FetchResult) (now : float) (w1 w2 : World) :
  core w1 = core w2 ->
  core (snd (pollLambda_resume host r ans now w1))
  = core (snd (pollLambda_resume host r ans now w2)).
Proof.
  intros Hw. rewrite !PollerFacts.resume_delivered. simpl.
  destruct (delivered host ans) as [ | | currentRaw ].
  - exact Hw.
  - exact Hw.
  - apply policy_core, Hw.
Qed.

Lemma settle_core (k : nat) (ans : FetchResult) (now : float) (w1 w2 : World) :
  requests w1 = requests w2 -> core w1 = core w2 ->
  core (snd (settle host k ans now w1)) = core (snd (settle host k ans now w2)).
Proof.
  intros Hq Hw. unfold settle. rewrite Hq.
  destruct (nth_error (requests w2) k) as [q | ]; [ | exact Hw ].
  apply resume_core. exact Hw.
Qed.

Lemma stopPolling_core (w : World) :
  requests (stopPolling w) = requests w /\ core (stopPolling w) = core w.
Proof. unfold stopPolling. destruct (pollIntervalRef w); split; reflexivity. Qed.

(** X6: [stopPolling] aborts no fetch in flight.  The requests stay in
    flight, and the answer to one of them does to the displayed text, the
    history, the id counter and the tracker after the stop what it would
    have done without it. *)
Theorem X6_stop_keeps_answers_in_flight
    (w : World) (k : nat) (ans : FetchResult) (now : float) :
  requests (stopPolling w) = requests w
  /\ core (snd (settle host k ans now (stopPolling w)))
     = core (snd (settle host k ans now w)).
Proof.
  destruct (stopPolling_core w) as [Hq Hc].
  split; [ exact Hq | ]. apply settle_core; assumption.
Qed.

(** *** The polling flag *)

Lemma settle_flag (k : nat) (ans : FetchResult) (now : float) (w : World) :
  isPolling (state (snd (settle host k ans now w))) = isPolling (state w).
Proof.
  unfold settle. destruct (nth_error (requests w) k) as [q | ]; [ | reflexivity ].
  rewrite PollerFacts.resume_delivered. simpl.
  destruct (delivered host ans) as [ | | currentRaw ]; try reflexivity.
  unfold decision_policy.
  destruct (strict_eq currentRaw _ && _);
    [ destruct (strict_eq _ processingStatus)
    | destruct (strict_eq currentRaw _) ]; reflexivity.
Qed.

Lemma startPolling_flag (r : State) (w : World) :
  flag_agrees w -> flag_agrees (startPolling r w).
Proof.
  unfold flag_agrees. intros Hw. destruct (pollIntervalRef w) eqn:Href.
  - rewrite PollerFacts.startPolling_again; [ | congruence ].
    rewrite Href. exact Hw.
  - rewrite (PollerFacts.startPolling_first r w Href). reflexivity.
Qed.

Lemma stopPolling_flag (w : World) : flag_agrees (stopPolling w).
Proof.
  unfold flag_agrees, stopPolling. destruct (pollIntervalRef w) eqn:Href; simpl;
    [ | rewrite Href ]; reflexivity.
Qed.

Lemma step_flag (ev : Event) (w : World) :
  flag_agrees w -> flag_agrees (step host ev w).
Proof.
  intros Hw. destruct ev as [r | | | r | | | e | h | k ans now]; simpl.
  - apply startPolling_flag, Hw.
  - apply stopPolling_flag.
  - exact Hw.
  - unfold handleChatMessage. destruct (negb (isPolling r)); [ | exact Hw ].
    apply startPolling_flag, Hw.
  - unfold click_toggle. destruct (isPolling (state w)).
    + apply stopPolling_flag.
    + apply startPolling_flag, Hw.
  - unfold click_clear. destruct (isPolling (state w)); exact Hw.
  - exact Hw.
  - unfold flag_agrees in *. destruct (PollerFacts.tick_schedule h w) as [-> _].
    rewrite <- Hw. unfold tick. destruct (find _ (intervals w)); reflexivity.
  - unfold flag_agrees in *.
    destruct (PollerFacts.settle_schedule host k ans now w) as [-> _].
    rewrite settle_flag. exact Hw.
Qed.

Lemma run_flag (evs : list Event) (w : World) :
  flag_agrees w -> flag_agrees (run host evs w).
Proof.
  revert w. induction evs as [ | ev evs IH]; intros w Hw; simpl.
  - exact Hw.
  - apply IH, step_flag, Hw.
Qed.

Lemma stopPolling_twice (w : World) : stopPolling (stopPolling w) = stopPolling w.
Proof.
  unfold stopPolling. destruct (pollIntervalRef w) eqn:Href; simpl;
    rewrite ?Href; reflexivity.
Qed.

(** X7: in every world a run of events leads to from the mounted
    component, the polling flag is set exactly while [pollIntervalRef] holds
    an interval, which is exactly while the timer table is not empty; and
    [stopPolling] is idempotent, empties the timer table, and leaves no timer
    that could fire. *)
Theorem X7_flag_follows_interval (evs : list Event) (h : positive) :
  let w := run host evs mount in
  isPolling (state w)
  = match pollIntervalRef w with Some _ => true | None => false end
  /\ isPolling (state w) = match intervals w with [] => false | _ :: _ => true end
  /\ stopPolling (stopPolling w) = stopPolling w
  /\ intervals (stopPolling w) = []
  /\ tick h (stopPolling w) = stopPolling w.
Proof.
  intros w.
  assert (Hflag : flag_agrees w) by (apply run_flag; reflexivity).
  assert (Hone : one_schedule w) by (apply PollerFacts.run_one_schedule; reflexivity).
  assert (Hstop : intervals (stopPolling w) = []).
  { pose proof (PollerFacts.stopPolling_one_schedule w Hone) as H.
    unfold one_schedule in H.
    replace (pollIntervalRef (stopPolling w)) with (@None positive) in H; [ exact H | ].
    unfold stopPolling. destruct (pollIntervalRef w) eqn:Href; simpl;
      [ | rewrite Href ]; reflexivity. }
  split; [ exact Hflag | ]. split; [ | split; [ apply stopPolling_twice | split ] ].
  - rewrite Hflag. unfold one_schedule in Hone.
    destruct (pollIntervalRef w); [ destruct Hone as [r ->] | rewrite Hone ];
      reflexivity.
  - exact Hstop.
  - unfold tick. rewrite Hstop. reflexivity.
Qed.

(** *** The endpoint *)


(** *** Statuses that are no strings *)

Lemma policy_text (displayed currentRaw : value) (now : float) (w : World) :
  is_text currentRaw = true -> all_text w ->
  all_text (decision_policy displayed currentRaw now w).
Proof.
  intros Hraw [Hmsg Hhist]. unfold decision_policy, all_text.
  destruct (strict_eq currentRaw _ && _);
    [ destruct (strict_eq displayed processingStatus)
    | destruct (strict_eq currentRaw displayed) ]; simpl;
    try (split; assumption);
    (split; [ try reflexivity; assumption
            | apply Forall_app; split;
              [ exact Hhist | constructor; [ try reflexivity; assumption | constructor ] ] ]).
Qed.

Lemma step_text (ev : Event) (w : World) :
  text_only host ev -> all_text w -> all_text (step host ev w).
Proof.
  intros Hev Hw.
  assert (Hstart : forall r, all_text (startPolling r w)).
  { intros r. unfold startPolling. destruct (pollIntervalRef w); exact Hw. }
  assert (Hstop : all_text (stopPolling w)).
  { unfold stopPolling. destruct (pollIntervalRef w); exact Hw. }
  assert (Hclear : all_text (clearHistory w)) by (split; [ reflexivity | constructor ]).
  destruct ev as [r | | | r | | | e | h | k ans now]; simpl.
  - apply Hstart.
  - exact Hstop.
  - exact Hclear.
  - unfold handleChatMessage. destruct (negb (isPolling r)); [ apply Hstart | exact Hw ].
  - unfold click_toggle. destruct (isPolling (state w)); [ exact Hstop | apply Hstart ].
  - unfold click_clear. destruct (isPolling (state w)); [ exact Hw | exact Hclear ].
  - exact Hw.
  - unfold tick. destruct (find _ (intervals w)); exact Hw.
  - unfold settle. destruct (nth_error (requests w) k) as [q | ]; [ | exact Hw ].
    rewrite PollerFacts.resume_delivered. simpl. simpl in Hev.
    destruct (delivered host ans) as [ | | currentRaw ]; try exact Hw.
    apply policy_text; [ exact Hev | exact Hw ].
Qed.

Lemma run_text (evs : list Event) (w : World) :
  Forall (text_only host) evs -> all_text w -> all_text (run host evs w).
Proof.
  intros Hevs. revert w. induction Hevs as [ | ev evs Hev _ IH]; intros w Hw; simpl.
  - exact Hw.
  - apply IH, step_text; assumption.
Qed.

(** X9: while every status the fetches deliver is a string, the render
    never throws in [getStatusColor] or [getStatusIcon]: it has a colour for
    the current status and a row, with its colour and icon, for each of the
    entries counted under Total Updates. *)
Theorem X9_text_statuses_always_paint (evs : list Event) :
  Forall (text_only host) evs ->
  exists color rows,
    paint (state (run host evs mount)) = Ok (color, rows)
    /\ length rows = totalUpdates (state (run host evs mount)).
Proof.
  intros Hevs. apply paint_of_text, run_text; [ exact Hevs | ].
  split; [ reflexivity | constructor ].
Qed.

(** X10: a status that is a number, [true] or an object is recorded like
    any other: fetched by a closure that displays a string, against a
    tracker that is a string, it becomes the displayed text and the last
    entry of the history.  [getStatusColor] and [getStatusIcon] then throw a
    TypeError on it, and so does the render that follows. *)
Theorem X10_status_that_is_no_text_breaks_the_render
    (r : State) (ans : FetchResult) (st : value) (now : float) (w : World) :
  delivered host ans = Raw st ->
  match st with VNum _ | VBool _ | VObj _ => True | _ => False end ->
  is_text (statusMessage r) = true -> is_text (previousStatusRef w) = true ->
  let w' := snd (pollLambda_resume host r ans now w) in
  statusMessage (state w') = st
  /\ statusHistory (state w')
     = (statusHistory (state w) ++ [mkEntry (historyIdCounter w) st now])%list
  /\ getStatusIcon st = Thrown (mkExn "TypeError" "status.includes is not a function")
  /\ getStatusColor st = Thrown (mkExn "TypeError" "status.includes is not a function")
  /\ paint (state w') = Thrown (mkExn "TypeError" "status.includes is not a function").
Proof.
  intros Hans Hkind Hr Hprev w'. unfold w'.
  rewrite PollerFacts.resume_delivered, Hans. simpl snd.
  assert (Hrule : decision_policy (statusMessage r) st now w
                  = setConnectionStatus "Polling - Status updated"
                      (set_previousStatusRef st
                         (addToHistory st now (setStatusMessage st w)))).
  { unfold decision_policy.
    destruct (statusMessage r); try discriminate Hr.
    destruct (previousStatusRef w); try discriminate Hprev.
    destruct st; try contradiction; reflexivity. }
  rewrite Hrule. unfold paint. simpl.
  destruct st; try contradiction; repeat split.
Qed.

(** *** The page *)

Lemma delivered_truthy_text (ans : FetchResult) (s : string) :
  delivered host ans = Raw (VStr s) -> (s =? EmptyString) = false.
Proof.
  intros Hans. apply PollerFacts.delivered_truthy in Hans. simpl in Hans.
  destruct (s =? EmptyString); [ discriminate | reflexivity ].
Qed.

Lemma ui_run_reachable (uevs : list UiEvent) (p : Page) :
  exists evs, world (ui_run host uevs p) = run host evs (world p).
Proof.
  revert p. induction uevs as [ | ev uevs IH]; intros p; simpl.
  - exists []. reflexivity.
  - destruct (IH (ui_step host p ev)) as [evs Hevs].
    exists (as_event p ev :: evs). exact Hevs.
Qed.

Lemma ui_step_listener (p : Page) (ev : UiEvent) :
  isPolling (listener p) = isPolling (state (world p)) ->
  isPolling (listener (ui_step host p ev))
  = isPolling (state (world (ui_step host p ev))).
Proof.
  intros Hp. unfold ui_step. simpl.
  destruct (Bool.eqb _ _) eqn:Heq; [ | reflexivity ].
  apply Bool.eqb_prop in Heq. congruence.
Qed.

Lemma ui_run_listener (uevs : list UiEvent) (p : Page) :
  isPolling (listener p) = isPolling (state (world p)) ->
  isPolling (listener (ui_run host uevs p))
  = isPolling (state (world (ui_run host uevs p))).
Proof.
  revert p. induction uevs as [ | ev uevs IH]; intros p Hp; simpl.
  - exact Hp.
  - apply IH, ui_step_listener, Hp.
Qed.

(** X11: on every page a run of user, timer and network events leads to,
    the listener of [chatMessageSent] reads the polling flag of the page as
    it is.  So the event changes nothing while the poller runs and starts it
    when it does not, and after the event the poller runs with exactly one
    interval. *)
Theorem X11_chat_message_starts_the_poller_once (uevs : list UiEvent) :
  let p := ui_run host uevs loaded in
  let p' := ui_step host p DispatchChatMessageSent in
  isPolling (listener p) = isPolling (state (world p))
  /\ world p' = (if isPolling (state (world p)) then world p
                else startPolling (listener p) (world p))
  /\ isPolling (state (world p')) = true
  /\ length (intervals (world p')) = 1.
Proof.
  intros p p'.
  assert (Hl : isPolling (listener p) = isPolling (state (world p)))
    by (apply ui_run_listener; reflexivity).
  destruct (ui_run_reachable uevs loaded) as [evs Hevs]. fold p in Hevs.
  assert (Hflag : flag_agrees (world p)) by (rewrite Hevs; apply run_flag; reflexivity).
  assert (Hone : one_schedule (world p))
    by (rewrite Hevs; apply PollerFacts.run_one_schedule; reflexivity).
  assert (Hw : world p' = (if isPolling (state (world p)) then world p
                           else startPolling (listener p) (world p))).
  { unfold p', ui_step. simpl. unfold handleChatMessage. rewrite Hl.
    destruct (isPolling (state (world p))); reflexivity. }
  split; [ exact Hl | ]. split; [ exact Hw | ].
  rewrite Hw. unfold flag_agrees in Hflag. unfold one_schedule in Hone.
  destruct (isPolling (state (world p))) eqn:Hpoll.
  - split; [ exact Hpoll | ].
    destruct (pollIntervalRef (world p)); [ | discriminate Hflag ].
    destruct Hone as [r ->]. reflexivity.
  - destruct (pollIntervalRef (world p)) eqn:Href; [ discriminate Hflag | ].
    rewrite (PollerFacts.startPolling_first _ _ Href). simpl.
    rewrite Hone. split; reflexivity.
Qed.

Lemma stopPolling_not_polling (w : World) :
  isPolling (state (stopPolling w)) = false.
Proof. unfold stopPolling. destruct (pollIntervalRef w); reflexivity. Qed.

Lemma press_toggle_stops (p : Page) :
  isPolling (state (world p)) = true ->
  ui_step host p PressToggle
  = mkPage (stopPolling (world p)) (state (stopPolling (world p))).
Proof.
  intros Hp. unfold ui_step. simpl. unfold click_toggle. rewrite Hp.
  rewrite stopPolling_not_polling. reflexivity.
Qed.

Lemma press_toggle_starts (p : Page) :
  isPolling (state (world p)) = false -> pollIntervalRef (world p) = None ->
  ui_step host p PressToggle
  = mkPage (startPolling (state (world p)) (world p))
           (state (startPolling (state (world p)) (world p))).
Proof.
  intros Hp Href. unfold ui_step. simpl. unfold click_toggle. rewrite Hp.
  rewrite (PollerFacts.startPolling_first _ _ Href). reflexivity.
Qed.

Lemma press_clear_clears (p : Page) :
  isPolling (state (world p)) = false ->
  ui_step host p PressClear = mkPage (clearHistory (world p)) (listener p).
Proof.
  intros Hp. unfold ui_step. simpl. unfold click_clear. rewrite Hp.
  simpl. rewrite Hp. reflexivity.
Qed.

Lemma chat_starts (p : Page) :
  isPolling (listener p) = false -> isPolling (state (world p)) = false ->
  pollIntervalRef (world p) = None ->
  ui_step host p DispatchChatMessageSent
  = mkPage (startPolling (listener p) (world p))
           (state (startPolling (listener p) (world p))).
Proof.
  intros Hl Hp Href. unfold ui_step. simpl. unfold handleChatMessage.
  rewrite Hl. simpl negb. cbv iota.
  rewrite (PollerFacts.startPolling_first _ _ Href). simpl. rewrite Hp. reflexivity.
Qed.

Lemma restart_first_fetch
    (r : State) (w : World) (s : string) (ans : FetchResult) (now : float) :
  pollIntervalRef w = None -> statusHistory (state w) = [] ->
  historyIdCounter w = 0 -> delivered host ans = Raw (VStr s) ->
  let w' := snd (pollLambda_resume host r ans now
                   (set_requests (requests w) (startPolling r w))) in
  (statusMessage r = VStr s ->
   statusHistory (state w') = []
   /\ statusMessage (state w') = statusMessage (state w)
   /\ connectionStatus (state w') = "Polling - No change")
  /\ (statusMessage r = VStr EmptyString ->
      statusHistory (state w') = [mkEntry 0 (VStr s) now]
      /\ statusMessage (state w') = VStr s
      /\ connectionStatus (state w') = "Polling - Status updated").
Proof.
  intros Href Hh Hn Hans w'. unfold w'.
  pose proof (delivered_truthy_text ans s Hans) as Hs.
  rewrite PollerFacts.resume_delivered, Hans.
  rewrite (PollerFacts.startPolling_first r w Href).
  unfold decision_policy. simpl. rewrite Hs. simpl.
  split; intros Hr; rewrite Hr; simpl.
  - rewrite String.eqb_refl. simpl. repeat split. exact Hh.
  - rewrite Hs. simpl. rewrite Hh, Hn. repeat split.
Qed.

(** X12: after a session that displays the status [s], a stop and a clear,
    the way the poller is started again decides what the first fetch does.
    Started by the polling button, a fetch that reports [s] is recorded as
    the first entry.  Started by [chatMessageSent], it is passed over: no
    entry, nothing displayed, and the label says no change, for the listener
    was registered by the render that followed the stop, which still
    displayed [s]. *)
Theorem X12_restart_by_chat_passes_over_the_old_status
    (p : Page) (s : string) (ans : FetchResult) (now : float) :
  isPolling (state (world p)) = true ->
  statusMessage (state (world p)) = VStr s ->
  delivered host ans = Raw (VStr s) ->
  let first := Answer (length (requests (world p))) ans now in
  let by_chat :=
    world (ui_run host [PressToggle; PressClear; DispatchChatMessageSent; first] p) in
  let by_button :=
    world (ui_run host [PressToggle; PressClear; PressToggle; first] p) in
  (statusHistory (state by_chat) = []
   /\ statusMessage (state by_chat) = VStr EmptyString
   /\ connectionStatus (state by_chat) = "Polling - No change")
  /\ (statusHistory (state by_button) = [mkEntry 0 (VStr s) now]
      /\ statusMessage (state by_button) = VStr s
      /\ connectionStatus (state by_button) = "Polling - Status updated").
Proof.
  intros Hpoll Hmsg Hans first by_chat by_button.
  pose proof (delivered_truthy_text ans s Hans) as Hs.
  set (w1 := stopPolling (world p)).
  set (w2 := clearHistory w1).
  assert (Hf1 : isPolling (state w1) = false) by apply stopPolling_not_polling.
  assert (Hf2 : isPolling (state w2) = false) by exact Hf1.
  assert (Hm1 : statusMessage (state w1) = VStr s).
  { rewrite <- Hmsg. unfold w1, stopPolling.
    destruct (pollIntervalRef (world p)); reflexivity. }
  assert (Href : pollIntervalRef w2 = None).
  { unfold w2, w1, stopPolling. destruct (pollIntervalRef (world p)) eqn:Hw; simpl;
      [ reflexivity | exact Hw ]. }
  assert (Hq : requests w2 = requests (world p)).
  { unfold w2, w1, stopPolling. destruct (pollIntervalRef (world p)); reflexivity. }
  assert (Hstop : ui_step host p PressToggle = mkPage w1 (state w1)).
  { rewrite (press_toggle_stops p Hpoll). reflexivity. }
  assert (Hclear : ui_step host (mkPage w1 (state w1)) PressClear
                   = mkPage w2 (state w1)).
  { rewrite press_clear_clears; [ reflexivity | exact Hf1 ]. }
  assert (Hlast : forall r,
             statusHistory (state w2) = [] ->
             world (ui_step host
                      (mkPage (startPolling r w2) (state (startPolling r w2))) first)
             = snd (pollLambda_resume host r ans now
                      (set_requests (requests w2) (startPolling r w2)))).
  { intros r _. unfold ui_step, first. simpl world. simpl as_event. simpl step.
    rewrite (PollerFacts.startPolling_first r w2 Href).
    unfold settle. simpl requests. rewrite <- Hq.
    rewrite PollerFacts.nth_error_last, PollerFacts.remove_nth_last. reflexivity. }
  split.
  - unfold by_chat.
    change (ui_run host [PressToggle; PressClear; DispatchChatMessageSent; first] p)
      with (ui_step host
              (ui_step host (ui_step host (ui_step host p PressToggle) PressClear)
                       DispatchChatMessageSent) first).
    rewrite Hstop, Hclear.
    rewrite (chat_starts (mkPage w2 (state w1)) Hf1 Hf2 Href).
    cbn [listener world].
    rewrite (Hlast (state w1) eq_refl).
    exact (proj1 (restart_first_fetch (state w1) w2 s ans now
                    Href eq_refl eq_refl Hans) Hm1).
  - unfold by_button.
    change (ui_run host [PressToggle; PressClear; PressToggle; first] p)
      with (ui_step host
              (ui_step host (ui_step host (ui_step host p PressToggle) PressClear)
                       PressToggle) first).
    rewrite Hstop, Hclear.
    rewrite (press_toggle_starts (mkPage w2 (state w1)) Hf2 Href).
    cbn [listener world].
    rewrite (Hlast (state w2) eq_refl).
    exact (proj2 (restart_first_fetch (state w2) w2 s ans now
                    Href eq_refl eq_refl Hans) eq_refl).
Qed.

End WithHost.

(** ** Witnesses *)


(** X9 at the session of two fetches of the status A. *)
Lemma X9_session_paints :
  exists color rows,
    paint (state (run Examples.host
                      [ClickToggle; Settle 0 (fst (Examples.says "A")) Examples.noon;
                       Tick 1; Settle 0 (fst (Examples.says "A")) Examples.noon]
                      mount))
    = Ok (color, rows)
    /\ length rows
       = totalUpdates (state (run Examples.host
                      [ClickToggle; Settle 0 (fst (Examples.says "A")) Examples.noon;
                       Tick 1; Settle 0 (fst (Examples.says "A")) Examples.noon]
                      mount)).
Proof.
  refine (X9_text_statuses_always_paint Examples.host _ _).
  repeat constructor.
Defined.

(** X10 at a fresh session whose first fetch reports the number 5. *)
Lemma X10_five_breaks_the_render :
  paint (state (snd (pollLambda_resume Samples.host Examples.first_render
                       (Examples.ok_response Samples.five_doc) Examples.noon
                       Examples.started)))
  = Thrown (mkExn "TypeError" "status.includes is not a function").
Proof.
  refine (proj2 (proj2 (proj2 (proj2
            (X10_status_that_is_no_text_breaks_the_render Samples.host
               Examples.first_render (Examples.ok_response Samples.five_doc)
               (VNum 5%float) Examples.noon Examples.started _ _ _ _))))).
  - reflexivity.
  - exact I.
  - reflexivity.
  - reflexivity.
Defined.

(** X12 at a page that polls and displays done. *)
Lemma X12_done_after_chat_restart :
  statusHistory (state (world (ui_run Examples.host
     [PressToggle; PressClear; DispatchChatMessageSent;
      Answer 0 (fst (Examples.says "done")) Examples.noon]
     (ui_run Examples.host
        [PressToggle; Answer 0 (fst (Examples.says "done")) Examples.noon]
        loaded))))
  = [].
Proof.
  refine (proj1 (proj1
            (X12_restart_by_chat_passes_over_the_old_status Examples.host
               (ui_run Examples.host
                  [PressToggle; Answer 0 (fst (Examples.says "done")) Examples.noon]
                  loaded)
               "done" (fst (Examples.says "done")) Examples.noon _ _ _))).
  - reflexivity.
  - reflexivity.
  - reflexivity.
Defined.

End PanelFacts.

(** * Properties of the chat form in use *)

Module ChatRunFacts.
Import ChatPanel Chat ChatRun.

Section WithHost.
Variable host : Host.

(** Whatever the answer, [sendToLambda] ends by appending one bot message
    and clearing the processing flag, and it never throws. *)
Lemma resume_replies (ans : FetchResult) (c : Clock) (w : World) :
  exists t meta label,
    sendToLambda_resume host ans c w
    = (Ok tt,
       mkWorld
         (mkState (messages (state w)
                   ++ [mkMessage (messageIdCounter w) t "bot"
                                 (localeTime c) (now c) meta])%list
                  (inputValue (state w)) false label)
         (S (messageIdCounter w)) (dispatched w) (requests w))
    /\ (label = "Connected" \/ label = "Error").
Proof.
  unfold sendToLambda_resume, try_finally, try_catch, bind, eval, exec, throw.
  destruct ans as [response | e]; simpl.
  2: { do 3 eexists. split; [ reflexivity | right; reflexivity ]. }
  destruct (ok response); simpl.
  2: { do 3 eexists. split; [ reflexivity | right; reflexivity ]. }
  destruct (and_then (JS.text response) (JSON_parse host)) as [data | e]; simpl.
  2: { do 3 eexists. split; [ reflexivity | right; reflexivity ]. }
  destruct (extract host data) as [[botMessage processingTime] | e]; simpl.
  2: { do 3 eexists. split; [ reflexivity | right; reflexivity ]. }
  destruct (truthy botMessage); simpl.
  2: { do 3 eexists. split; [ reflexivity | right; reflexivity ]. }
  destruct (get data "status") as [data_status | e]; simpl.
  2: { do 3 eexists. split; [ reflexivity | right; reflexivity ]. }
  unfold or_else. destruct (truthy data_status); simpl;
    do 3 eexists; (split; [ reflexivity | left; reflexivity ]).
Qed.

(** X13: whatever the host answers, a response of any shape, an HTTP
    error, or a rejected fetch, the continuation of [sendToLambda] never
    throws, appends exactly one bot message, with the next id, clears the
    processing flag and sets the label to Connected or to Error, and leaves
    the input, the notifier and the requests in flight as they are. *)
Theorem X13_every_answer_appends_one_bot_message
    (ans : FetchResult) (c : Clock) (w : World) :
  exists t meta label,
    sendToLambda_resume host ans c w
    = (Ok tt,
       mkWorld
         (mkState (messages (state w)
                   ++ [mkMessage (messageIdCounter w) t "bot"
                                 (localeTime c) (now c) meta])%list
                  (inputValue (state w)) false label)
         (S (messageIdCounter w)) (dispatched w) (requests w))
    /\ (label = "Connected" \/ label = "Error").
Proof. apply resume_replies. Qed.

(** X14: a fetch that is rejected with the error [e] is reported to the
    user as the bot message Error: followed by the message of [e]; a
    response that is not a 2xx one as Error: HTTP, the status code, a colon
    and the status text.  Both messages carry the [error] flag, and the
    label is Error. *)
Theorem X14_failures_are_reported_as_bot_messages
    (e : Exn) (response : Response) (c : Clock) (w : World) :
  let reported (t : string) (out : Completion unit * World) :=
    out = (Ok tt,
           mkWorld
             (mkState (messages (state w)
                       ++ [mkMessage (messageIdCounter w) (VStr t) "bot"
                                     (localeTime c) (now c)
                                     [("error", VBool true)]])%list
                      (inputValue (state w)) false "Error")
             (S (messageIdCounter w)) (dispatched w) (requests w)) in
  reported ("Error: " ++ message e) (sendToLambda_resume host (Thrown e) c w)
  /\ (ok response = false ->
      reported ("Error: HTTP " ++ string_of_nat (http_status response)
                ++ ": " ++ statusText response)
               (sendToLambda_resume host (Ok response) c w)).
Proof.
  intros reported. split.
  - reflexivity.
  - intros Hok. unfold reported, sendToLambda_resume, try_finally, try_catch,
      bind, eval, exec, throw. rewrite Hok. reflexivity.
Qed.

(** *** Invariants of the form *)

Lemma submit_guarded (r : State) (e : DomEvent) (c : Clock) (sent : float) (w : World) :
  whitespace_only (inputValue r) = true \/ isProcessing r = true ->
  snd (handleSubmit host r e c sent w) = w.
Proof.
  intros Hguard. unfold handleSubmit. destruct Hguard as [Hblank | Hbusy].
  - apply ChatFacts.trim_empty in Hblank. rewrite Hblank. reflexivity.
  - rewrite Hbusy, orb_true_r. reflexivity.
Qed.

(** A submit of the latest render changes nothing, or is the one send. *)
Lemma submit_cases (e : DomEvent) (c : Clock) (sent : float) (w : World) :
  snd (handleSubmit host (state w) e c sent w) = w
  \/ (isProcessing (state w) = false
      /\ exists t body,
          snd (handleSubmit host (state w) e c sent w)
          = mkWorld
              (mkState (messages (state w)
                        ++ [mkMessage (messageIdCounter w) t "user"
                                      (localeTime c) (now c) []])%list
                       EmptyString true "Processing...")
              (S (messageIdCounter w))
              (dispatched w ++ ["chatMessageSent"])%list
              (requests w ++ [mkRequest (BASE_URL ++ CHAT) "POST" body])%list).
Proof.
  destruct (whitespace_only (inputValue (state w))) eqn:Hblank.
  - left. apply submit_guarded. left. exact Hblank.
  - destruct (isProcessing (state w)) eqn:Hbusy.
    + left. apply submit_guarded. right. exact Hbusy.
    + right. split; [ reflexivity | ].
      rewrite (ChatFacts.submit_sends host (state w) e c sent w Hblank Hbusy).
      simpl. eexists. eexists. reflexivity.
Qed.

Lemma keypress_cases (e : DomEvent) (c : Clock) (sent : float) (w : World) :
  snd (handleKeyPress host (state w) e c sent w) = w
  \/ snd (handleKeyPress host (state w) e c sent w)
     = snd (handleSubmit host (state w) (preventDefault e) c sent w).
Proof.
  unfold handleKeyPress. destruct ((key e =? "Enter") && negb (shiftKey e));
    [ right | left ]; reflexivity.
Qed.

Lemma sent_by_app (who : string) (l1 l2 : list Message) :
  sent_by who (l1 ++ l2) = sent_by who l1 + sent_by who l2.
Proof. unfold sent_by. rewrite filter_app, length_app. reflexivity. Qed.

Lemma sent_by_one (who : string) (m : Message) :
  sent_by who [m] = if sender m =? who then 1 else 0.
Proof. unfold sent_by. simpl. destruct (sender m =? who); reflexivity. Qed.

Lemma remove_nth_length {A : Type} (k : nat) (l : list A) (x : A) :
  nth_error l k = Some x -> S (length (StatusPanel.remove_nth k l)) = length l.
Proof.
  revert l. induction k as [ | k IH]; intros [ | y l]; simpl; try discriminate.
  - reflexivity.
  - intros H. rewrite (IH l H). reflexivity.
Qed.

Lemma sent_ids_in_order (w : World) (t : value) (who when : string)
                        (at_ : float) (meta : list (string * value))
                        (s' : State) (d : list string) (q : list Request) :
  messages s'
  = (messages (state w) ++ [mkMessage (messageIdCounter w) t who when at_ meta])%list ->
  ids_in_order w -> ids_in_order (mkWorld s' (S (messageIdCounter w)) d q).
Proof.
  unfold ids_in_order. simpl. intros -> [Hids Hn].
  rewrite map_app, length_app, Hids, Hn. simpl.
  rewrite Nat.add_1_r, seq_S. split; reflexivity.
Qed.

Lemma chat_step_ids_in_order (w : World) (ev : ChatEvent) :
  ids_in_order w -> ids_in_order (chat_step host w ev).
Proof.
  intros Hw.
  assert (Hsubmit : forall e c sent,
             ids_in_order (snd (handleSubmit host (state w) e c sent w))).
  { intros e c sent.
    destruct (submit_cases e c sent w) as [-> | [_ [t [body ->]]]];
      [ exact Hw | ].
    apply (sent_ids_in_order w t "user" (localeTime c) (now c) []);
      [ reflexivity | exact Hw ]. }
  destruct ev as [v | e c sent | e c sent | k ans c]; simpl.
  - exact Hw.
  - apply Hsubmit.
  - destruct (keypress_cases e c sent w) as [-> | ->]; [ exact Hw | apply Hsubmit ].
  - unfold reply. destruct (nth_error (requests w) k); [ | exact Hw ].
    destruct (resume_replies ans c
                (set_requests (StatusPanel.remove_nth k (requests w)) w))
      as [t [meta [label [-> _]]]]. simpl.
    apply (sent_ids_in_order w t "bot" (localeTime c) (now c) meta);
      [ reflexivity | exact Hw ].
Qed.

Lemma chat_step_one_in_flight (w : World) (ev : ChatEvent) :
  one_in_flight w -> one_in_flight (chat_step host w ev).
Proof.
  intros Hw.
  assert (Hsubmit : forall e c sent,
             one_in_flight (snd (handleSubmit host (state w) e c sent w))).
  { intros e c sent.
    destruct (submit_cases e c sent w) as [-> | [Hbusy [t [body ->]]]];
      [ exact Hw | ].
    destruct Hw as [[Hq _] | [q [_ Hp]]]; [ | congruence ].
    right. eexists. simpl. rewrite Hq. split; reflexivity. }
  destruct ev as [v | e c sent | e c sent | k ans c]; simpl.
  - exact Hw.
  - apply Hsubmit.
  - destruct (keypress_cases e c sent w) as [-> | ->]; [ exact Hw | apply Hsubmit ].
  - unfold reply. destruct (nth_error (requests w) k) as [q | ] eqn:Hk;
      [ | exact Hw ].
    destruct (resume_replies ans c
                (set_requests (StatusPanel.remove_nth k (requests w)) w))
      as [t [meta [label [-> _]]]]. simpl.
    left. destruct Hw as [[Hq _] | [q0 [Hq _]]]; rewrite Hq in *.
    + destruct k; discriminate Hk.
    + destruct k as [ | [ | k]]; simpl in *; try discriminate Hk.
      split; reflexivity.
Qed.

Lemma chat_step_accounted (w : World) (ev : ChatEvent) :
  accounted w -> accounted (chat_step host w ev).
Proof.
  intros Hw.
  assert (Hsubmit : forall e c sent,
             accounted (snd (handleSubmit host (state w) e c sent w))).
  { intros e c sent.
    destruct (submit_cases e c sent w) as [-> | [_ [t [body ->]]]];
      [ exact Hw | ].
    destruct Hw as [Hd [Hu Hall]]. unfold accounted. simpl.
    rewrite !sent_by_app, !length_app, !sent_by_one. simpl. lia. }
  destruct ev as [v | e c sent | e c sent | k ans c]; simpl.
  - exact Hw.
  - apply Hsubmit.
  - destruct (keypress_cases e c sent w) as [-> | ->]; [ exact Hw | apply Hsubmit ].
  - unfold reply. destruct (nth_error (requests w) k) as [q | ] eqn:Hk;
      [ | exact Hw ].
    destruct (resume_replies ans c
                (set_requests (StatusPanel.remove_nth k (requests w)) w))
      as [t [meta [label [-> _]]]]. simpl.
    pose proof (remove_nth_length k (requests w) q Hk) as Hlen.
    destruct Hw as [Hd [Hu Hall]]. unfold accounted. simpl.
    rewrite !sent_by_app, !length_app, !sent_by_one. simpl. lia.
Qed.

Lemma run_invariants (evs : list ChatEvent) (w : World) :
  ids_in_order w /\ one_in_flight w /\ accounted w ->
  ids_in_order (chat_run host evs w) /\ one_in_flight (chat_run host evs w)
  /\ accounted (chat_run host evs w).
Proof.
  revert w. induction evs as [ | ev evs IH]; intros w Hw; simpl.
  - exact Hw.
  - apply IH. destruct Hw as [Hi [Ho Ha]].
    split; [ apply chat_step_ids_in_order, Hi | split ];
      [ apply chat_step_one_in_flight, Ho | apply chat_step_accounted, Ha ].
Qed.

Lemma mount_invariants : ids_in_order mount /\ one_in_flight mount /\ accounted mount.
Proof.
  split; [ split; reflexivity | split ].
  - left. split; reflexivity.
  - repeat split.
Qed.

(** X15: however the form is used, at most one POST is in flight, and the
    processing flag is set exactly while one is: a submit while a send is
    pending issues no second request, whatever is typed. *)
Theorem X15_at_most_one_post_in_flight
    (evs : list ChatEvent) (e : DomEvent) (c : Clock) (sent : float) :
  let w := chat_run host evs mount in
  length (requests w) <= 1
  /\ isProcessing (state w) = match requests w with [] => false | _ :: _ => true end
  /\ length (requests (chat_step host w (SubmitForm e c sent))) <= 1
  /\ length (requests (chat_step host w (PressKey e c sent))) <= 1.
Proof.
  intros w.
  assert (H : forall w0, one_in_flight w0 ->
              length (requests w0) <= 1
              /\ isProcessing (state w0)
                 = match requests w0 with [] => false | _ :: _ => true end).
  { intros w0 [[-> ->] | [q [-> ->]]]; split; simpl; auto. }
  assert (Hw : one_in_flight w) by apply run_invariants, mount_invariants.
  destruct (H w Hw) as [Hlen Hflag].
  split; [ exact Hlen | split; [ exact Hflag | split ] ].
  - apply (H _ (chat_step_one_in_flight w (SubmitForm e c sent) Hw)).
  - apply (H _ (chat_step_one_in_flight w (PressKey e c sent) Hw)).
Qed.

(** X16: however the form is used, the id of every message is its position
    in the list; the notifier was raised once for each user message; and
    every user message has its bot message or its request still in flight,
    so once nothing is in flight there are as many bot messages as user
    messages. *)
Theorem X16_messages_are_numbered_and_answered (evs : list ChatEvent) :
  let w := chat_run host evs mount in
  map id (messages (state w)) = seq 0 (length (messages (state w)))
  /\ length (dispatched w) = sent_by "user" (messages (state w))
  /\ sent_by "user" (messages (state w))
     = sent_by "bot" (messages (state w)) + length (requests w)
  /\ length (messages (state w))
     = sent_by "user" (messages (state w)) + sent_by "bot" (messages (state w)).
Proof.
  intros w.
  destruct (run_invariants evs mount mount_invariants) as [[Hids _] [_ Hacc]].
  split; [ exact Hids | exact Hacc ].
Qed.

(** *** Fallbacks of the extraction *)

Lemma chain_fallback (p fallback : value) :
  p <> VNull -> p <> VUndefined -> first_truthy priority p = None ->
  response_message_body p fallback = Ok fallback.
Proof.
  intros Hnull Hundef Hnone. unfold response_message_body, or_else.
  destruct p as [ | | b | n | t | items | fields ]; try congruence; try reflexivity.
  simpl in *. unfold field, Poller.field in Hnone.
  destruct (truthy (lookup "response" fields)); [ discriminate | ].
  destruct (truthy (lookup "message" fields)); [ discriminate | ].
  destruct (truthy (lookup "body" fields)); [ discriminate | reflexivity ].
Qed.

(** X17: when an envelope carries a string body in which no bot message
    is found, because the body is no JSON, or parses to [null], or to a
    value none of whose fields response, message and body is truthy, the bot
    message is the body itself, as it came. *)
Theorem X17_body_without_message_is_shown_as_it_came
    (fields : list (string * value)) (s : string) :
  truthy (lookup "statusCode" fields) = true ->
  lookup "body" fields = VStr s -> s <> EmptyString ->
  (forall p, JSON_parse host s = Ok p -> first_truthy priority p = None) ->
  exists processingTime,
    extract host (VObj fields) = Ok (VStr s, processingTime).
Proof.
  intros Hsc Hbody Hs Hnone. unfold extract. simpl.
  rewrite Hsc. simpl. rewrite Hbody. simpl.
  destruct (s =? EmptyString) eqn:He; [ apply String.eqb_eq in He; congruence | ].
  simpl. destruct (JSON_parse host s) as [p | e] eqn:Hp; simpl.
  - specialize (Hnone p eq_refl).
    destruct p as [ | | b | n | t | items | pf ] eqn:Hkind;
      try (eexists; reflexivity).
    rewrite (chain_fallback (VObj pf) (VStr s)); try discriminate;
      [ eexists; reflexivity | exact Hnone ].
  - eexists. reflexivity.
Qed.

End WithHost.

(** ** Witnesses *)

(** X14 at a response 500. *)
Lemma X14_http_500_is_reported :
  map text (messages (state (snd
    (sendToLambda_resume Examples.host
       (Ok (mkResponse false 500 "Internal Server Error" (Ok EmptyString)))
       Examples.lunch mount))))
  = [VStr "Error: HTTP 500: Internal Server Error"].
Proof.
  pose proof (X14_failures_are_reported_as_bot_messages Examples.host
                (mkExn "TypeError" "Failed to fetch")
                (mkResponse false 500 "Internal Server Error" (Ok EmptyString))
                Examples.lunch mount) as [_ H].
  rewrite (H eq_refl). reflexivity.
Defined.

(** X17 at an envelope whose body is plain text. *)
Lemma X17_plain_text_body :
  exists processingTime,
    extract Examples.host
            (VObj [("statusCode", VNum 200%float); ("body", VStr "plain text")])
    = Ok (VStr "plain text", processingTime).
Proof.
  refine (X17_body_without_message_is_shown_as_it_came Examples.host
            [("statusCode", VNum 200%float); ("body", VStr "plain text")]
            "plain text" _ _ _ _).
  - reflexivity.
  - reflexivity.
  - discriminate.
  - intros p Hp. vm_compute in Hp. discriminate Hp.
Defined.

End ChatRunFacts.

(** * Properties of the orchestrator workflow and the health check *)

Module LambdaFacts.
Import AwsLambda.

Section WithHost.
Variable host : Host.

(** *** The health check *)

(** X18: whatever the five Lambdas answer, [initializeAgentSystem] never
    rejects and invokes nothing more.  It returns the five booleans of the
    health check, true where the invocation was fulfilled, and tells its
    callback the count: when all five are fulfilled, All Lambdas healthy and
    then System initialized; otherwise k/5 Lambdas healthy, with k the
    number fulfilled, and then Partial initialization. *)
Theorem X18_initialization_reports_the_health_count
    (answers : Answers) (iso : string) (f : Flow) :
  let checks := settled_checks host answers in
  let healthy := length (filter (fun b => b) checks) in
  initializeAgentSystem_resume host answers iso f
  = (Ok (VObj [("orchestrator", VBool (fulfilled host (of_orchestrator answers)));
               ("worker1", VBool (fulfilled host (of_worker1 answers)));
               ("worker2", VBool (fulfilled host (of_worker2 answers)));
               ("worker3", VBool (fulfilled host (of_worker3 answers)));
               ("worker4", VBool (fulfilled host (of_worker4 answers)));
               ("timestamp", VStr iso)]),
     mkFlow
       (log f
        ++ (if (healthy =? 5)%nat
            then [mkUpdate "success" "Health check completed" "All Lambdas healthy";
                  mkUpdate "success" "System initialized"
                           "All 5 Lambda functions ready"]
            else [mkUpdate "warning" "Health check completed"
                           (string_of_nat healthy ++ "/5 Lambdas healthy");
                  mkUpdate "warning" "Partial initialization"
                           "Some Lambda functions unavailable"]))%list
       (calls f))
  /\ healthy <= 5.
Proof.
  unfold initializeAgentSystem_resume, checkLambdaHealth_resume, settled_checks,
    try_catch, bind, exec, ret, throw, addStatusUpdate.
  cbn [map].
  destruct (fulfilled host (of_orchestrator answers)),
           (fulfilled host (of_worker1 answers)),
           (fulfilled host (of_worker2 answers)),
           (fulfilled host (of_worker3 answers)),
           (fulfilled host (of_worker4 answers));
    simpl; (split; [ rewrite <- app_assoc; reflexivity | lia ]).
Qed.

(** *** The orchestrator *)

Lemma orchestrator_answers (ans : FetchResult) (response : value) (n : string)
                           (f : Flow) :
  invoked host ans = Ok response ->
  delegated host response = Ok n ->
  invokeOrchestrator_resume host ans f
  = (Ok response,
     addStatusUpdate "success" "Orchestrator processing"
                     ("Task delegated to " ++ n ++ " worker(s)") f).
Proof.
  intros Hans Hn. unfold invokeOrchestrator_resume, try_catch, bind, eval, exec, ret.
  rewrite Hans, Hn. reflexivity.
Qed.

Lemma orchestrator_fails (ans : FetchResult) (e : Exn) (f : Flow) :
  invoked host ans = Thrown e
  \/ (exists response, invoked host ans = Ok response
                       /\ delegated host response = Thrown e) ->
  invokeOrchestrator_resume host ans f
  = (Thrown e, addStatusUpdate "error" "Orchestrator error" (JS.message e) f).
Proof.
  unfold invokeOrchestrator_resume, try_catch, bind, eval, exec, throw.
  intros [-> | [response [-> ->]]]; reflexivity.
Qed.

(** The workflow that ends at the orchestrator. *)
Lemma fails_at_the_orchestrator (msg : string) (ans : FetchResult) (e : Exn)
                                (clock : nat -> string) (iso : string) (f : Flow) :
  invoked host ans = Thrown e
  \/ (exists response, invoked host ans = Ok response
                       /\ delegated host response = Thrown e) ->
  processChatMessage_resume host msg ans clock iso f
  = mkRun (mkFlow
             (log f
              ++ [mkUpdate "error" "Orchestrator error" (JS.message e);
                  mkUpdate "error" "Workflow failed" (JS.message e)])%list
             (calls f))
          msg VUndefined [] (Some (Thrown e)).
Proof.
  intros Hans.
  unfold processChatMessage_resume, delegate, bind. simpl.
  rewrite (orchestrator_fails ans e f Hans). simpl.
  unfold settle, in_flow, addStatusUpdate. simpl.
  rewrite <- app_assoc. reflexivity.
Qed.

(** The workflow after an answer of the orchestrator of which the number
    of agents could be printed: the check of the tasks and what follows
    it. *)
Lemma after_the_orchestrator (msg : string) (ans : FetchResult)
                             (fields : list (string * value)) (n : string)
                             (clock : nat -> string) (iso : string) (f : Flow) :
  invoked host ans = Ok (VObj fields) ->
  delegated host (VObj fields) = Ok n ->
  processChatMessage_resume host msg ans clock iso f
  = match
      (if no_tasks (lookup "tasks" fields) then
         (exec (in_flow (addStatusUpdate "warning" "No tasks assigned"
                           "Orchestrator returned no work items")) ;;
          ret true)%eff
       else
         (match lookup "tasks" fields with
          | VArr items =>
              forEach (each_task host (lookup "assignedAgents" fields) clock) items 0
          | _ => throw (TypeError_call "tasks.forEach")
          end ;;
          n0 <- read (fun r => length (workerPromises r)) ;;
          exec (in_flow (addStatusUpdate "processing" "Workers executing"
                  ("Running " ++ string_of_nat n0 ++ " worker agent(s)"))) ;;
          ret false)%eff)
        (mkRun (addStatusUpdate "success" "Orchestrator processing"
                  ("Task delegated to " ++ n ++ " worker(s)") f)
               msg (VObj fields) [] None)
    with
    | (Ok true, r) => settle (Ok (orchestratorResponse r)) r
    | (Ok false, r) => react iso r
    | (Thrown error, r) =>
        settle (Thrown error)
          (in_flow (addStatusUpdate "error" "Workflow failed" (JS.message error)) r)
    end.
Proof.
  intros Hans Hn.
  unfold processChatMessage_resume, delegate, bind at 1 2 3 4, eval, exec.
  simpl. rewrite (orchestrator_answers ans (VObj fields) n f Hans Hn). reflexivity.
Qed.

(** X19: when the orchestrator answers an object whose [tasks] are missing,
    falsy or an empty array, and the number of assigned agents can be
    printed, [processChatMessage] invokes no worker and is fulfilled with
    the answer of the orchestrator, as it came; its callback is told
    Orchestrator processing, with that number, and then No tasks assigned.
    When the number cannot be printed (the [length] of [assignedAgents] is
    an object with a [toString] of its own), the workflow is rejected with
    the TypeError instead, told as Orchestrator error and as Workflow
    failed. *)
Theorem X19_no_tasks_returns_the_orchestrator_response
    (msg : string) (ans : FetchResult) (fields : list (string * value))
    (clock : nat -> string) (iso : string) (f : Flow) :
  invoked host ans = Ok (VObj fields) ->
  no_tasks (lookup "tasks" fields) = true ->
  (forall n, delegated host (VObj fields) = Ok n ->
     processChatMessage_resume host msg ans clock iso f
     = mkRun (mkFlow
                (log f
                 ++ [mkUpdate "success" "Orchestrator processing"
                              ("Task delegated to " ++ n ++ " worker(s)");
                     mkUpdate "warning" "No tasks assigned"
                              "Orchestrator returned no work items"])%list
                (calls f))
             msg (VObj fields) [] (Some (Ok (VObj fields))))
  /\ (forall e, delegated host (VObj fields) = Thrown e ->
        processChatMessage_resume host msg ans clock iso f
        = mkRun (mkFlow
                   (log f
                    ++ [mkUpdate "error" "Orchestrator error" (JS.message e);
                        mkUpdate "error" "Workflow failed" (JS.message e)])%list
                   (calls f))
                msg VUndefined [] (Some (Thrown e))).
Proof.
  intros Hans Hnone. split.
  - intros n Hn.
    rewrite (after_the_orchestrator msg ans fields n clock iso f Hans Hn).
    rewrite Hnone. unfold bind, exec, ret, settle, in_flow, addStatusUpdate. simpl.
    rewrite <- app_assoc. reflexivity.
  - intros e He. apply fails_at_the_orchestrator.
    right. exists (VObj fields). split; assumption.
Qed.

(** X20: when the invocation of the orchestrator fails (the fetch is
    rejected, the response is not a 2xx one or its body is no JSON) or its
    answer is [null], [processChatMessage] is rejected with that error and
    invokes no worker; its callback is told the error twice, as Orchestrator
    error and then as Workflow failed. *)
Theorem X20_orchestrator_failure_fails_the_workflow
    (msg : string) (ans : FetchResult) (e : Exn)
    (clock : nat -> string) (iso : string) (f : Flow) :
  invoked host ans = Thrown e
  \/ (invoked host ans = Ok VNull /\ e = TypeError_read "null" "assignedAgents") ->
  processChatMessage_resume host msg ans clock iso f
  = mkRun (mkFlow
             (log f
              ++ [mkUpdate "error" "Orchestrator error" (JS.message e);
                  mkUpdate "error" "Workflow failed" (JS.message e)])%list
             (calls f))
          msg VUndefined [] (Some (Thrown e)).
Proof.
  intros Hans. apply fails_at_the_orchestrator.
  destruct Hans as [Hans | [Hans ->]]; [ left; exact Hans | ].
  right. exists VNull. split; [ exact Hans | reflexivity ].
Qed.

(** X21: an answer of the orchestrator that has tasks but no usable
    assignment, and of which the number of assigned agents can be printed,
    makes the workflow fail with a TypeError before any worker is invoked:
    tasks with [assignedAgents] missing or [null], at the first task; and
    tasks that are no array (a string, a number, [true], an object without
    a zero length), at [forEach]. *)
Theorem X21_tasks_without_assignment_fail_before_any_worker
    (msg : string) (ans : FetchResult) (fields : list (string * value))
    (n : string) (clock : nat -> string) (iso : string) (f : Flow) :
  invoked host ans = Ok (VObj fields) ->
  delegated host (VObj fields) = Ok n ->
  no_tasks (lookup "tasks" fields) = false ->
  let r := processChatMessage_resume host msg ans clock iso f in
  let failed_with (e : Exn) :=
    settled r = Some (Thrown e) /\ workerPromises r = [] /\ calls (flow r) = calls f
    /\ log (flow r)
       = (log f ++ [mkUpdate "success" "Orchestrator processing"
                             ("Task delegated to " ++ n ++ " worker(s)");
                    mkUpdate "error" "Workflow failed" (JS.message e)])%list in
  (forall task tasks,
      lookup "tasks" fields = VArr (task :: tasks) ->
      (lookup "assignedAgents" fields = VUndefined ->
       failed_with (TypeError_read "undefined" "0"))
      /\ (lookup "assignedAgents" fields = VNull ->
          failed_with (TypeError_read "null" "0")))
  /\ ((forall items, lookup "tasks" fields <> VArr items) ->
      failed_with (TypeError_call "tasks.forEach")).
Proof.
  intros Hans Hn Htasks r failed_with.
  pose proof (after_the_orchestrator msg ans fields n clock iso f Hans Hn) as Hr.
  fold r in Hr. rewrite Htasks in Hr.
  split.
  - intros task tasks Ht. rewrite Ht in Hr.
    split; intros Ha; rewrite Ha in Hr; unfold failed_with; rewrite Hr;
      simpl; (repeat split); rewrite <- app_assoc; reflexivity.
  - intros Hne. unfold failed_with. rewrite Hr.
    destruct (lookup "tasks" fields) as [ | | b | x | t | items | tf ];
      try (exfalso; apply (Hne items); reflexivity);
      simpl; (repeat split); rewrite <- app_assoc; reflexivity.
Qed.

(** *** The tasks and their workers *)

Lemma agent_of_agentId (a : Agent) : agent_of (VStr (agentId a)) = Some a.
Proof. destruct a; reflexivity. Qed.

(** What a task for a known worker leaves behind when the worker can start
    on it. *)
Lemma each_task_known (clock : nat -> string) (ids : list value) (index : nat)
                      (task : value) (a : Agent) (r : Run) :
  nth index ids VUndefined = VStr (agentId a) ->
  starts host task = true ->
  exists printed,
    each_task host (VArr ids) clock task index r
    = (Ok tt,
       push (mkWorker a Pending)
            (in_flow (fun f =>
                        invokeLambda (WORKER_AGENT a)
                          (VObj [("task", task); ("agentId", VStr (agentId a));
                                 ("timestamp", VStr (clock index))])
                          (addStatusUpdate "processing"
                             ("Worker Agent " ++ number a ++ " started")
                             ("Processing task: " ++ printed) f)) r)).
Proof.
  intros Hid Hstarts. unfold starts, prints in Hstarts.
  destruct (get task "type") as [ty | e] eqn:Hty; [ | discriminate ].
  cbn [and_then] in Hstarts.
  destruct (ToString host (or_text ty "Unknown")) as [printed | e] eqn:Hprinted;
    [ | discriminate ].
  exists printed.
  unfold each_task, bind, eval. cbn [at_index].
  rewrite Hid, agent_of_agentId.
  unfold invokeWorkerAgent, try_catch, bind, eval, exec.
  rewrite Hty, Hprinted. reflexivity.
Qed.

Lemma forEach_plan (clock : nat -> string) (plan before : list (value * Agent))
                   (r : Run) :
  Forall (fun p => starts host (fst p) = true) plan ->
  exists started,
    forEach (each_task host
               (VArr (map (fun p => VStr (agentId (snd p))) (before ++ plan))) clock)
            (map fst plan) (length before) r
    = (Ok tt,
       mkRun (mkFlow (log (flow r) ++ started)
                     (calls (flow r)
                      ++ map (fun ip => mkCall (WORKER_AGENT (snd (snd ip)))
                                          (VObj [("task", fst (snd ip));
                                                 ("agentId", VStr (agentId (snd (snd ip))));
                                                 ("timestamp", VStr (clock (fst ip)))]))
                             (combine (seq (length before) (length plan)) plan)))
             (sent r) (orchestratorResponse r)
             (workerPromises r ++ map (fun p => mkWorker (snd p) Pending) plan)
             (settled r))%list
    /\ map message started
       = map (fun p => "Worker Agent " ++ number (snd p) ++ " started") plan.
Proof.
  revert before r. induction plan as [ | [task a] rest IH ]; intros before r Hall.
  - exists []. cbn [map forEach length seq combine]. rewrite !app_nil_r.
    destruct r as [[lg cl] sn resp ws st]. split; reflexivity.
  - inversion Hall as [ | p rest' Htask Hrest ]; subst. cbn [fst] in Htask.
    cbn [map forEach fst snd]. unfold bind at 1.
    destruct (each_task_known clock
                (map (fun p => VStr (agentId (snd p))) (before ++ (task, a) :: rest))
                (length before) task a r) as [printed Hstep]; [ | exact Htask | ].
    + rewrite map_app, app_nth2; rewrite length_map; [ | lia ].
      rewrite Nat.sub_diag. reflexivity.
    + rewrite Hstep.
      match goal with
      | |- context [forEach _ _ _ ?r1] =>
          destruct (IH (before ++ [(task, a)])%list r1 Hrest) as [started [Hrun Hmsg]]
      end.
      rewrite length_app, Nat.add_1_r, <- app_assoc in Hrun. cbn [app] in Hrun.
      rewrite Hrun.
      eexists (_ :: started). split.
      * unfold push, in_flow, invokeLambda, addStatusUpdate.
        cbn [flow log calls sent orchestratorResponse workerPromises settled
             length seq combine map fst snd].
        rewrite <- !app_assoc. reflexivity.
      * cbn [map message]. rewrite Hmsg. reflexivity.
Qed.

(** X22: when the orchestrator answers with tasks a worker can start on
    (the [type] of each can be read and printed) and an array that assigns
    each, by position, one of the ids worker-1 to worker-4,
    [processChatMessage] invokes for each task the Lambda of its worker, in
    the order of the tasks and with the task, the id and the clock the
    worker read as payload; it tells its callback the start of each worker
    in that order and then Workers executing with their number, and it
    waits: nothing is returned before a worker answers. *)
Theorem X22_each_task_goes_to_its_worker
    (msg : string) (ans : FetchResult) (fields : list (string * value))
    (clock : nat -> string) (iso : string) (f : Flow) (plan : list (value * Agent)) :
  invoked host ans = Ok (VObj fields) ->
  lookup "tasks" fields = VArr (map fst plan) ->
  lookup "assignedAgents" fields = VArr (map (fun p => VStr (agentId (snd p))) plan) ->
  plan <> [] ->
  Forall (fun p => starts host (fst p) = true) plan ->
  let r := processChatMessage_resume host msg ans clock iso f in
  settled r = None
  /\ sent r = msg
  /\ orchestratorResponse r = VObj fields
  /\ workerPromises r = map (fun p => mkWorker (snd p) Pending) plan
  /\ calls (flow r)
     = (calls f
        ++ map (fun ip => mkCall (WORKER_AGENT (snd (snd ip)))
                            (VObj [("task", fst (snd ip));
                                   ("agentId", VStr (agentId (snd (snd ip))));
                                   ("timestamp", VStr (clock (fst ip)))]))
               (combine (seq 0 (length plan)) plan))%list
  /\ exists started,
       log (flow r)
       = (log f
          ++ [mkUpdate "success" "Orchestrator processing"
                       ("Task delegated to " ++ string_of_nat (length plan)
                        ++ " worker(s)")]
          ++ started
          ++ [mkUpdate "processing" "Workers executing"
                       ("Running " ++ string_of_nat (length plan)
                        ++ " worker agent(s)")])%list
       /\ map message started
          = map (fun p => "Worker Agent " ++ number (snd p) ++ " started") plan.
Proof.
  intros Hans Htasks Hagents Hne Hall r.
  assert (Hn : delegated host (VObj fields) = Ok (string_of_nat (length plan))).
  { unfold delegated. cbn [get and_then]. rewrite Hagents, length_map. reflexivity. }
  pose proof (after_the_orchestrator msg ans fields _ clock iso f Hans Hn) as Hr.
  fold r in Hr.
  destruct (forEach_plan clock plan []
              (mkRun (addStatusUpdate "success" "Orchestrator processing"
                        ("Task delegated to " ++ string_of_nat (length plan)
                         ++ " worker(s)") f)
                     msg (VObj fields) [] None) Hall) as [started [Hrun Hmsg]].
  cbn [app length flow sent workerPromises settled orchestratorResponse] in Hrun.
  assert (Hno : no_tasks (VArr (map fst plan)) = false).
  { destruct plan as [ | p rest ]; [ contradiction | reflexivity ]. }
  rewrite Htasks, Hagents, Hno in Hr.
  unfold bind at 1 in Hr. rewrite Hrun in Hr.
  unfold bind, read, exec, ret in Hr.
  cbn [workerPromises in_flow flow sent orchestratorResponse settled] in Hr.
  assert (Hwait : forall r0, workerPromises r0 = map (fun p => mkWorker (snd p) Pending) plan ->
                             settled r0 = None -> react iso r0 = r0).
  { intros r0 Hw Hs. unfold react. rewrite Hs, Hw.
    destruct plan as [ | p rest ]; [ contradiction | ].
    cbn [map first_rejected all_fulfilled promise].
    assert (Hnone : forall l : list (value * Agent),
               first_rejected (map (fun p => mkWorker (snd p) Pending) l) = None).
    { induction l as [ | q l IHl ]; [ reflexivity | exact IHl ]. }
    rewrite Hnone. reflexivity. }
  rewrite Hwait in Hr; [ | reflexivity | reflexivity ].
  unfold in_flow, addStatusUpdate in Hr.
  cbn [settled sent orchestratorResponse workerPromises flow calls log] in Hr.
  rewrite length_map in Hr.
  rewrite Hr. cbn [settled sent orchestratorResponse workerPromises flow calls log].
  repeat split. exists started. split; [ | exact Hmsg ].
  rewrite <- !app_assoc. reflexivity.
Qed.

(** What a task for an agent the [switch] does not know leaves behind. *)
Lemma forEach_strangers (assignedAgents : value) (clock : nat -> string)
                        (tasks : list value) (index : nat) (r : Run) :
  (forall i, i < length tasks ->
     exists agentId printed,
       at_index assignedAgents (index + i) = Ok agentId
       /\ agent_of agentId = None
       /\ ToString host agentId = Ok printed) ->
  exists warnings,
    forEach (each_task host assignedAgents clock) tasks index r
    = (Ok tt, in_flow (fun f => mkFlow (log f ++ warnings) (calls f)) r)
    /\ length warnings = length tasks
    /\ Forall (fun u => type u = "warning" /\ message u = "Unknown agent") warnings.
Proof.
  revert index r. induction tasks as [ | task rest IH ]; intros index r Hids.
  - exists []. cbn [forEach]. unfold ret, in_flow. rewrite app_nil_r.
    destruct r as [[lg cl] sn resp ws st]. repeat split. constructor.
  - destruct (Hids 0) as [agentId [printed [Hat [Hnone Hprinted]]]]; [ simpl; lia | ].
    rewrite Nat.add_0_r in Hat.
    cbn [forEach]. unfold bind at 1.
    unfold each_task at 1, bind at 1, eval at 1. rewrite Hat, Hnone.
    unfold bind at 1, eval at 1. rewrite Hprinted.
    unfold exec at 1.
    match goal with
    | |- context [forEach _ _ _ ?r1] =>
        destruct (IH (S index) r1) as [warnings [Hrun [Hlen Hall]]]
    end.
    { intros i Hi. destruct (Hids (S i)) as [x Hx]; [ simpl; lia | ].
      exists x. rewrite Nat.add_succ_comm. exact Hx. }
    rewrite Hrun. eexists (_ :: warnings). split; [ | split ].
    + unfold in_flow, addStatusUpdate. cbn. rewrite <- app_assoc. reflexivity.
    + simpl. rewrite Hlen. reflexivity.
    + constructor; [ split; reflexivity | exact Hall ].
Qed.

(** X23: when none of the tasks is assigned to a worker the [switch] knows
    (an id that is none of worker-1 to worker-4, an array of ids that is too
    short, or a value that is no array) and the ids and the number of agents
    can be printed, no Lambda is invoked, the callback is told Unknown agent
    once for each task and that 0 workers are running, and the workflow is
    reported as completed, All agents finished successfully: it returns
    [success: true] with no worker result. *)
Theorem X23_unknown_agents_complete_with_no_result
    (msg : string) (ans : FetchResult) (fields : list (string * value))
    (n : string) (clock : nat -> string) (iso : string) (f : Flow)
    (task : value) (tasks : list value) :
  invoked host ans = Ok (VObj fields) ->
  delegated host (VObj fields) = Ok n ->
  lookup "tasks" fields = VArr (task :: tasks) ->
  (forall i, i < length (task :: tasks) ->
     exists agentId printed,
       at_index (lookup "assignedAgents" fields) i = Ok agentId
       /\ agent_of agentId = None
       /\ ToString host agentId = Ok printed) ->
  let r := processChatMessage_resume host msg ans clock iso f in
  settled r = Some (Ok (completed msg (VObj fields) [] iso))
  /\ workerPromises r = []
  /\ calls (flow r) = calls f
  /\ exists warnings,
       log (flow r)
       = (log f
          ++ [mkUpdate "success" "Orchestrator processing"
                       ("Task delegated to " ++ n ++ " worker(s)")]
          ++ warnings
          ++ [mkUpdate "processing" "Workers executing" "Running 0 worker agent(s)";
              mkUpdate "success" "Workflow completed"
                       "All agents finished successfully"])%list
       /\ length warnings = length (task :: tasks)
       /\ Forall (fun u => type u = "warning" /\ message u = "Unknown agent") warnings.
Proof.
  intros Hans Hn Htasks Hids r.
  pose proof (after_the_orchestrator msg ans fields n clock iso f Hans Hn) as Hr.
  fold r in Hr.
  destruct (forEach_strangers (lookup "assignedAgents" fields) clock (task :: tasks) 0
              (mkRun (addStatusUpdate "success" "Orchestrator processing"
                        ("Task delegated to " ++ n ++ " worker(s)") f)
                     msg (VObj fields) [] None) Hids)
    as [warnings [Hrun [Hlen Hall]]].
  rewrite Htasks in Hr. cbn [no_tasks truthy negb orb] in Hr.
  unfold bind at 1 in Hr. rewrite Hrun in Hr.
  unfold bind, read, exec, ret, react, settle, in_flow, addStatusUpdate in Hr.
  cbn in Hr.
  rewrite Hr. cbn [settled sent orchestratorResponse workerPromises flow calls log].
  repeat split. exists warnings. split; [ | split; [ exact Hlen | exact Hall ] ].
  rewrite <- ?app_assoc. reflexivity.
Qed.

(** *** The answers of the workers *)

Lemma set_promise_length (k : nat) (p : Promise) (l : list Worker) :
  length (set_promise k p l) = length l.
Proof.
  revert k. induction l as [ | w l IH ]; intros [ | k ]; simpl; auto.
Qed.

Lemma set_promise_same (k : nat) (p : Promise) (l : list Worker) (w : Worker) :
  nth_error l k = Some w ->
  nth_error (set_promise k p l) k = Some (mkWorker (agent w) p).
Proof.
  revert k. induction l as [ | w0 l IH ]; intros [ | k ]; simpl; intros H;
    try discriminate.
  - injection H as ->. reflexivity.
  - apply IH. exact H.
Qed.

Lemma set_promise_other (k j : nat) (p : Promise) (l : list Worker) :
  j <> k -> nth_error (set_promise k p l) j = nth_error l j.
Proof.
  revert k j. induction l as [ | w0 l IH ]; intros [ | k ] [ | j ] H; simpl;
    try reflexivity; try contradiction.
  apply IH. intros ->. apply H. reflexivity.
Qed.

Lemma first_rejected_none (l : list Worker) :
  (forall j w, nth_error l j = Some w -> forall e, promise w <> Rejected e) ->
  first_rejected l = None.
Proof.
  induction l as [ | w l IH ]; intros H; [ reflexivity | ].
  simpl. destruct (promise w) eqn:Hw.
  - apply IH. intros j. apply (H (S j)).
  - apply IH. intros j. apply (H (S j)).
  - exfalso. apply (H 0 w eq_refl e). exact Hw.
Qed.

Lemma first_rejected_new (k : nat) (e : Exn) (l : list Worker) (w : Worker) :
  first_rejected l = None ->
  nth_error l k = Some w ->
  first_rejected (set_promise k (Rejected e) l) = Some e.
Proof.
  revert k. induction l as [ | w0 l IH ]; intros [ | k ]; simpl; intros Hnone Hk;
    try discriminate.
  - reflexivity.
  - destruct (promise w0); try discriminate; apply IH; assumption.
Qed.

Lemma all_fulfilled_pending (l : list Worker) (j : nat) (w : Worker) :
  nth_error l j = Some w -> promise w = Pending -> all_fulfilled l = None.
Proof.
  revert j. induction l as [ | w0 l IH ]; intros [ | j ]; simpl; intros Hj Hw;
    try discriminate.
  - injection Hj as ->. rewrite Hw. reflexivity.
  - rewrite (IH j Hj Hw). destruct (promise w0); reflexivity.
Qed.

Lemma all_fulfilled_results (l : list Worker) (results : list value) :
  length l = length results ->
  (forall j w, nth_error l j = Some w ->
               promise w = Fulfilled (nth j results VUndefined)) ->
  all_fulfilled l = Some results.
Proof.
  revert results. induction l as [ | w l IH ]; intros [ | v results ] Hlen H;
    try discriminate; [ reflexivity | ].
  simpl. rewrite (H 0 w eq_refl). simpl.
  rewrite (IH results); [ reflexivity | simpl in Hlen; lia | ].
  intros j. apply (H (S j)).
Qed.

Lemma tallied_start (agents : list Agent) (results : list value) :
  tallied agents results [] (map (fun a => mkWorker a Pending) agents).
Proof.
  split; [ apply length_map | ].
  assert (Hall : forall k w,
             nth_error (map (fun a => mkWorker a Pending) agents) k = Some w ->
             agent w = nth k agents Worker1 /\ promise w = Pending).
  { induction agents as [ | a agents IH ]; intros [ | k ] w; simpl; intros H;
      try discriminate.
    - injection H as <-. split; reflexivity.
    - apply IH. exact H. }
  intros k w Hk. destruct (Hall k w Hk) as [Ha Hp].
  split; [ exact Ha | ]. split; [ intros [] | intros _; exact Hp ].
Qed.

Lemma tallied_step (agents : list Agent) (results : list value) (done : list nat)
                   (l : list Worker) (k : nat) :
  tallied agents results done l ->
  tallied agents results (k :: done)
          (set_promise k (Fulfilled (nth k results VUndefined)) l).
Proof.
  intros [Hlen H]. split; [ rewrite set_promise_length; exact Hlen | ].
  intros j w Hj. destruct (Nat.eq_dec j k) as [-> | Hne].
  - destruct (nth_error l k) as [w0 | ] eqn:Hk.
    + rewrite (set_promise_same k _ l w0 Hk) in Hj. injection Hj as <-. simpl.
      split; [ apply (H k w0 Hk) | ].
      split; [ reflexivity | ]. intros Hnot. exfalso. apply Hnot. left. reflexivity.
    + exfalso. apply nth_error_None in Hk.
      assert (Hsome : nth_error (set_promise k (Fulfilled (nth k results VUndefined)) l) k
                      <> None) by (rewrite Hj; discriminate).
      apply nth_error_Some in Hsome. rewrite set_promise_length in Hsome. lia.
  - rewrite set_promise_other in Hj by exact Hne.
    destruct (H j w Hj) as [Ha [Hdone Hopen]].
    split; [ exact Ha | ]. split.
    + intros [Heq | Hin]; [ exfalso; apply Hne; symmetry; exact Heq | apply Hdone, Hin ].
    + intros Hnot. apply Hopen. intros Hin. apply Hnot. right. exact Hin.
Qed.

Lemma tallied_no_rejection (agents : list Agent) (results : list value)
                           (done : list nat) (l : list Worker) :
  tallied agents results done l -> first_rejected l = None.
Proof.
  intros [_ H]. apply first_rejected_none. intros j w Hj e He.
  destruct (H j w Hj) as [_ [Hdone Hopen]].
  destruct (in_dec Nat.eq_dec j done) as [Hin | Hnot].
  - rewrite (Hdone Hin) in He. discriminate.
  - rewrite (Hopen Hnot) in He. discriminate.
Qed.

Lemma tallied_open (agents : list Agent) (results : list value)
                   (done : list nat) (l : list Worker) (j : nat) :
  tallied agents results done l -> j < length agents -> ~ In j done ->
  all_fulfilled l = None.
Proof.
  intros [Hlen H] Hj Hnot.
  destruct (nth_error l j) as [w | ] eqn:Hw.
  - apply (all_fulfilled_pending l j w Hw). apply (H j w Hw). exact Hnot.
  - apply nth_error_None in Hw. lia.
Qed.

Lemma tallied_full (agents : list Agent) (results : list value)
                   (done : list nat) (l : list Worker) :
  tallied agents results done l -> length results = length agents ->
  (forall j, j < length agents -> In j done) ->
  all_fulfilled l = Some results.
Proof.
  intros [Hlen H] Hres Hall. apply all_fulfilled_results; [ congruence | ].
  intros j w Hj. apply (H j w Hj). apply Hall.
  rewrite <- Hlen. apply nth_error_Some. rewrite Hj. discriminate.
Qed.

(** A worker whose invocation gives a value it can report is done. *)
Lemma worker_succeeds (a : Agent) (ans : FetchResult) (v : value) (f : Flow) :
  invoked host ans = Ok v -> reports host v = true ->
  exists result,
    invokeWorkerAgent_resume host a ans f
    = (Ok v, addStatusUpdate "success" ("Worker Agent " ++ number a ++ " completed")
                             result f).
Proof.
  intros Hans Hv. unfold reports, prints in Hv.
  destruct (get v "status") as [st | e] eqn:Hst; [ | discriminate ].
  cbn [and_then] in Hv.
  destruct (ToString host (or_text st "Success")) as [printed | e] eqn:Hprinted;
    [ | discriminate ].
  unfold invokeWorkerAgent_resume, try_catch, bind, eval, exec, ret.
  rewrite Hans, Hst, Hprinted. eexists. reflexivity.
Qed.

(** A worker ends with one status update, whatever the answer. *)
Lemma worker_ends (a : Agent) (ans : FetchResult) (f : Flow) :
  exists c u,
    invokeWorkerAgent_resume host a ans f = (c, mkFlow (log f ++ [u]) (calls f))
    /\ worker_line u.
Proof.
  unfold invokeWorkerAgent_resume, try_catch, bind, eval, exec, ret, throw,
    addStatusUpdate.
  destruct (invoked host ans) as [v | e].
  - destruct (get v "status") as [st | e].
    + destruct (ToString host (or_text st "Success")) as [printed | e];
        do 2 eexists; (split; [ reflexivity | exists a; simpl; tauto ]).
    + do 2 eexists. split; [ reflexivity | exists a; simpl; tauto ].
  - do 2 eexists. split; [ reflexivity | exists a; simpl; tauto ].
Qed.

(** The answer of a worker that is not the last one expected. *)
Lemma arrive_more (agents : list Agent) (results : list value) (done : list nat)
                  (r : Run) (x : Arrival) (j : nat) :
  settled r = None ->
  tallied agents results done (workerPromises r) ->
  position x < length agents -> ~ In (position x) done ->
  invoked host (answer x) = Ok (nth (position x) results VUndefined) ->
  reports host (nth (position x) results VUndefined) = true ->
  j < length agents -> ~ In j (position x :: done) ->
  let r' := arrive host r x in
  settled r' = None
  /\ tallied agents results (position x :: done) (workerPromises r')
  /\ sent r' = sent r /\ orchestratorResponse r' = orchestratorResponse r
  /\ calls (flow r') = calls (flow r)
  /\ exists u, log (flow r') = (log (flow r) ++ [u])%list
               /\ message u = "Worker Agent "
                              ++ number (nth (position x) agents Worker1) ++ " completed".
Proof.
  intros Hs Ht Hk Hnew Hans Hread Hj Hopen r'.
  destruct x as [k ans iso]. cbn [position answer clock] in *.
  destruct (nth_error (workerPromises r) k) as [w | ] eqn:Hw;
    [ | apply nth_error_None in Hw; destruct Ht as [Hlen _]; lia ].
  pose proof Ht as [_ Hat]. destruct (Hat k w Hw) as [Ha [_ Hp]].
  specialize (Hp Hnew). destruct w as [a p]. cbn [agent promise] in Ha, Hp. subst a p.
  destruct (worker_succeeds (nth k agents Worker1) ans _ (flow r) Hans Hread)
    as [result Hrun].
  pose proof (tallied_step agents results done (workerPromises r) k Ht) as Ht'.
  unfold r', arrive, worker_answers. cbn [position answer clock].
  rewrite Hw, Hrun. unfold react. cbn [settled resolve in_flow workerPromises].
  rewrite Hs, (tallied_no_rejection _ _ _ _ Ht'), (tallied_open _ _ _ _ j Ht' Hj Hopen).
  unfold resolve, in_flow, addStatusUpdate.
  cbn [settled workerPromises sent orchestratorResponse flow calls log].
  split; [ exact Hs | ]. split; [ exact Ht' | ].
  split; [ reflexivity | ]. split; [ reflexivity | ]. split; [ reflexivity | ].
  eexists. split; reflexivity.
Qed.

(** The answer of the last worker expected. *)
Lemma arrive_last (agents : list Agent) (results : list value) (done : list nat)
                  (r : Run) (x : Arrival) :
  settled r = None ->
  tallied agents results done (workerPromises r) ->
  position x < length agents -> ~ In (position x) done ->
  invoked host (answer x) = Ok (nth (position x) results VUndefined) ->
  reports host (nth (position x) results VUndefined) = true ->
  length results = length agents ->
  (forall j, j < length agents -> In j (position x :: done)) ->
  let r' := arrive host r x in
  settled r' = Some (Ok (completed (sent r) (orchestratorResponse r) results (clock x)))
  /\ calls (flow r') = calls (flow r)
  /\ exists u, log (flow r')
               = (log (flow r)
                  ++ [u; mkUpdate "success" "Workflow completed"
                                  "All agents finished successfully"])%list
               /\ message u = "Worker Agent "
                              ++ number (nth (position x) agents Worker1) ++ " completed".
Proof.
  intros Hs Ht Hk Hnew Hans Hread Hlen Hall r'.
  destruct x as [k ans iso]. cbn [position answer clock] in *.
  destruct (nth_error (workerPromises r) k) as [w | ] eqn:Hw;
    [ | apply nth_error_None in Hw; destruct Ht as [Hl _]; lia ].
  pose proof Ht as [_ Hat]. destruct (Hat k w Hw) as [Ha [_ Hp]].
  specialize (Hp Hnew). destruct w as [a p]. cbn [agent promise] in Ha, Hp. subst a p.
  destruct (worker_succeeds (nth k agents Worker1) ans _ (flow r) Hans Hread)
    as [result Hrun].
  pose proof (tallied_step agents results done (workerPromises r) k Ht) as Ht'.
  unfold r', arrive, worker_answers. cbn [position answer clock].
  rewrite Hw, Hrun. unfold react. cbn [settled resolve in_flow workerPromises].
  rewrite Hs, (tallied_no_rejection _ _ _ _ Ht'), (tallied_full _ _ _ _ Ht' Hlen Hall).
  unfold settle, resolve, in_flow, addStatusUpdate.
  cbn [settled workerPromises sent orchestratorResponse flow calls log].
  split; [ reflexivity | ]. split; [ reflexivity | ].
  eexists. split; [ rewrite <- app_assoc; reflexivity | reflexivity ].
Qed.

Lemma arrivals_complete (agents : list Agent) (results : list value)
                        (final : Arrival) (earlier : list Arrival)
                        (done : list nat) (r : Run) :
  settled r = None ->
  tallied agents results done (workerPromises r) ->
  NoDup (map position (earlier ++ [final]) ++ done) ->
  (forall j, j < length agents <-> In j (map position (earlier ++ [final]) ++ done)) ->
  (forall x, In x (earlier ++ [final]) ->
     invoked host (answer x) = Ok (nth (position x) results VUndefined)
     /\ reports host (nth (position x) results VUndefined) = true) ->
  length results = length agents ->
  let r' := arrivals host (earlier ++ [final]) r in
  settled r' = Some (Ok (completed (sent r) (orchestratorResponse r) results
                                   (clock final)))
  /\ calls (flow r') = calls (flow r)
  /\ exists lines,
       log (flow r')
       = (log (flow r) ++ lines
          ++ [mkUpdate "success" "Workflow completed"
                       "All agents finished successfully"])%list
       /\ map message lines
          = map (fun x => "Worker Agent " ++ number (nth (position x) agents Worker1)
                          ++ " completed") (earlier ++ [final]).
Proof.
  revert done r. induction earlier as [ | x earlier IH ]; intros done r Hs Ht Hnd Hall Hok Hlen.
  - cbn [app map] in *. unfold arrivals. cbn [fold_left].
    inversion Hnd as [ | k l Hnew Hrest ]; subst.
    destruct (Hok final (or_introl eq_refl)) as [Hans Hread].
    destruct (arrive_last agents results done r final Hs Ht) as [Hdone [Hcalls [u [Hlog Hu]]]];
      try assumption.
    + apply Hall. left. reflexivity.
    + intros j Hj. apply Hall. exact Hj.
    + split; [ exact Hdone | ]. split; [ exact Hcalls | ].
      exists [u]. split; [ exact Hlog | ]. cbn [map]. rewrite Hu. reflexivity.
  - cbn [app map] in *. unfold arrivals. cbn [fold_left].
    inversion Hnd as [ | k l Hnew Hrest ]; subst.
    destruct (Hok x (or_introl eq_refl)) as [Hans Hread].
    assert (Hfinal : In (position final) (map position (earlier ++ [final]) ++ done)).
    { apply in_or_app. left. rewrite map_app. apply in_or_app. right. left. reflexivity. }
    destruct (arrive_more agents results done r x (position final) Hs Ht)
      as [Hs' [Ht' [Hsent [Hresp [Hcalls [u [Hlog Hu]]]]]]]; try assumption.
    + apply Hall. left. reflexivity.
    + intros Hin. apply Hnew. apply in_or_app. right. exact Hin.
    + apply Hall. right. exact Hfinal.
    + intros [Heq | Hin].
      * apply Hnew. rewrite Heq. exact Hfinal.
      * apply NoDup_app_remove_l in Hrest as Hdone.
        rewrite map_app in Hrest. cbn [map] in Hrest.
        rewrite <- app_assoc in Hrest. apply NoDup_app_remove_l in Hrest.
        cbn [app] in Hrest. inversion Hrest as [ | k l Hk Hl ]; subst.
        apply Hk. exact Hin.
    + destruct (IH (position x :: done) (arrive host r x) Hs' Ht')
        as [Hdone [Hcalls' [lines [Hlog' Hlines]]]].
      * apply NoDup_Add with (a := position x) (l := (map position (earlier ++ [final]) ++ done)%list);
          [ apply Add_app | split; [ exact Hrest | exact Hnew ] ].
      * intros j. rewrite (Hall j). split.
        -- intros [Heq | Hin]; apply in_or_app.
           ++ right. left. exact Heq.
           ++ apply in_app_or in Hin as [Hin | Hin]; [ left | right; right ]; exact Hin.
        -- intros Hin. apply in_app_or in Hin as [Hin | [Heq | Hin]].
           ++ right. apply in_or_app. left. exact Hin.
           ++ left. exact Heq.
           ++ right. apply in_or_app. right. exact Hin.
      * intros y Hy. apply Hok. right. exact Hy.
      * exact Hlen.
      * unfold arrivals in Hdone, Hcalls', Hlog'.
        rewrite Hsent, Hresp in Hdone. split; [ exact Hdone | ].
        split; [ congruence | ].
        exists (u :: lines). split.
        -- rewrite Hlog', Hlog, <- app_assoc. reflexivity.
        -- cbn [map]. rewrite Hu, Hlines. reflexivity.
Qed.

(** X24: when every worker of a workflow answers with a value it can
    report (the [status] of the value can be read and printed), the
    workflow is fulfilled at the last answer, in whatever order the answers
    arrive: [workerResults] holds the values in the order of
    the tasks, not of the arrivals, and [timestamp] the clock at the last
    answer.  The callback is told the end of each worker as it arrives and
    then, once, Workflow completed; no Lambda is invoked any more. *)
Theorem X24_results_come_in_task_order
    (r : Run) (agents : list Agent) (results : list value)
    (earlier : list Arrival) (final : Arrival) :
  settled r = None ->
  workerPromises r = map (fun a => mkWorker a Pending) agents ->
  Permutation (map position (earlier ++ [final])) (seq 0 (length agents)) ->
  length results = length agents ->
  (forall x, In x (earlier ++ [final]) ->
     invoked host (answer x) = Ok (nth (position x) results VUndefined)
     /\ reports host (nth (position x) results VUndefined) = true) ->
  let r' := arrivals host (earlier ++ [final]) r in
  settled r' = Some (Ok (completed (sent r) (orchestratorResponse r) results
                                   (clock final)))
  /\ calls (flow r') = calls (flow r)
  /\ exists lines,
       log (flow r')
       = (log (flow r) ++ lines
          ++ [mkUpdate "success" "Workflow completed"
                       "All agents finished successfully"])%list
       /\ map message lines
          = map (fun x => "Worker Agent " ++ number (nth (position x) agents Worker1)
                          ++ " completed") (earlier ++ [final]).
Proof.
  intros Hs Hw Hperm Hlen Hok.
  apply (arrivals_complete agents results final earlier [] r); try assumption.
  - rewrite Hw. apply tallied_start.
  - rewrite app_nil_r.
    apply (Permutation_NoDup (Permutation_sym Hperm)).
    apply seq_NoDup.
  - intros j. rewrite app_nil_r. split.
    + intros Hj. apply (Permutation_in j (Permutation_sym Hperm)).
      apply in_seq. lia.
    + intros Hin. apply (Permutation_in j Hperm) in Hin.
      apply in_seq in Hin. lia.
Qed.

(** A workflow that is settled stays as it is when a worker answers; the
    worker still tells the callback how it ended. *)
Lemma arrive_settled (r : Run) (c : Completion value) (x : Arrival) :
  settled r = Some c ->
  settled (arrive host r x) = Some c
  /\ calls (flow (arrive host r x)) = calls (flow r)
  /\ exists lines, log (flow (arrive host r x)) = (log (flow r) ++ lines)%list
                   /\ length lines <= 1 /\ Forall worker_line lines.
Proof.
  intros Hs. unfold arrive, worker_answers.
  destruct (nth_error (workerPromises r) (position x)) as [[a [ | v | e]] | ];
    try (repeat split; [ exact Hs | ]; exists []; rewrite app_nil_r;
         repeat split; [ simpl; lia | constructor ]).
  destruct (worker_ends a (answer x) (flow r)) as [c0 [u [Hrun Hu]]].
  rewrite Hrun. unfold react. cbn [settled resolve in_flow]. rewrite Hs.
  cbn. repeat split; [ exact Hs | ].
  exists [u]. repeat split; [ simpl; lia | constructor; [ exact Hu | constructor ] ].
Qed.

Lemma arrivals_settled (later : list Arrival) (r : Run) (c : Completion value) :
  settled r = Some c ->
  settled (arrivals host later r) = Some c
  /\ calls (flow (arrivals host later r)) = calls (flow r)
  /\ exists lines, log (flow (arrivals host later r)) = (log (flow r) ++ lines)%list
                   /\ length lines <= length later /\ Forall worker_line lines.
Proof.
  revert r. induction later as [ | x later IH ]; intros r Hs.
  - repeat split; [ exact Hs | ]. exists []. rewrite app_nil_r.
    repeat split; [ simpl; lia | constructor ].
  - destruct (arrive_settled r c x Hs) as [Hs1 [Hc1 [l1 [Hl1 [Hn1 Hw1]]]]].
    destruct (IH (arrive host r x) Hs1) as [Hs2 [Hc2 [l2 [Hl2 [Hn2 Hw2]]]]].
    unfold arrivals in *. cbn [fold_left].
    split; [ exact Hs2 | ]. split; [ congruence | ].
    exists (l1 ++ l2)%list. split; [ rewrite Hl2, Hl1, app_assoc; reflexivity | ].
    split; [ rewrite length_app; simpl; lia | apply Forall_app; split; assumption ].
Qed.

(** X25: the first worker whose invocation fails (the fetch is rejected,
    the response is not a 2xx one, its body is no JSON or is [null])
    rejects the workflow with its error: the callback is told that the
    worker failed and then Workflow failed, with the message of the error.
    The workflow stays rejected with that error whatever the other workers
    answer afterwards: each tells the callback at most its own end, and
    neither Workflow completed nor Workflow failed is said again. *)
Theorem X25_first_failure_rejects_for_good
    (r : Run) (k : nat) (a : Agent) (ans : FetchResult) (iso : string) (e : Exn)
    (later : list Arrival) :
  settled r = None ->
  first_rejected (workerPromises r) = None ->
  nth_error (workerPromises r) k = Some (mkWorker a Pending) ->
  invoked host ans = Thrown e
  \/ (invoked host ans = Ok VNull /\ e = TypeError_read "null" "status") ->
  let r1 := worker_answers host k ans iso r in
  let r2 := arrivals host later r1 in
  settled r1 = Some (Thrown e)
  /\ log (flow r1)
     = (log (flow r)
        ++ [mkUpdate "error" ("Worker Agent " ++ number a ++ " failed") (JS.message e);
            mkUpdate "error" "Workflow failed" (JS.message e)])%list
  /\ settled r2 = Some (Thrown e)
  /\ calls (flow r2) = calls (flow r)
  /\ exists lines,
       log (flow r2) = (log (flow r1) ++ lines)%list
       /\ length lines <= length later
       /\ Forall worker_line lines.
Proof.
  intros Hs Hnone Hk Hans r1 r2.
  assert (Hrun : invokeWorkerAgent_resume host a ans (flow r)
                 = (Thrown e,
                    addStatusUpdate "error" ("Worker Agent " ++ number a ++ " failed")
                                    (JS.message e) (flow r))).
  { unfold invokeWorkerAgent_resume, try_catch, bind, eval, exec, throw.
    destruct Hans as [-> | [-> ->]]; reflexivity. }
  assert (Hr1 : r1 = settle (Thrown e)
                       (in_flow (addStatusUpdate "error" "Workflow failed" (JS.message e))
                          (resolve k (Rejected e)
                             (in_flow (fun _ => addStatusUpdate "error"
                                          ("Worker Agent " ++ number a ++ " failed")
                                          (JS.message e) (flow r)) r)))).
  { unfold r1, worker_answers. rewrite Hk, Hrun. unfold react.
    cbn [settled resolve in_flow workerPromises]. rewrite Hs.
    rewrite (first_rejected_new k e _ _ Hnone Hk). reflexivity. }
  assert (Hs1 : settled r1 = Some (Thrown e)) by (rewrite Hr1; reflexivity).
  destruct (arrivals_settled later r1 _ Hs1) as [Hs2 [Hc2 [lines Hlines]]].
  split; [ exact Hs1 | ].
  split; [ rewrite Hr1; cbn; rewrite <- app_assoc; reflexivity | ].
  split; [ exact Hs2 | ].
  split; [ fold r2 in Hc2; rewrite Hc2, Hr1; reflexivity | ].
  exists lines. exact Hlines.
Qed.

End WithHost.

(** *** Examples *)

Import Examples Workflows.

(** An answer of the orchestrator that only reports a status is returned
    as it came. *)
Lemma X19_answer_without_tasks_is_returned :
  settled (processChatMessage_resume Examples.host "hi"
             (ok_response (status_doc "done")) seconds "12:00" nothing)
  = Some (Ok (VObj [("status", VStr "done")])).
Proof.
  destruct (X19_no_tasks_returns_the_orchestrator_response Examples.host "hi"
              (ok_response (status_doc "done")) [("status", VStr "done")]
              seconds "12:00" nothing)
    as [H _]; [ vm_compute; reflexivity | reflexivity | ].
  rewrite (H "0" eq_refl). reflexivity.
Defined.

(** A 504 of the gateway for the orchestrator fails the workflow. *)
Lemma X20_gateway_timeout_fails_the_workflow :
  settled (processChatMessage_resume Examples.host "hi" gateway_timeout
             seconds "12:00" nothing)
  = Some (Thrown (mkExn "Error" "Lambda invocation failed: Gateway Timeout")).
Proof.
  rewrite (X20_orchestrator_failure_fails_the_workflow Examples.host "hi"
             gateway_timeout
             (mkExn "Error" "Lambda invocation failed: Gateway Timeout")
             seconds "12:00" nothing);
    [ reflexivity | left; reflexivity ].
Defined.

(** Two tasks and no [assignedAgents]. *)
Lemma X21_two_tasks_and_no_agents :
  settled (processChatMessage_resume Workflows.host "hi"
             (ok_response unassigned_doc) seconds "12:00" nothing)
  = Some (Thrown (TypeError_read "undefined" "0")).
Proof.
  destruct (X21_tasks_without_assignment_fail_before_any_worker Workflows.host "hi"
              (ok_response unassigned_doc) [("tasks", VArr [sum_task; sort_task])]
              "0" seconds "12:00" nothing)
    as [H _]; [ vm_compute; reflexivity | reflexivity | reflexivity | ].
  destruct (H sum_task [sort_task] eq_refl) as [Hu _].
  exact (proj1 (Hu eq_refl)).
Defined.

(** Two tasks, for worker 2 and for worker 1: their Lambdas are invoked in
    that order, each with the clock its worker read. *)
Lemma X22_two_tasks_two_invocations :
  map (fun c => (functionName c, Poller.field "timestamp" (payload c)))
      (calls (flow delegated_run))
  = [("worker-agent-2-lambda", VStr "12:00:00");
     ("worker-agent-1-lambda", VStr "12:00:01")].
Proof.
  destruct (X22_each_task_goes_to_its_worker Workflows.host "hi"
              (ok_response two_tasks_doc)
              [("tasks", VArr [sum_task; sort_task]);
               ("assignedAgents", VArr [VStr "worker-2"; VStr "worker-1"])]
              seconds "12:00" nothing plan)
    as [_ [_ [_ [_ [Hcalls _]]]]].
  - vm_compute. reflexivity.
  - reflexivity.
  - reflexivity.
  - discriminate.
  - repeat constructor.
  - unfold delegated_run. rewrite Hcalls. reflexivity.
Defined.

(** Two tasks of which the first is for worker-5 and the second for
    nobody. *)
Lemma X23_two_tasks_for_strangers :
  settled (processChatMessage_resume Workflows.host "hi"
             (ok_response strangers_doc) seconds "12:00" nothing)
  = Some (Ok (completed "hi" strangers [] "12:00")).
Proof.
  destruct (X23_unknown_agents_complete_with_no_result Workflows.host "hi"
              (ok_response strangers_doc)
              [("tasks", VArr [sum_task; sort_task]);
               ("assignedAgents", VArr [VStr "worker-5"])]
              "1" seconds "12:00" nothing sum_task [sort_task])
    as [H _].
  - vm_compute. reflexivity.
  - reflexivity.
  - reflexivity.
  - intros [ | [ | i ] ] Hi; [ | | simpl in Hi; lia ];
      do 2 eexists; (split; [ | split ]); reflexivity.
  - exact H.
Defined.

(** The worker of the second task answers before the worker of the first:
    the results are in the order of the tasks. *)
Lemma X24_second_worker_answers_first :
  settled (arrivals Workflows.host (second_first ++ [then_first]) delegated_run)
  = Some (Ok (completed "hi" two_tasks
                [VObj [("status", VStr "A")]; VObj [("status", VStr "done")]]
                "12:02")).
Proof.
  destruct (X24_results_come_in_task_order Workflows.host delegated_run
              [Worker2; Worker1]
              [VObj [("status", VStr "A")]; VObj [("status", VStr "done")]]
              second_first then_first)
    as [H _].
  - vm_compute. reflexivity.
  - vm_compute. reflexivity.
  - apply perm_swap.
  - reflexivity.
  - intros x [<- | [<- | []]]; split; vm_compute; reflexivity.
  - rewrite H. vm_compute. reflexivity.
Defined.

(** The worker of the first task fails and the worker of the second is
    done afterwards. *)
Lemma X25_timeout_then_done :
  settled (arrivals Workflows.host second_first
             (worker_answers Workflows.host 0 gateway_timeout "12:01" delegated_run))
  = Some (Thrown (mkExn "Error" "Lambda invocation failed: Gateway Timeout")).
Proof.
  destruct (X25_first_failure_rejects_for_good Workflows.host delegated_run 0 Worker2
              gateway_timeout "12:01"
              (mkExn "Error" "Lambda invocation failed: Gateway Timeout")
              second_first)
    as [_ [_ [H _]]].
  - vm_compute. reflexivity.
  - vm_compute. reflexivity.
  - vm_compute. reflexivity.
  - left. reflexivity.
  - exact H.
Defined.

End LambdaFacts.

(** * Properties of the application's send *)

Module AppFacts.
Import App.

(** The id every status update of the render [r] gets. *)
Lemma told_appends (r : State) (clock : nat -> string) (said : list AwsLambda.Update)
                   (n : nat) (s : State) :
  messages (told r clock n said s) = messages s
  /\ exists added,
       statusUpdates (told r clock n said s) = (statusUpdates s ++ added)%list
       /\ length added = length said
       /\ Forall (fun u => StatusUpdate.id u = length (statusUpdates r) + 1) added.
Proof.
  revert n s. induction said as [ | u said IH ]; intros n s.
  - split; [ reflexivity | ]. exists []. rewrite app_nil_r.
    repeat split. constructor.
  - cbn [told]. destruct (IH (S n) (addStatusUpdate r (clock n)
                                      (VStr (AwsLambda.type u))
                                      (VStr (AwsLambda.message u))
                                      (VStr (AwsLambda.details u)) s))
      as [Hm [added [Hs [Hlen Hall]]]].
    split; [ rewrite Hm; reflexivity | ].
    eexists (_ :: added). split; [ | split ].
    + rewrite Hs. cbn [addStatusUpdate setStatusUpdates statusUpdates].
      rewrite <- app_assoc. reflexivity.
    + simpl. rewrite Hlen. reflexivity.
    + constructor; [ reflexivity | exact Hall ].
Qed.

Lemma each_update_cases (r : State) (clock : nat -> string) (update : value)
                         (n : nat) (s : State) :
  (exists type message details,
     each_update r clock update n s
     = (Ok tt, addStatusUpdate r (clock n) type message details s))
  \/ (exists e, each_update r clock update n s = (Thrown e, s)).
Proof.
  unfold each_update, bind, eval, exec.
  destruct update; cbn [get];
    try (left; do 3 eexists; reflexivity); right; eexists; reflexivity.
Qed.

Lemma updates_append (r : State) (clock : nat -> string) (items : list value)
                     (n : nat) (s : State) :
  messages (snd (forEach (each_update r clock) items n s)) = messages s
  /\ exists added,
       statusUpdates (snd (forEach (each_update r clock) items n s))
       = (statusUpdates s ++ added)%list
       /\ Forall (fun u => StatusUpdate.id u = length (statusUpdates r) + 1) added.
Proof.
  revert n s. induction items as [ | update items IH ]; intros n s.
  - split; [ reflexivity | ]. exists []. rewrite app_nil_r.
    split; [ reflexivity | constructor ].
  - cbn [forEach]. unfold bind.
    destruct (each_update_cases r clock update n s)
      as [[ty [m [d Hcall]]] | [e Hcall]]; rewrite Hcall.
    + destruct (IH (S n) (addStatusUpdate r (clock n) ty m d s))
        as [Hm [added [Hs Hall]]].
      split; [ rewrite Hm; reflexivity | ].
      eexists (_ :: added). split.
      * rewrite Hs. cbn [addStatusUpdate setStatusUpdates statusUpdates].
        rewrite <- app_assoc. reflexivity.
      * constructor; [ reflexivity | exact Hall ].
    + split; [ reflexivity | ].
      exists []. rewrite app_nil_r. split; [ reflexivity | constructor ].
Qed.

(** A send that ends in its [catch], after an error that is not the
    rejection of the workflow. *)
Ltac ends_in_error :=
  cbn [fst snd]; split; [ reflexivity | ];
  split;
  [ eexists [_]; split; [ reflexivity | constructor; [ reflexivity | constructor ] ]
  | right; do 2 eexists; split; [ reflexivity | ];
    split; [ reflexivity | intros e0 He0; discriminate ] ].

(** How a send ends: with a bot message and the updates of the result, or
    with the updates before the error and the update Error. *)
Lemma resume_ends (r : State) (outcome : Completion value) (clock : nat -> string)
                  (iso time : string) (s : State) :
  let s' := snd (handleSendMessage_resume r outcome clock iso time s) in
  fst (handleSendMessage_resume r outcome clock iso time s) = Ok tt
  /\ (exists added,
        statusUpdates s' = (statusUpdates s ++ added)%list
        /\ Forall (fun u => StatusUpdate.id u = length (statusUpdates r) + 1) added)
  /\ ((exists result response,
         outcome = Ok result /\ get result "response" = Ok response
         /\ messages s'
            = (messages s
               ++ [Message.mk (length (messages r) + 2)
                              (AwsLambda.or_text response "Done") "bot" time])%list)
      \/ (exists error earlier,
            messages s' = messages s
            /\ statusUpdates s'
               = (earlier
                  ++ [StatusUpdate.mk (length (statusUpdates r) + 1) (VStr "error")
                                      (VStr "Error") iso (VStr (JS.message error))])%list
            /\ (forall e, outcome = Thrown e -> error = e /\ earlier = statusUpdates s))).
Proof.
  intros s'. unfold s'. clear s'.
  unfold handleSendMessage_resume, try_catch, bind, eval, exec, ret, throw.
  destruct outcome as [result | e].
  - destruct (get result "updates") as [updates | e] eqn:Hupd; [ | ends_in_error ].
    assert (Hresp : exists response, get result "response" = Ok response).
    { destruct result; try discriminate; eexists; reflexivity. }
    destruct Hresp as [response Hresp]. rewrite Hresp.
    destruct (truthy updates) eqn:Htruthy.
    + destruct updates as [ | | b | x | t | items | fields ];
        try discriminate; try ends_in_error.
      destruct (updates_append r clock items 0 s) as [Hm [added [Hs Hall]]].
      destruct (forEach (each_update r clock) items 0 s) as [[[] | e] s1];
        cbn [fst snd] in *.
      * split; [ reflexivity | ]. split.
        -- exists added. split; [ exact Hs | exact Hall ].
        -- left. exists result, response. rewrite <- Hm. repeat split. exact Hresp.
      * split; [ reflexivity | ]. split.
        -- eexists (added ++ [_])%list.
           cbn [addStatusUpdate setStatusUpdates statusUpdates].
           rewrite Hs, <- app_assoc.
           split; [ reflexivity | ].
           apply Forall_app. split; [ exact Hall | ].
           constructor; [ reflexivity | constructor ].
        -- right. exists e, (statusUpdates s1). split; [ exact Hm | ].
           split; [ reflexivity | intros e0 He0; discriminate ].
    + cbn [fst snd]. split; [ reflexivity | ]. split.
      * exists []. rewrite app_nil_r. split; [ reflexivity | constructor ].
      * left. exists result, response. repeat split. exact Hresp.
  - cbn [fst snd]. split; [ reflexivity | ]. split.
    + eexists [_]. split; [ reflexivity | constructor; [ reflexivity | constructor ] ].
    + right. exists e, (statusUpdates s). split; [ reflexivity | ].
      split; [ reflexivity | ]. intros e0 He0. injection He0 as ->. split; reflexivity.
Qed.

(** X26: every status update recorded during one send carries the same
    id, the length of [statusUpdates] at the render of the handler plus
    one: those [processChatMessage] says, those of [result.updates] and
    the update Error.  A send that says two updates leaves two elements of
    [statusUpdates] with the same id. *)
Theorem X26_status_updates_of_a_send_share_one_id
    (r : State) (newMessage time : string) (said : list AwsLambda.Update)
    (told_at : nat -> string) (outcome : Completion value)
    (clock : nat -> string) (iso time' : string) (s : State) :
  exists added,
    statusUpdates (send r newMessage time said told_at outcome clock iso time' s)
    = (statusUpdates s ++ added)%list
    /\ length said <= length added
    /\ Forall (fun u => StatusUpdate.id u = length (statusUpdates r) + 1) added.
Proof.
  unfold send.
  destruct (told_appends r told_at said 0 (handleSendMessage r newMessage time s))
    as [_ [added1 [Hs1 [Hlen1 Hall1]]]].
  destruct (resume_ends r outcome clock iso time'
              (told r told_at 0 said (handleSendMessage r newMessage time s)))
    as [_ [[added2 [Hs2 Hall2]] _]].
  exists (added1 ++ added2)%list. split; [ | split ].
  - rewrite Hs2, Hs1, app_assoc. reflexivity.
  - rewrite length_app. lia.
  - apply Forall_app. split; assumption.
Qed.

Lemma get_readable (v : value) (k : string) :
  AwsLambda.readable v = true -> get v k = Ok (Poller.field k v).
Proof. destruct v; simpl; intros H; try discriminate; reflexivity. Qed.

Lemma get_unreadable (v : value) (k : string) :
  AwsLambda.readable v = false -> exists e, get v k = Thrown e.
Proof. destruct v; simpl; intros H; try discriminate; eexists; reflexivity. Qed.

(** The updates of a result that can all be read are all copied. *)
Lemma updates_copied (r : State) (clock : nat -> string) (items : list value)
                     (n : nat) (s : State) :
  forallb AwsLambda.readable items = true ->
  forEach (each_update r clock) items n s
  = (Ok tt, mkState (messages s) (statusUpdates s ++ copied r clock n items)%list).
Proof.
  revert n s. induction items as [ | item items IH ]; intros n s Hall.
  - cbn [forEach copied]. rewrite app_nil_r. destruct s. reflexivity.
  - cbn [forallb] in Hall. apply andb_prop in Hall as [Hitem Hrest].
    cbn [forEach copied]. unfold bind at 1.
    unfold each_update, bind, eval, exec.
    rewrite !(get_readable item _ Hitem).
    rewrite (IH (S n) _ Hrest).
    cbn [addStatusUpdate setStatusUpdates messages statusUpdates].
    rewrite <- app_assoc. reflexivity.
Qed.

(** An update that cannot be read stops the copy. *)
Lemma updates_stopped (r : State) (clock : nat -> string) (items : list value)
                      (n : nat) (s : State) :
  forallb AwsLambda.readable items = false ->
  exists e s1, forEach (each_update r clock) items n s = (Thrown e, s1).
Proof.
  revert n s. induction items as [ | item items IH ]; intros n s Hall;
    [ discriminate | ].
  cbn [forallb] in Hall. cbn [forEach]. unfold bind at 1.
  destruct (AwsLambda.readable item) eqn:Hitem.
  - cbn [andb] in Hall.
    unfold each_update, bind, eval, exec.
    rewrite !(get_readable item _ Hitem).
    apply (IH (S n) _ Hall).
  - destruct (get_unreadable item "type" Hitem) as [e He].
    unfold each_update, bind, eval. rewrite He. do 2 eexists. reflexivity.
Qed.

(** X27: [handleSendMessage] never rejects, whatever [processChatMessage]
    does.  A send leaves the messages of the render of its handler followed
    by the message of the user.  When the workflow is fulfilled with a
    result that can be shown ([result.updates] is falsy or an array of
    values that are not [null]), the updates of the result are copied to
    the status updates and one message of the bot follows, with the text
    [result.response || 'Done'].  When the result cannot be shown, no bot
    message is added and the last status update is Error.  When the
    workflow is rejected, no bot message is added and the only status
    update added is Error with the message of its error. *)
Theorem X27_a_send_ends_with_a_bot_message_or_an_error
    (r : State) (newMessage time : string) (said : list AwsLambda.Update)
    (told_at : nat -> string) (outcome : Completion value)
    (clock : nat -> string) (iso time' : string) (s : State) :
  let s0 := told r told_at 0 said (handleSendMessage r newMessage time s) in
  let ended := handleSendMessage_resume r outcome clock iso time' s0 in
  let user := Message.mk (length (messages r) + 1) (VStr newMessage) "user" time in
  let Error error :=
    StatusUpdate.mk (length (statusUpdates r) + 1) (VStr "error") (VStr "Error") iso
                    (VStr (JS.message error)) in
  fst ended = Ok tt
  /\ (forall result, outcome = Ok result -> shows result = true ->
        messages (snd ended)
        = (messages r
           ++ [user;
               Message.mk (length (messages r) + 2)
                          (AwsLambda.or_text (Poller.field "response" result) "Done")
                          "bot" time'])%list
        /\ statusUpdates (snd ended)
           = (statusUpdates s0 ++ copied r clock 0 (updates_of result))%list)
  /\ (forall result, outcome = Ok result -> shows result = false ->
        messages (snd ended) = (messages r ++ [user])%list
        /\ exists error earlier,
             statusUpdates (snd ended) = (earlier ++ [Error error])%list)
  /\ (forall e, outcome = Thrown e ->
        messages (snd ended) = (messages r ++ [user])%list
        /\ statusUpdates (snd ended) = (statusUpdates s0 ++ [Error e])%list).
Proof.
  intros s0 ended user Error.
  assert (Hm0 : messages s0 = (messages r ++ [user])%list).
  { unfold s0. destruct (told_appends r told_at said 0
                           (handleSendMessage r newMessage time s)) as [Hm _].
    rewrite Hm. reflexivity. }
  split; [ apply resume_ends | ].
  unfold ended, handleSendMessage_resume, try_catch, bind, eval, exec, ret, throw.
  split; [ | split ].
  - intros result -> Hshows. unfold shows in Hshows.
    apply andb_prop in Hshows as [Hread Hupd].
    rewrite !(get_readable result _ Hread). unfold updates_of.
    destruct (truthy (Poller.field "updates" result)) eqn:Htruthy.
    + destruct (Poller.field "updates" result) as [ | | b | x | t | items | fields ];
        try discriminate.
      rewrite (updates_copied r clock items 0 s0 Hupd).
      cbn [fst snd setMessages messages statusUpdates]. rewrite Hm0.
      split; [ rewrite <- app_assoc; reflexivity | reflexivity ].
    + cbn [fst snd setMessages messages statusUpdates]. rewrite Hm0.
      split; [ rewrite <- app_assoc; reflexivity | ].
      destruct (Poller.field "updates" result); try discriminate;
        rewrite app_nil_r; reflexivity.
  - intros result -> Hshows. unfold shows in Hshows.
    destruct (AwsLambda.readable result) eqn:Hread.
    + cbn [andb] in Hshows. rewrite !(get_readable result _ Hread).
      destruct (truthy (Poller.field "updates" result)) eqn:Htruthy;
        [ | discriminate ].
      destruct (Poller.field "updates" result) as [ | | b | x | t | items | fields ];
        try discriminate;
        try (cbn [fst snd addStatusUpdate setStatusUpdates messages statusUpdates];
             split; [ exact Hm0 | do 2 eexists; reflexivity ]).
      destruct (updates_stopped r clock items 0 s0 Hshows) as [e [s1 Hstop]].
      pose proof (updates_append r clock items 0 s0) as [Hm1 _].
      rewrite Hstop in Hm1 |- *. cbn [snd] in Hm1.
      cbn [fst snd addStatusUpdate setStatusUpdates messages statusUpdates].
      split; [ rewrite Hm1; exact Hm0 | do 2 eexists; reflexivity ].
    + destruct (get_unreadable result "updates" Hread) as [e He]. rewrite He.
      cbn [fst snd addStatusUpdate setStatusUpdates messages statusUpdates].
      split; [ exact Hm0 | do 2 eexists; reflexivity ].
  - intros e ->.
    cbn [fst snd addStatusUpdate setStatusUpdates messages statusUpdates].
    split; [ exact Hm0 | reflexivity ].
Qed.

(** X28: when the workers ran and all answered, the message of the bot is
    Done, whatever they and the orchestrator returned: the result of
    [processChatMessage] then has neither a [response] nor [updates], so no
    result of a worker reaches the chat and no status update is added after
    those the workflow said. *)
Theorem X28_after_the_workers_the_bot_says_done
    (r : State) (newMessage time : string) (said : list AwsLambda.Update)
    (told_at : nat -> string)
    (response : value) (workerResults : list value) (done_at : string)
    (clock : nat -> string) (iso time' : string) (s : State) :
  send r newMessage time said told_at
       (Ok (AwsLambda.completed newMessage response workerResults done_at))
       clock iso time' s
  = mkState (messages r
             ++ [Message.mk (length (messages r) + 1) (VStr newMessage) "user" time;
                 Message.mk (length (messages r) + 2) (VStr "Done") "bot" time'])%list
            (statusUpdates (told r told_at 0 said s)).
Proof.
  unfold send.
  assert (Htold : forall said n s0,
             statusUpdates (told r told_at n said (handleSendMessage r newMessage time s0))
             = statusUpdates (told r told_at n said s0)
             /\ messages (told r told_at n said (handleSendMessage r newMessage time s0))
                = (messages r
                   ++ [Message.mk (length (messages r) + 1) (VStr newMessage)
                                  "user" time])%list).
  { induction said0 as [ | u said0 IH ]; intros n s0.
    - split; reflexivity.
    - cbn [told]. apply (IH (S n) (addStatusUpdate r (told_at n)
                                     (VStr (AwsLambda.type u))
                                     (VStr (AwsLambda.message u))
                                     (VStr (AwsLambda.details u)) s0)). }
  destruct (Htold said 0 s) as [Hs Hm].
  destruct (told r told_at 0 said (handleSendMessage r newMessage time s))
    as [ms us] eqn:Hstate.
  cbn [messages statusUpdates] in Hs, Hm. subst ms us.
  cbn. unfold setMessages. cbn [messages statusUpdates].
  rewrite <- app_assoc. reflexivity.
Qed.

(** X29: the ids of the messages are counted from the render of the
    handler.  When a second message is sent before the first is answered,
    the second message of the user and the answer to the first get the
    same id. *)
Theorem X29_overlapping_sends_repeat_a_message_id
    (r : State) (first second time1 time2 : string)
    (said : list AwsLambda.Update) (told_at : nat -> string)
    (result updates response : value)
    (clock : nat -> string) (iso time' : string) :
  get result "updates" = Ok updates ->
  truthy updates = false ->
  get result "response" = Ok response ->
  let r' := told r told_at 0 said (handleSendMessage r first time1 r) in
  let s := handleSendMessage r' second time2 r' in
  messages (snd (handleSendMessage_resume r (Ok result) clock iso time' s))
  = (messages r
     ++ [Message.mk (length (messages r) + 1) (VStr first) "user" time1;
         Message.mk (length (messages r) + 2) (VStr second) "user" time2;
         Message.mk (length (messages r) + 2) (AwsLambda.or_text response "Done")
                    "bot" time'])%list.
Proof.
  intros Hupd Hfalsy Hresp r' s.
  destruct (told_appends r told_at said 0 (handleSendMessage r first time1 r))
    as [Hm _].
  fold r' in Hm. cbn [handleSendMessage setMessages messages] in Hm.
  unfold handleSendMessage_resume, try_catch, bind, eval, exec, ret.
  rewrite Hupd, Hfalsy, Hresp.
  unfold s. cbn [snd handleSendMessage setMessages messages].
  rewrite Hm, length_app, <- !app_assoc. cbn [length app].
  replace (length (messages r) + 1 + 1) with (length (messages r) + 2) by lia.
  reflexivity.
Qed.

(** The orchestrator had no task and answered with a status only: the bot
    says Done. *)
Lemma X27_a_result_without_response_is_answered_with_done :
  map Message.text
      (messages
         (snd (handleSendMessage_resume (mount "t0" "t0")
                 (Ok (VObj [("status", VStr "done")]))
                 (fun _ => "t2") "t2" "10:03 AM"
                 (told (mount "t0" "t0") (fun _ => "t1") 0 []
                       (handleSendMessage (mount "t0" "t0") "hi" "10:02 AM"
                                          (mount "t0" "t0"))))))
  = [VStr "Hello! Welcome to the chat."; VStr "Hi there!";
     VStr "How can I help you today?"; VStr "hi"; VStr "Done"].
Proof.
  exact (f_equal (map Message.text)
           (proj1 (proj1 (proj2
              (X27_a_send_ends_with_a_bot_message_or_an_error (mount "t0" "t0")
                 "hi" "10:02 AM" [] (fun _ => "t1")
                 (Ok (VObj [("status", VStr "done")]))
                 (fun _ => "t2") "t2" "10:03 AM" (mount "t0" "t0")))
              (VObj [("status", VStr "done")]) eq_refl eq_refl))).
Defined.

(** The first message is answered by the finished workflow after a second
    was sent. *)
Lemma X29_second_message_before_the_first_answer :
  map Message.id
      (messages
         (snd (handleSendMessage_resume (mount "t0" "t0")
                 (Ok (AwsLambda.completed "one" VNull [] "t3"))
                 (fun _ => "t4") "t4" "10:03 AM"
                 (handleSendMessage
                    (handleSendMessage (mount "t0" "t0") "one" "10:02 AM"
                                       (mount "t0" "t0"))
                    "two" "10:02 AM"
                    (handleSendMessage (mount "t0" "t0") "one" "10:02 AM"
                                       (mount "t0" "t0"))))))
  = [1; 2; 3; 4; 5; 5].
Proof.
  exact (f_equal (map Message.id)
           (X29_overlapping_sends_repeat_a_message_id (mount "t0" "t0")
              "one" "two" "10:02 AM" "10:02 AM" [] (fun _ => "t0")
              (AwsLambda.completed "one" VNull [] "t3") VUndefined VUndefined
              (fun _ => "t4") "t4" "10:03 AM" eq_refl eq_refl eq_refl)).
Defined.

End AppFacts.
